(** * smsgw-client-go: the gateway client, its wire format and [Send]

    A shallow embedding of [smsgwclient.go].  The Go program is thirty lines
    of control flow around [encoding/json], [net/http], [time] and [strconv];
    the parts of those packages that decide what [Send] does are modelled
    next to the code that calls them, under the names they have in Go. *)

From Stdlib Require Import ZArith String Ascii List Bool.
From stdpp Require Import base option list gmap strings pretty sorting.

Open Scope string_scope.
Open Scope list_scope.
Open Scope Z_scope.

(** ** Go values *)

(** A Go slice is either [nil] or a (possibly empty) sequence; [json.Marshal]
    tells the two apart ([null] against [[]]). *)
Definition slice (A : Type) : Type := option (list A).

(** The dynamic types behind the [error] values [Send] can return. *)
Inductive error : Type :=
| errorString (s : string)                       (* errors.New *)
| MarshalerError (gotype : string) (err : error) (* *json.MarshalerError *)
| SyntaxError (c : ascii) (context : string)     (* *json.SyntaxError *)
| UnmarshalTypeError (value gotype : string)     (* *json.UnmarshalTypeError *)
| urlError (op url : string) (err : error).      (* *url.Error, from http.Client.Do *)

Definition errors_New (text : string) : error := errorString text.

Definition io_EOF : error := errors_New "EOF".
Definition io_ErrUnexpectedEOF : error := errors_New "unexpected EOF".

(** [strconv.Itoa]: decimal digits, a leading [-] for negative numbers. *)
Definition strconv_Itoa (i : Z) : string := pretty i.

(** Results of the fallible encoders. *)
Inductive res (A : Type) : Type :=
| Ok (a : A)
| Err (e : error).
Arguments Ok {A} a.
Arguments Err {A} e.

#[global] Instance res_ret : MRet res := fun A a => Ok a.
#[global] Instance res_bind : MBind res := fun A B k r =>
  match r with Ok a => k a | Err e => Err e end.
#[global] Instance res_fmap : FMap res := fun A B f r =>
  match r with Ok a => Ok (f a) | Err e => Err e end.

Fixpoint res_mapM {A B} (f : A -> res B) (l : list A) : res (list B) :=
  match l with
  | [] => Ok []
  | a :: l' => b ← f a; bs ← res_mapM f l'; Ok (b :: bs)
  end.

(** ** Bytes and UTF-8 *)

Definition code (c : ascii) : Z := Z.of_N (N_of_ascii c).
Definition byte_of (z : Z) : ascii := ascii_of_N (Z.to_N (z mod 256)).

Definition RuneError : Z := 65533.  (* U+FFFD *)

Definition is_cont (c : ascii) : bool := (128 <=? code c) && (code c <=? 191).

(** [utf8.DecodeRuneInString]: the first rune of [s] and its width; an
    ill-formed sequence gives [(RuneError, 1)]. *)
Definition utf8_DecodeRune (s : string) : Z * nat :=
  match s with
  | EmptyString => (RuneError, 0%nat)
  | String c0 t0 =>
    let s0 := code c0 in
    if s0 <? 128 then (s0, 1%nat)
    else if (s0 <? 194) || (244 <? s0) then (RuneError, 1%nat)
    else
      let sz : nat := if s0 <? 224 then 2%nat else if s0 <? 240 then 3%nat else 4%nat in
      let lo := if s0 =? 224 then 160 else if s0 =? 240 then 144 else 128 in
      let hi := if s0 =? 237 then 159 else if s0 =? 244 then 143 else 191 in
      match t0 with
      | EmptyString => (RuneError, 1%nat)
      | String c1 t1 =>
        let s1 := code c1 in
        if (s1 <? lo) || (hi <? s1) then (RuneError, 1%nat)
        else if (sz <=? 2)%nat then
          (Z.lor (Z.shiftl (Z.land s0 31) 6) (Z.land s1 63), 2%nat)
        else
          match t1 with
          | EmptyString => (RuneError, 1%nat)
          | String c2 t2 =>
            let s2 := code c2 in
            if negb (is_cont c2) then (RuneError, 1%nat)
            else if (sz <=? 3)%nat then
              (Z.lor (Z.shiftl (Z.land s0 15) 12)
                 (Z.lor (Z.shiftl (Z.land s1 63) 6) (Z.land s2 63)), 3%nat)
            else
              match t2 with
              | EmptyString => (RuneError, 1%nat)
              | String c3 _ =>
                if negb (is_cont c3) then (RuneError, 1%nat)
                else
                  (Z.lor (Z.shiftl (Z.land s0 7) 18)
                     (Z.lor (Z.shiftl (Z.land s1 63) 12)
                        (Z.lor (Z.shiftl (Z.land s2 63) 6) (Z.land (code c3) 63))),
                   4%nat)
              end
          end
      end
  end.

(** [utf8.EncodeRune]: surrogates and out-of-range runes become U+FFFD. *)
Definition utf8_EncodeRune (r : Z) : string :=
  let three (r : Z) :=
    String (byte_of (Z.lor 224 (Z.shiftr r 12)))
      (String (byte_of (Z.lor 128 (Z.land (Z.shiftr r 6) 63)))
         (String (byte_of (Z.lor 128 (Z.land r 63))) "")) in
  if r <? 0 then three RuneError
  else if r <=? 127 then String (byte_of r) ""
  else if r <=? 2047 then
    String (byte_of (Z.lor 192 (Z.shiftr r 6)))
      (String (byte_of (Z.lor 128 (Z.land r 63))) "")
  else if (1114111 <? r) || ((55296 <=? r) && (r <=? 57343)) then three RuneError
  else if r <=? 65535 then three r
  else
    String (byte_of (Z.lor 240 (Z.shiftr r 18)))
      (String (byte_of (Z.lor 128 (Z.land (Z.shiftr r 12) 63)))
         (String (byte_of (Z.lor 128 (Z.land (Z.shiftr r 6) 63)))
            (String (byte_of (Z.lor 128 (Z.land r 63))) ""))).

(** ** JSON texts *)

(** The tree of a JSON text.  Objects keep their members in order and may
    repeat a key; a number keeps its literal. *)
#[warnings="-register-all"]
Inductive json : Type :=
| JNull
| JBool (b : bool)
| JNum (lit : string)
| JStr (s : string)
| JArr (elems : list json)
| JObj (members : list (string * json)).

Definition hex_digit (n : Z) : ascii :=
  if n <? 10 then byte_of (48 + n) else byte_of (87 + n).

(** [htmlSafeSet] of encoding/json: the ASCII bytes copied as they are. *)
Definition htmlSafe (b : Z) : bool :=
  (32 <=? b) && negb ((b =? 34) || (b =? 38) || (b =? 60) || (b =? 62) || (b =? 92)).

(** The escape of one ASCII byte outside [htmlSafeSet]. *)
Definition escape_ascii (c : ascii) : string :=
  let b := code c in
  if (b =? 92) || (b =? 34) then String "\" (String c "")
  else if b =? 8 then String "\" "b"
  else if b =? 12 then String "\" "f"
  else if b =? 10 then String "\" "n"
  else if b =? 13 then String "\" "r"
  else if b =? 9 then String "\" "t"
  else String "\" "u00" +:+ String (hex_digit (Z.shiftr b 4)) (String (hex_digit (Z.land b 15)) "").

(** The body of [appendString] with [escapeHTML] set.  [copy] counts the
    bytes of a well-formed multi-byte rune still to copy, [drop] the bytes of
    an escaped rune still to pass over. *)
Fixpoint appendString_go (copy drop : nat) (src : string) : string :=
  match src with
  | EmptyString => ""
  | String c rest =>
    match copy, drop with
    | S k, _ => String c (appendString_go k drop rest)
    | O, S k => appendString_go O k rest
    | O, O =>
      if code c <? 128 then
        if htmlSafe (code c) then String c (appendString_go O O rest)
        else escape_ascii c +:+ appendString_go O O rest
      else
        let '(r, size) := utf8_DecodeRune src in
        if (r =? RuneError) && (size =? 1)%nat then
          String "\" "ufffd" +:+ appendString_go O O rest
        else if (r =? 8232) || (r =? 8233) then
          String "\" "u202" +:+ String (hex_digit (Z.land r 15)) (appendString_go O 2 rest)
        else String c (appendString_go (size - 1) O rest)
    end
  end.

Definition quote_char : ascii := "034"%char.

Definition appendString (src : string) : string :=
  String quote_char (appendString_go O O src) +:+ String quote_char "".

Fixpoint join_comma (parts : list string) : string :=
  match parts with
  | [] => ""
  | [p] => p
  | p :: ps => p +:+ "," +:+ join_comma ps
  end.

(** The bytes [json.Marshal] writes for a tree: compact, members in order. *)
Fixpoint encode (j : json) : string :=
  match j with
  | JNull => "null"
  | JBool b => if b then "true" else "false"
  | JNum lit => lit
  | JStr s => appendString s
  | JArr elems => "[" +:+ join_comma (map encode elems) +:+ "]"
  | JObj members =>
    "{" +:+ join_comma (map (fun kv => match kv with
                                       | (k, v) => appendString k +:+ ":" +:+ encode v
                                       end) members) +:+ "}"
  end.

Definition member : Type := string * json.

Definition keys (members : list member) : list string := map fst members.

(** [has_key k j]: [j] is an object with a member named [k]. *)
Definition has_key (k : string) (j : json) : Prop :=
  match j with JObj members => k ∈ keys members | _ => False end.

(** ** [time.Time] and its [MarshalJSON]

    The RFC 3339 form with nanoseconds, and the two checks of current Go
    releases on what that form can hold. *)

Module time.

(** A time instant as its accessors present it: [Date], [Clock],
    [Nanosecond] and the zone offset in seconds east of UTC. *)
Record Time : Type := Date {
  Year : Z; Month : Z; Day : Z;
  Hour : Z; Minute : Z; Second : Z; Nanosecond : Z;
  Offset : Z }.

(** The zero [Time]: January 1, year 1, 00:00:00 UTC. *)
Definition zero : Time := Date 1 1 1 0 0 0 0 0.

Definition appendInt (x : Z) (width : nat) : string :=
  let digits := pretty (Z.abs x) in
  (if x <? 0 then "-" else "") +:+
  string_of_list_ascii (replicate (width - String.length digits) "0"%char) +:+ digits.

Fixpoint trim_zeros (s : string) : string :=
  match s with
  | EmptyString => ""
  | String c r =>
    match trim_zeros r with
    | EmptyString => if Ascii.eqb c "0" then "" else String c ""
    | r' => String c r'
    end
  end.

Definition appendNano (nanosec : Z) : string :=
  if nanosec =? 0 then "" else "." +:+ trim_zeros (appendInt nanosec 9).

Definition appendZone (offset : Z) : string :=
  if offset =? 0 then "Z"
  else
    let zone := Z.quot offset 60 in
    (if zone <? 0 then "-" else "+") +:+
    appendInt (Z.quot (Z.abs zone) 60) 2 +:+ ":" +:+ appendInt (Z.rem (Z.abs zone) 60) 2.

Definition appendFormatRFC3339 (t : Time) : string :=
  appendInt (Year t) 4 +:+ "-" +:+ appendInt (Month t) 2 +:+ "-" +:+ appendInt (Day t) 2
  +:+ "T" +:+
  appendInt (Hour t) 2 +:+ ":" +:+ appendInt (Minute t) 2 +:+ ":" +:+ appendInt (Second t) 2
  +:+ appendNano (Nanosecond t) +:+ appendZone (Offset t).

(** [appendStrictRFC3339]: not every [Time] has an RFC 3339 form. *)
Definition appendStrictRFC3339 (t : Time) : res string :=
  if (Year t <? 0) || (9999 <? Year t) then
    Err (errors_New "year outside of range [0,9999]")
  else if negb (Offset t =? 0) && (24 <=? Z.quot (Z.abs (Z.quot (Offset t) 60)) 60) then
    Err (errors_New "timezone hour outside of range [0,23]")
  else Ok (appendFormatRFC3339 t).

Definition error_text (e : error) : string :=
  match e with errorString s => s | _ => "" end.

Definition MarshalJSON (t : Time) : res json :=
  match appendStrictRFC3339 t with
  | Ok s => Ok (JStr s)
  | Err e => Err (errors_New ("Time.MarshalJSON: " +:+ error_text e))
  end.

End time.

(** What the encoder does with a [json.Marshaler]: its error comes back
    wrapped in a [*json.MarshalerError]. *)
Definition marshal_Time (t : time.Time) : res json :=
  match time.MarshalJSON t with
  | Ok j => Ok j
  | Err e => Err (MarshalerError "time.Time" e)
  end.

(** ** The data model of [smsgwclient.go]

    One module per struct, fields under their Go names; a Go pointer is an
    [option] ([nil] is [None]), a Go [int] a [Z], the [map[string]string] a
    [gmap] (a [nil] map and an empty one both have length 0). *)

Module OriginatorSettings.
Record t : Type := Make {
  OriginatorType : string;
  Originator : string }.
End OriginatorSettings.

Module GasSettings.
Record t : Type := Make {
  ServiceCode : string;
  Description : string }.
End GasSettings.

Module SendWindow.
Record t : Type := Make {
  StartDate : time.Time;
  StartTime : option time.Time;
  StopDate : option time.Time;
  StopTime : option time.Time }.
End SendWindow.

Module Settings.
Record t : Type := Make {
  Priority : Z;
  Validity : Z;
  Differentiator : string;
  Age : Z;
  NewSession : bool;
  SessionID : string;
  InvoiceNode : string;
  AutoDetectEncoding : bool;
  SafeRemoveNonGsmCharacters : bool;
  OriginatorSettings : option OriginatorSettings.t;
  GasSettings : option GasSettings.t;
  SendWindow : option SendWindow.t;
  Parameters : gmap string string }.

(** [Settings{}] *)
Definition zero : t :=
  Make 0 0 "" 0 false "" "" false false None None None ∅.
End Settings.

Module Message.
Record t : Type := Make {
  Recipient : string;
  Content : string;
  Price : Z;
  ClientReference : string;
  Settings : option Settings.t }.

(** [Message{}] *)
Definition zero : t := Make "" "" 0 "" None.
End Message.

Module smsGatewayRequest.
Record t : Type := Make {
  ServiceID : Z;
  Username : string;
  Password : string;
  BatchReference : string;
  Messages : slice Message.t }.
End smsGatewayRequest.

Module MessageStatus.
Record t : Type := Make {
  StatusCode : Z;
  StatusMessage : string;
  ClientReference : string;
  Recipient : string;
  MessageID : string;
  SessionID : string;
  SequenceIndex : Z }.

Definition zero : t := Make 0 "" "" "" "" "" 0.
End MessageStatus.

Module SmsGatewayResponse.
Record t : Type := Make {
  BatchReference : string;
  MessageStatus : slice MessageStatus.t }.

(** [SmsGatewayResponse{}] *)
Definition zero : t := Make "" None.
End SmsGatewayResponse.

(** ** [json.Marshal] on the request types

    Each struct field contributes its member under the name of its [json]
    tag, in declaration order; a field tagged [omitempty] contributes none
    when it holds [false], [0], a [nil] pointer or a string or map of
    length 0. *)

Definition marshal_int (v : Z) : json := JNum (strconv_Itoa v).

Definition field_string (name v : string) : list member := [(name, JStr v)].
Definition field_int (name : string) (v : Z) : list member := [(name, marshal_int v)].

Definition omitempty_int (name : string) (v : Z) : list member :=
  if v =? 0 then [] else [(name, marshal_int v)].

Definition omitempty_bool (name : string) (v : bool) : list member :=
  if v then [(name, JBool true)] else [].

Definition omitempty_string (name v : string) : list member :=
  if (String.length v =? 0)%nat then [] else [(name, JStr v)].

Definition omitempty_ptr {A} (name : string) (enc : A -> res json) (p : option A)
  : res (list member) :=
  match p with
  | None => Ok []
  | Some a => j ← enc a; Ok [(name, j)]
  end.

(** Map keys are written in increasing byte order. *)
Definition key_le (a b : string * string) : Prop := String.leb (fst a) (fst b) = true.

#[global] Instance key_le_dec : RelDecision key_le.
Proof. intros a b; unfold key_le; apply _. Defined.

Definition marshal_map (m : gmap string string) : json :=
  JObj (map (fun kv => (fst kv, JStr (snd kv))) (merge_sort key_le (map_to_list m))).

Definition omitempty_map (name : string) (m : gmap string string) : list member :=
  if (size m =? 0)%nat then [] else [(name, marshal_map m)].

Definition marshal_OriginatorSettings (o : OriginatorSettings.t) : res json :=
  Ok (JObj (field_string "originatorType" (OriginatorSettings.OriginatorType o)
            ++ field_string "originator" (OriginatorSettings.Originator o))).

Definition marshal_GasSettings (g : GasSettings.t) : res json :=
  Ok (JObj (field_string "serviceCode" (GasSettings.ServiceCode g)
            ++ omitempty_string "description" (GasSettings.Description g))).

Definition marshal_SendWindow (w : SendWindow.t) : res json :=
  startDate ← marshal_Time (SendWindow.StartDate w);
  startTime ← omitempty_ptr "startTime" marshal_Time (SendWindow.StartTime w);
  stopDate ← omitempty_ptr "stopDate" marshal_Time (SendWindow.StopDate w);
  stopTime ← omitempty_ptr "stopTime" marshal_Time (SendWindow.StopTime w);
  Ok (JObj ([("startDate", startDate)] ++ startTime ++ stopDate ++ stopTime)).

Definition marshal_Settings (s : Settings.t) : res json :=
  originatorSettings ←
    omitempty_ptr "originatorSettings" marshal_OriginatorSettings (Settings.OriginatorSettings s);
  gasSettings ← omitempty_ptr "gasSettings" marshal_GasSettings (Settings.GasSettings s);
  sendWindow ← omitempty_ptr "sendWindow" marshal_SendWindow (Settings.SendWindow s);
  Ok (JObj (omitempty_int "priority" (Settings.Priority s)
            ++ omitempty_int "validity" (Settings.Validity s)
            ++ omitempty_string "differentiator" (Settings.Differentiator s)
            ++ omitempty_int "age" (Settings.Age s)
            ++ omitempty_bool "newSession" (Settings.NewSession s)
            ++ omitempty_string "sessionId" (Settings.SessionID s)
            ++ omitempty_string "invoiceNode" (Settings.InvoiceNode s)
            ++ omitempty_bool "autoDetectEncoding" (Settings.AutoDetectEncoding s)
            ++ omitempty_bool "safeRemoveNonGsmCharacters" (Settings.SafeRemoveNonGsmCharacters s)
            ++ originatorSettings
            ++ gasSettings
            ++ sendWindow
            ++ omitempty_map "parameter" (Settings.Parameters s))).

Definition marshal_Message (m : Message.t) : res json :=
  settings ← omitempty_ptr "settings" marshal_Settings (Message.Settings m);
  Ok (JObj (field_string "recipient" (Message.Recipient m)
            ++ field_string "content" (Message.Content m)
            ++ field_int "price" (Message.Price m)
            ++ omitempty_string "clientReference" (Message.ClientReference m)
            ++ settings)).

(** A [nil] slice is written as [null], any other as an array. *)
Definition marshal_Messages (ms : slice Message.t) : res json :=
  match ms with
  | None => Ok JNull
  | Some l => js ← res_mapM marshal_Message l; Ok (JArr js)
  end.

Definition marshal_smsGatewayRequest (r : smsGatewayRequest.t) : res json :=
  message ← marshal_Messages (smsGatewayRequest.Messages r);
  Ok (JObj (field_int "serviceId" (smsGatewayRequest.ServiceID r)
            ++ field_string "username" (smsGatewayRequest.Username r)
            ++ field_string "password" (smsGatewayRequest.Password r)
            ++ omitempty_string "batchReference" (smsGatewayRequest.BatchReference r)
            ++ [("message", message)])).

(** [json.Marshal(gatewayRequest)] *)
Definition json_Marshal (r : smsGatewayRequest.t) : res string :=
  j ← marshal_smsGatewayRequest r; Ok (encode j).

(** ** The scanner of encoding/json

    [json.Decoder.Decode] reads the next JSON value from its input: the
    scanner is fed one byte at a time and stops at the byte that ends the
    first top-level value; what follows is left unread.  The states are those
    of scanner.go; the parse stack also collects the values read so far. *)

Inductive frame : Type :=
| parseArray (elems : list json)                       (* newest first *)
| parseObject (members : list member) (key : option string).
                                (* [key]: the key read, its value still to come *)

Inductive numState : Type :=
| stateNeg | state0 | state1 | stateDot | stateDot0 | stateE | stateESign | stateE0.

Inductive state : Type :=
| stateBeginValue
| stateBeginValueOrEmpty
| stateBeginStringOrEmpty
| stateBeginString
| stateEndValue
| stateInString (raw : list ascii)                     (* newest first *)
| stateInStringEsc (raw : list ascii)
| stateInStringEscU (n : nat) (raw : list ascii)       (* [n] hex digits read *)
| stateNum (k : numState) (lit : list ascii)
| stateLit (v : json) (expect : string) (name : string).

Inductive step_result : Type :=
| scanContinue (st : state) (stack : list frame)
| scanEnd (v : json) (consumed : bool)   (* [consumed]: the byte belongs to [v] *)
| scanError (e : error).

Definition isSpace (c : ascii) : bool :=
  let b := code c in (b =? 32) || (b =? 9) || (b =? 13) || (b =? 10).

Definition isDigit (c : ascii) : bool := (48 <=? code c) && (code c <=? 57).

Definition isHex (c : ascii) : bool :=
  let b := code c in
  isDigit c || ((97 <=? b) && (b <=? 102)) || ((65 <=? b) && (b <=? 70)).

Definition hexval (c : ascii) : Z :=
  let b := code c in
  if isDigit c then b - 48 else if 97 <=? b then b - 87 else b - 55.

Definition of_rev (raw : list ascii) : string := string_of_list_ascii (rev raw).

(** [getu4]: the rune of a [\uXXXX] escape at the head of [s], or [-1]. *)
Definition getu4 (s : string) : Z :=
  match s with
  | String "\" (String "u" (String a (String b (String c (String d _))))) =>
    if isHex a && isHex b && isHex c && isHex d
    then ((hexval a * 16 + hexval b) * 16 + hexval c) * 16 + hexval d
    else -1
  | _ => -1
  end.

Fixpoint string_drop (n : nat) (s : string) : string :=
  match n, s with
  | S k, String _ rest => string_drop k rest
  | _, _ => s
  end.

Definition utf16_IsSurrogate (r : Z) : bool := (55296 <=? r) && (r <? 57344).

Definition utf16_DecodeRune (r1 r2 : Z) : Z :=
  if (55296 <=? r1) && (r1 <? 56320) && (56320 <=? r2) && (r2 <? 57344)
  then Z.lor (Z.shiftl (r1 - 55296) 10) (r2 - 56320) + 65536
  else RuneError.

(** [unquoteBytes] on the bytes between the quotes: escapes are replaced and
    ill-formed UTF-8 is coerced to U+FFFD.  [drop] counts bytes already
    accounted for. [None] is Go's [ok == false]. *)
Fixpoint unquote_go (drop : nat) (s : string) : option string :=
  match s with
  | EmptyString => Some ""
  | String c rest =>
    match drop with
    | S k => unquote_go k rest
    | O =>
      if code c =? 92 then
        match rest with
        | EmptyString => None
        | String e rest' =>
          let simple (b : Z) := t ← unquote_go 1 rest; Some (String (byte_of b) t) in
          let b := code e in
          if (b =? 34) || (b =? 92) || (b =? 47) || (b =? 39) then simple b
          else if b =? 98 then simple 8
          else if b =? 102 then simple 12
          else if b =? 110 then simple 10
          else if b =? 114 then simple 13
          else if b =? 116 then simple 9
          else if b =? 117 then
            let rr := getu4 s in
            if rr <? 0 then None
            else
              let after := string_drop 5 rest in
              if utf16_IsSurrogate rr then
                let dec := utf16_DecodeRune rr (getu4 after) in
                if negb (dec =? RuneError) then
                  t ← unquote_go 11 rest; Some (utf8_EncodeRune dec +:+ t)
                else t ← unquote_go 5 rest; Some (utf8_EncodeRune RuneError +:+ t)
              else t ← unquote_go 5 rest; Some (utf8_EncodeRune rr +:+ t)
          else None
        end
      else if (code c =? 34) || (code c <? 32) then None
      else if code c <? 128 then t ← unquote_go O rest; Some (String c t)
      else
        let '(rr, size) := utf8_DecodeRune s in
        t ← unquote_go (size - 1) rest; Some (utf8_EncodeRune rr +:+ t)
    end
  end.

Definition unquote (raw : list ascii) : option string := unquote_go O (of_rev raw).

Definition maxNestingDepth : Z := 10000.

(** The scanner and the decoder disagree on where they are: cannot happen on
    a run that starts in [stateBeginValue] with an empty stack. *)
Definition errPhase : error :=
  errors_New "JSON decoder out of sync - data changing underfoot?".

Definition pushParseState (c : ascii) (f : frame) (stack : list frame) (success : state)
  : step_result :=
  if Z.of_nat (length (f :: stack)) <=? maxNestingDepth
  then scanContinue success (f :: stack)
  else scanError (SyntaxError c "exceeded max depth").

(** A value is complete: at top level the scan ends, inside a container the
    value is stored in the frame on top of the stack. *)
Definition endOfValue (v : json) (consumed : bool) (stack : list frame) : step_result :=
  match stack with
  | [] => scanEnd v consumed
  | parseArray elems :: below => scanContinue stateEndValue (parseArray (v :: elems) :: below)
  | parseObject members (Some k) :: below =>
    scanContinue stateEndValue (parseObject ((k, v) :: members) None :: below)
  | parseObject members None :: below =>
    match v with
    | JStr k => scanContinue stateEndValue (parseObject members (Some k) :: below)
    | _ => scanError errPhase
    end
  end.

(** [stateEndValue] on a byte that is not a space, inside a container. *)
Definition endValue (stack : list frame) (c : ascii) : step_result :=
  match stack with
  | [] => scanError errPhase
  | parseObject members (Some k) :: below =>
    if code c =? 58 then scanContinue stateBeginValue stack
    else scanError (SyntaxError c "after object key")
  | parseObject members None :: below =>
    if code c =? 44 then scanContinue stateBeginString stack
    else if code c =? 125 then endOfValue (JObj (rev members)) true below
    else scanError (SyntaxError c "after object key:value pair")
  | parseArray elems :: below =>
    if code c =? 44 then scanContinue stateBeginValue stack
    else if code c =? 93 then endOfValue (JArr (rev elems)) true below
    else scanError (SyntaxError c "after array element")
  end.

(** The byte after a number: the number is complete and the byte is looked
    at again as the byte after a value. *)
Definition endOfNumber (lit : list ascii) (stack : list frame) (c : ascii) : step_result :=
  match endOfValue (JNum (of_rev lit)) false stack with
  | scanContinue _ stack' =>
    if isSpace c then scanContinue stateEndValue stack' else endValue stack' c
  | r => r
  end.

Definition beginValue (stack : list frame) (c : ascii) : step_result :=
  let b := code c in
  if isSpace c then scanContinue stateBeginValue stack
  else if b =? 123 then pushParseState c (parseObject [] None) stack stateBeginStringOrEmpty
  else if b =? 91 then pushParseState c (parseArray []) stack stateBeginValueOrEmpty
  else if b =? 34 then scanContinue (stateInString []) stack
  else if b =? 45 then scanContinue (stateNum stateNeg [c]) stack
  else if b =? 48 then scanContinue (stateNum state0 [c]) stack
  else if b =? 116 then scanContinue (stateLit (JBool true) "rue" "in literal true") stack
  else if b =? 102 then scanContinue (stateLit (JBool false) "alse" "in literal false") stack
  else if b =? 110 then scanContinue (stateLit JNull "ull" "in literal null") stack
  else if (49 <=? b) && (b <=? 57) then scanContinue (stateNum state1 [c]) stack
  else scanError (SyntaxError c "looking for beginning of value").

Definition beginString (stack : list frame) (c : ascii) : step_result :=
  if isSpace c then scanContinue stateBeginString stack
  else if code c =? 34 then scanContinue (stateInString []) stack
  else scanError (SyntaxError c "looking for beginning of object key string").

Definition stepNum (k : numState) (lit : list ascii) (stack : list frame) (c : ascii)
  : step_result :=
  let b := code c in
  let continue k' := scanContinue (stateNum k' (c :: lit)) stack in
  let after0 :=
    if b =? 46 then continue stateDot
    else if (b =? 101) || (b =? 69) then continue stateE
    else endOfNumber lit stack c in
  let eSign :=
    if isDigit c then continue stateE0
    else scanError (SyntaxError c "in exponent of numeric literal") in
  match k with
  | stateNeg =>
    if b =? 48 then continue state0
    else if (49 <=? b) && (b <=? 57) then continue state1
    else scanError (SyntaxError c "in numeric literal")
  | state1 => if isDigit c then continue state1 else after0
  | state0 => after0
  | stateDot =>
    if isDigit c then continue stateDot0
    else scanError (SyntaxError c "after decimal point in numeric literal")
  | stateDot0 =>
    if isDigit c then continue stateDot0
    else if (b =? 101) || (b =? 69) then continue stateE
    else endOfNumber lit stack c
  | stateE => if (b =? 43) || (b =? 45) then continue stateESign else eSign
  | stateESign => eSign
  | stateE0 => if isDigit c then continue stateE0 else endOfNumber lit stack c
  end.

(** One byte of input: [s.step(s, c)]. *)
Definition step (st : state) (stack : list frame) (c : ascii) : step_result :=
  let b := code c in
  match st with
  | stateBeginValue => beginValue stack c
  | stateBeginValueOrEmpty =>
    if isSpace c then scanContinue stateBeginValueOrEmpty stack
    else if b =? 93 then endValue stack c
    else beginValue stack c
  | stateBeginStringOrEmpty =>
    if isSpace c then scanContinue stateBeginStringOrEmpty stack
    else if b =? 125 then endValue stack c
    else beginString stack c
  | stateBeginString => beginString stack c
  | stateEndValue =>
    if isSpace c then scanContinue stateEndValue stack else endValue stack c
  | stateInString raw =>
    if b =? 34 then
      match unquote raw with
      | Some s => endOfValue (JStr s) true stack
      | None => scanError errPhase
      end
    else if b =? 92 then scanContinue (stateInStringEsc (c :: raw)) stack
    else if b <? 32 then scanError (SyntaxError c "in string literal")
    else scanContinue (stateInString (c :: raw)) stack
  | stateInStringEsc raw =>
    if (b =? 98) || (b =? 102) || (b =? 110) || (b =? 114) || (b =? 116)
       || (b =? 92) || (b =? 47) || (b =? 34)
    then scanContinue (stateInString (c :: raw)) stack
    else if b =? 117 then scanContinue (stateInStringEscU 0 (c :: raw)) stack
    else scanError (SyntaxError c "in string escape code")
  | stateInStringEscU n raw =>
    if isHex c then
      scanContinue (if (n <? 3)%nat then stateInStringEscU (S n) (c :: raw)
                    else stateInString (c :: raw)) stack
    else scanError (SyntaxError c "in \u hexadecimal character escape")
  | stateNum k lit => stepNum k lit stack c
  | stateLit v expect name =>
    match expect with
    | EmptyString => scanError errPhase
    | String e more =>
      if Ascii.eqb c e then
        match more with
        | EmptyString => endOfValue v true stack
        | _ => scanContinue (stateLit v more name) stack
        end
      else scanError (SyntaxError c (name +:+ " (expecting '" +:+ String e "')"))
    end
  end.

Definition numComplete (k : numState) : bool :=
  match k with state0 | state1 | stateDot0 | stateE0 => true | _ => false end.

Inductive read_result : Type :=
| valueRead (v : json) (rest : string)
| readFailed (e : error).

(** [Decoder.readValue] over a body that is read to its end: the first value
    and the bytes after it, or the error. *)
Fixpoint readValue (st : state) (stack : list frame) (nonSpace : bool) (buf : string)
  : read_result :=
  match buf with
  | EmptyString =>
    match st, stack with
    | stateNum k lit, [] =>
      if numComplete k then valueRead (JNum (of_rev lit)) "" else readFailed io_ErrUnexpectedEOF
    | _, _ => readFailed (if nonSpace then io_ErrUnexpectedEOF else io_EOF)
    end
  | String c rest =>
    match step st stack c with
    | scanContinue st' stack' => readValue st' stack' (nonSpace || negb (isSpace c)) rest
    | scanEnd v consumed => valueRead v (if consumed then rest else buf)
    | scanError e => readFailed e
    end
  end.

(** ** [Unmarshal] into the response types

    The decoder stores into the value it is given.  A value of the wrong
    JSON kind leaves the field as it was and records an
    [UnmarshalTypeError]; the first one recorded is returned once the whole
    value has been walked ([d.saveError]).  [null] leaves strings, numbers
    and structs as they were and sets a slice to [nil].  Object keys match a
    field by its tag, exactly or under case folding; other keys are
    skipped. *)

Definition saveError (saved : option error) (e : error) : option error :=
  match saved with None => Some e | Some _ => saved end.

Definition json_kind (j : json) : string :=
  match j with
  | JNull => "null" | JBool _ => "bool" | JNum _ => "number"
  | JStr _ => "string" | JArr _ => "array" | JObj _ => "object"
  end.

Definition all_digits (s : string) : bool :=
  forallb isDigit (list_ascii_of_string s).

Definition digits_value (s : string) : Z :=
  fold_left (fun acc c => acc * 10 + (code c - 48)) (list_ascii_of_string s) 0.

(** [strconv.ParseInt(s, 10, 64)], [None] for a syntax or range error. *)
Definition strconv_ParseInt (s : string) : option Z :=
  let '(neg, ds) :=
    match s with
    | String "-" r => (true, r)
    | String "+" r => (false, r)
    | _ => (false, s)
    end in
  if (String.length ds =? 0)%nat || negb (all_digits ds) then None
  else
    let n := if neg then - digits_value ds else digits_value ds in
    if (- 2 ^ 63 <=? n) && (n <=? 2 ^ 63 - 1) then Some n else None.

Definition decode_string (j : json) (v : string) (saved : option error)
  : string * option error :=
  match j with
  | JStr s => (s, saved)
  | JNull => (v, saved)
  | _ => (v, saveError saved (UnmarshalTypeError (json_kind j) "string"))
  end.

Definition decode_int (j : json) (v : Z) (saved : option error) : Z * option error :=
  match j with
  | JNum lit =>
    match strconv_ParseInt lit with
    | Some n => (n, saved)
    | None => (v, saveError saved (UnmarshalTypeError ("number " +:+ lit) "int"))
    end
  | JNull => (v, saved)
  | _ => (v, saveError saved (UnmarshalTypeError (json_kind j) "int"))
  end.

(** [foldName], as far as it can meet an ASCII field name: ASCII letters
    fold to upper case, and so do the two other runes that fold to an ASCII
    letter, U+017F (to S) and U+212A (to K). *)
Fixpoint foldName (s : string) : string :=
  match s with
  | EmptyString => ""
  | String c rest =>
    let b := code c in
    if (97 <=? b) && (b <=? 122) then String (byte_of (b - 32)) (foldName rest)
    else
      match rest with
      | String c1 rest1 =>
        if (b =? 197) && (code c1 =? 191) then String "S" (foldName rest1)
        else
          match rest1 with
          | String c2 rest2 =>
            if (b =? 226) && (code c1 =? 132) && (code c2 =? 170)
            then String "K" (foldName rest2)
            else String c (foldName rest)
          | EmptyString => String c (foldName rest)
          end
      | EmptyString => String c ""
      end
  end.

(** The field a key selects among the tags [names]: an exact match first,
    else the first match under folding. *)
Definition match_field (names : list string) (key : string) : option string :=
  match find (String.eqb key) names with
  | Some f => Some f
  | None => find (fun f => String.eqb (foldName f) (foldName key)) names
  end.

Definition MessageStatus_fields : list string :=
  ["statusCode"; "statusMessage"; "clientReference"; "recipient"; "messageId";
   "sessionId"; "sequenceIndex"].

Definition decode_MessageStatus_member (kv : member) (acc : MessageStatus.t * option error)
  : MessageStatus.t * option error :=
  let '(k, j) := kv in
  let '(v, saved) := acc in
  let '(MessageStatus.Make code msg cref rcpt mid sid idx) := v in
  match match_field MessageStatus_fields k with
  | Some "statusCode" =>
    let '(x, e) := decode_int j code saved in (MessageStatus.Make x msg cref rcpt mid sid idx, e)
  | Some "statusMessage" =>
    let '(x, e) := decode_string j msg saved in (MessageStatus.Make code x cref rcpt mid sid idx, e)
  | Some "clientReference" =>
    let '(x, e) := decode_string j cref saved in (MessageStatus.Make code msg x rcpt mid sid idx, e)
  | Some "recipient" =>
    let '(x, e) := decode_string j rcpt saved in (MessageStatus.Make code msg cref x mid sid idx, e)
  | Some "messageId" =>
    let '(x, e) := decode_string j mid saved in (MessageStatus.Make code msg cref rcpt x sid idx, e)
  | Some "sessionId" =>
    let '(x, e) := decode_string j sid saved in (MessageStatus.Make code msg cref rcpt mid x idx, e)
  | Some "sequenceIndex" =>
    let '(x, e) := decode_int j idx saved in (MessageStatus.Make code msg cref rcpt mid sid x, e)
  | _ => acc
  end.

Definition decode_MessageStatus (j : json) (v : MessageStatus.t) (saved : option error)
  : MessageStatus.t * option error :=
  match j with
  | JObj members => fold_left (fun acc kv => decode_MessageStatus_member kv acc) members (v, saved)
  | JNull => (v, saved)
  | _ => (v, saveError saved (UnmarshalTypeError (json_kind j) "smsgwclient.MessageStatus"))
  end.

(** The elements of an array, each decoded into the element the slice has
    at its index.  The decoder extends the slice one element at a time
    ([SetLen(i+1)]) and decodes into what the backing array holds there:
    [cur] is the slice, [spare] what its backing array still holds past its
    length, left there when an earlier array was shorter ([SetLen(i)]); past
    both, the element is a zero one.  What is left of [cur] and [spare] when
    the array ends stays in the backing array. *)
Fixpoint decode_elems (items : list json) (cur spare : list MessageStatus.t)
  (saved : option error) : list MessageStatus.t * list MessageStatus.t * option error :=
  match items with
  | [] => ([], cur ++ spare, saved)
  | j :: items' =>
    let '(target, cur', spare') :=
      match cur with
      | x :: cur' => (x, cur', spare)
      | [] => (hd MessageStatus.zero spare, [], tl spare)
      end in
    let '(v, saved1) := decode_MessageStatus j target saved in
    let '(vs, spare2, saved2) := decode_elems items' cur' spare' saved1 in
    (v :: vs, spare2, saved2)
  end.

(** A JSON value decoded into a slice [v] whose backing array holds [spare]
    past its length: the slice, what its backing array holds past its length
    afterwards, and the error saved.  An empty array gives a new empty slice
    ([MakeSlice(0, 0)]), [null] the [nil] one. *)
Definition decode_slice (j : json) (v : slice MessageStatus.t) (spare : list MessageStatus.t)
  (saved : option error) : slice MessageStatus.t * list MessageStatus.t * option error :=
  match j with
  | JArr [] => (Some [], [], saved)
  | JArr items =>
    let '(vs, spare', saved') := decode_elems items (default [] v) spare saved in
    (Some vs, spare', saved')
  | JNull => (None, [], saved)
  | _ =>
    (v, spare, saveError saved (UnmarshalTypeError (json_kind j) "[]smsgwclient.MessageStatus"))
  end.

(** The same into a slice whose backing array holds nothing past its length,
    as that of a [nil] slice. *)
Definition decode_MessageStatus_slice (j : json) (v : slice MessageStatus.t)
  (saved : option error) : slice MessageStatus.t * option error :=
  let '(x, _, e) := decode_slice j v [] saved in (x, e).

Definition SmsGatewayResponse_fields : list string := ["batchReference"; "messageStatus"].

(** One member of the object, decoded into the response [v]; [spare] is what
    the backing array of [v.MessageStatus] holds past its length. *)
Definition decode_SmsGatewayResponse_member (kv : member)
  (acc : SmsGatewayResponse.t * list MessageStatus.t * option error)
  : SmsGatewayResponse.t * list MessageStatus.t * option error :=
  let '(k, j) := kv in
  let '(v, spare, saved) := acc in
  match match_field SmsGatewayResponse_fields k with
  | Some "batchReference" =>
    let '(x, e) := decode_string j (SmsGatewayResponse.BatchReference v) saved in
    (SmsGatewayResponse.Make x (SmsGatewayResponse.MessageStatus v), spare, e)
  | Some "messageStatus" =>
    let '(x, spare', e) := decode_slice j (SmsGatewayResponse.MessageStatus v) spare saved in
    (SmsGatewayResponse.Make (SmsGatewayResponse.BatchReference v) x, spare', e)
  | _ => acc
  end.

(** The variable decoded into is taken with a slice that has no capacity
    past its length, as the zero value [Send] declares. *)
Definition decode_SmsGatewayResponse (j : json) (v : SmsGatewayResponse.t)
  (saved : option error) : SmsGatewayResponse.t * option error :=
  match j with
  | JObj members =>
    let '(v', _, e) :=
      fold_left (fun acc kv => decode_SmsGatewayResponse_member kv acc) members (v, [], saved) in
    (v', e)
  | JNull => (v, saved)
  | _ => (v, saveError saved (UnmarshalTypeError (json_kind j) "smsgwclient.SmsGatewayResponse"))
  end.

(** [json.NewDecoder(body).Decode(&v)]: the value [v] holds afterwards and
    the error returned.  On a scanner error nothing is stored. *)
Definition Decode (body : string) (v : SmsGatewayResponse.t)
  : SmsGatewayResponse.t * option error :=
  match readValue stateBeginValue [] false body with
  | valueRead j _ => decode_SmsGatewayResponse j v None
  | readFailed e => (v, Some e)
  end.

(** ** net/http, as far as [Send] meets it *)

Module Request.
Record t : Type := Make {
  Method : string;
  URL : string;
  Header : gmap string (list string);
  Body : string }.
End Request.

Module Response.
Record t : Type := Make {
  StatusCode : Z;
  Body : string }.   (* the bytes the body reader delivers before EOF *)
End Response.

(** [Header.Add] for a key in canonical form: the value is appended to the
    values the key already has. *)
Definition Header_Add (key value : string) (h : gmap string (list string))
  : gmap string (list string) :=
  <[key := (default [] (h !! key) ++ [value])%list]> h.

(** What [http.Client.Do] hands back: a response pointer and an error.
    On a transport failure the response is [nil]; both are non-nil only when
    a redirect is refused. *)
Definition Client : Type := Request.t -> option Response.t * option error.

(** A call either yields a value or panics. *)
Inductive exec (A : Type) : Type :=
| value (a : A)
| panic (msg : string).
Arguments value {A} a.
Arguments panic {A} msg.

Definition nil_dereference : string :=
  "runtime error: invalid memory address or nil pointer dereference".

(** [c.Do(request)] on a client pointer: a [nil] client panics before
    anything is sent. *)
Definition Client_Do (c : option Client) (request : Request.t)
  : exec (option Response.t * option error) :=
  match c with
  | None => panic nil_dereference
  | Some do => value (do request)
  end.

Module SmsGatewayClient.
Record t : Type := Make {
  httpClient : option Client;   (* a pointer, [nil] in the zero client *)
  serviceID : Z;
  baseURL : string;
  username : string;
  password : string }.
End SmsGatewayClient.

(** What one call of [Send] did: the requests handed to the HTTP client, in
    order, and how the call ended. *)
Record run : Type := Run {
  issued : list Request.t;
  result : exec (SmsGatewayResponse.t * option error) }.

(** The mock transport of the tests: [httpmock.NewStringResponder] and
    [httpmock.RegisterResponder]; a request nobody answers fails in the
    transport. *)
Definition NewStringResponder (status : Z) (body : string) : Client :=
  fun _ => (Some (Response.Make status body), None).

Definition RegisterResponder (method url : string) (responder : Client) : Client :=
  fun req =>
    if String.eqb (Request.Method req) method && String.eqb (Request.URL req) url
    then responder req
    else (None, Some (urlError "Post" (Request.URL req) (errors_New "no responder found"))).

Section Client.

(** Whether [url.Parse] accepts a raw URL: [http.NewRequest] fails on the
    others. *)
Variable url_ok : string -> bool.

(** What an [&http.Client{}] does, through [http.DefaultTransport]. *)
Variable DefaultClient : Client.

(** [http.NewRequest]; [None] is the [nil] request returned with an
    error. The method [POST] is always accepted. *)
Definition http_NewRequest (method url : string) (body : string) : option Request.t :=
  if url_ok url then Some (Request.Make method url ∅ body) else None.

Definition MakeSmsGatewayClient (baseURL : string) (serviceID : Z) (username password : string)
  : SmsGatewayClient.t :=
  SmsGatewayClient.Make (Some DefaultClient) serviceID baseURL username password.

(** The error of [http.NewRequest] is dropped; on a [nil] request
    [request.Header] panics. *)
Definition createRequest (url : string) (buf : string) : exec Request.t :=
  match http_NewRequest "POST" url buf with
  | None => panic nil_dereference
  | Some request =>
    let header := Header_Add "Content-Type" "application/json" (Request.Header request) in
    let header := Header_Add "Accept" "application/json" header in
    value (Request.Make (Request.Method request) (Request.URL request) header
             (Request.Body request))
  end.

Definition Send (client : SmsGatewayClient.t) (messages : slice Message.t) : run :=
  let gatewayRequest :=
    smsGatewayRequest.Make (SmsGatewayClient.serviceID client)
      (SmsGatewayClient.username client) (SmsGatewayClient.password client) "" messages in
  match json_Marshal gatewayRequest with
  | Err err => Run [] (value (SmsGatewayResponse.zero, Some err))
  | Ok buffer =>
    match createRequest (SmsGatewayClient.baseURL client +:+ "/sendMessages") buffer with
    | panic msg => Run [] (panic msg)
    | value request =>
      match Client_Do (SmsGatewayClient.httpClient client) request with
      | panic msg => Run [] (panic msg)
      | value (None, _) => (* defer response.Body.Close() *)
        Run [request] (panic nil_dereference)
      | value (Some response, Some err) =>
        Run [request] (value (SmsGatewayResponse.zero, Some err))
      | value (Some response, None) =>
        if negb (Response.StatusCode response =? 200) then
          Run [request]
            (value (SmsGatewayResponse.zero,
                    Some (errors_New ("Status code: "
                                      +:+ strconv_Itoa (Response.StatusCode response)))))
        else
          let '(gatewayResponse, err) :=
            Decode (Response.Body response) SmsGatewayResponse.zero in
          match err with
          | Some err => Run [request] (value (SmsGatewayResponse.zero, Some err))
          | None => Run [request] (value (gatewayResponse, None))
          end
      end
    end
  end.

End Client.

(** ** Vocabulary of the properties *)

(** The envelope [Send] builds: the client's credentials around the caller's
    messages, the batch reference left unset. *)
Definition envelope (client : SmsGatewayClient.t) (messages : slice Message.t)
  : smsGatewayRequest.t :=
  smsGatewayRequest.Make (SmsGatewayClient.serviceID client)
    (SmsGatewayClient.username client) (SmsGatewayClient.password client) "" messages.

Definition sendMessages_url (client : SmsGatewayClient.t) : string :=
  SmsGatewayClient.baseURL client +:+ "/sendMessages".

(** The two headers of the request, as the header map holds them. *)
Definition json_headers : gmap string (list string) :=
  <["Accept" := ["application/json"]]> (<["Content-Type" := ["application/json"]]> ∅).

Definition post (url body : string) : Request.t :=
  Request.Make "POST" url json_headers body.

Definition members_of (j : json) : list member :=
  match j with JObj members => members | _ => [] end.

(** The key a field contributes when it is written. *)
Definition present (written : bool) (name : string) : list string :=
  if written then [name] else [].

Definition non_nil {A} (p : option A) : bool :=
  match p with Some _ => true | None => false end.

Definition non_empty (v : string) : bool := negb (String.length v =? 0)%nat.

(** The error [Send] makes up for a status other than 200. *)
Definition status_error (code : Z) : error :=
  errors_New ("Status code: " +:+ strconv_Itoa code).

(** A body is a JSON text when it is one value, with white space around it
    at most ([json.Valid]); it is a valid response when, besides, that value
    decodes into the response structure without an error. *)
Definition is_JSON_text (body : string) : bool :=
  match readValue stateBeginValue [] false body with
  | valueRead _ rest => forallb isSpace (list_ascii_of_string rest)
  | readFailed _ => false
  end.

Definition valid_response_body (body : string) : bool :=
  is_JSON_text body && bool_decide (snd (Decode body SmsGatewayResponse.zero) = None).

(** Field assignment [s.Age = age]. *)
Definition with_Age (age : Z) (s : Settings.t) : Settings.t :=
  let '(Settings.Make priority validity differentiator _ newSession sessionID invoiceNode
          autoDetect safeRemove originator gas window parameters) := s in
  Settings.Make priority validity differentiator age newSession sessionID invoiceNode
    autoDetect safeRemove originator gas window parameters.

(** Three sentences of the specification, as they are written: every body
    of a 200 response that is not a valid response is answered with an
    error; every response whose status is not 200 is answered with the status
    error of its code; every call issues one POST. *)
Definition malformed_bodies_are_rejected : Prop :=
  forall (url_ok : string -> bool) (client : SmsGatewayClient.t) (messages : slice Message.t)
         (buffer : string) (response : Response.t),
    json_Marshal (envelope client messages) = Ok buffer ->
    url_ok (sendMessages_url client) = true ->
    Client_Do (SmsGatewayClient.httpClient client) (post (sendMessages_url client) buffer)
    = value (Some response, None) ->
    Response.StatusCode response = 200 ->
    valid_response_body (Response.Body response) = false ->
    exists err, result (Send url_ok client messages) = value (SmsGatewayResponse.zero, Some err).


Definition every_call_issues_one_post : Prop :=
  forall (url_ok : string -> bool) (client : SmsGatewayClient.t) (messages : slice Message.t),
    exists body, issued (Send url_ok client messages) = [post (sendMessages_url client) body].

(** Inputs of the examples: a date no RFC 3339 text can hold, inside a
    message that, for it, cannot be serialized; a transport that refuses the
    connection; the client of the tests. *)
Definition year_10000 : time.Time := time.Date 10000 1 1 0 0 0 0 0.

Definition start_only (t : time.Time) : SendWindow.t := SendWindow.Make t None None None.

Definition scheduled (t : time.Time) : Message.t :=
  Message.Make "+4799999999" "hello" 0 ""
    (Some (Settings.Make 0 0 "" 0 false "" "" false false None None (Some (start_only t)) ∅)).

Definition connection_refused : Client :=
  fun req =>
    (None, Some (urlError "Post" (Request.URL req) (errors_New "dial tcp: connection refused"))).

Definition all_urls : string -> bool := fun _ => true.

Definition dummy_client (responder : Client) : SmsGatewayClient.t :=
  MakeSmsGatewayClient
    (RegisterResponder "POST" "https://www.dummy-address.com/sendMessages" responder)
    "https://www.dummy-address.com" 0 "" "".

Definition ok_body : string :=
  "{" +:+ appendString "batchReference" +:+ ":" +:+ appendString "123abc" +:+ ","
  +:+ appendString "messageStatus" +:+ ":[]}".

(** The body [Send] posts for one zero message from the client of the
    tests, and the clients and values the examples run on. *)
Definition zero_message_json : json :=
  JObj [("recipient", JStr ""); ("content", JStr ""); ("price", JNum "0")].

Definition zero_batch_json : json :=
  JObj [("serviceId", JNum "0"); ("username", JStr ""); ("password", JStr "");
        ("message", JArr [zero_message_json])].

Definition dummy_url : string := "https://www.dummy-address.com/sendMessages".

Definition ok_client : SmsGatewayClient.t := dummy_client (NewStringResponder 200 ok_body).

Definition error_client : SmsGatewayClient.t := dummy_client (NewStringResponder 500 "").

Definition trailing_client : SmsGatewayClient.t :=
  dummy_client (NewStringResponder 200 (ok_body +:+ "garbage")).

Definition refused_client : SmsGatewayClient.t :=
  MakeSmsGatewayClient connection_refused "https://www.dummy-address.com" 0 "" "".

Definition ok_response : SmsGatewayResponse.t := SmsGatewayResponse.Make "123abc" (Some []).

Definition year_error : error :=
  MarshalerError "time.Time"
    (errors_New "Time.MarshalJSON: year outside of range [0,9999]").

Definition gas_example : GasSettings.t := GasSettings.Make "10001" "".

(** A message that sets every kind of field. *)
Definition full_message : Message.t :=
  Message.Make "+4799999999" "a < b" 100 "ref-1"
    (Some (Settings.Make 3 3600 "campaign" 18 true "" "node" false true
             (Some (OriginatorSettings.Make "ALPHANUMERIC" "Intelecom"))
             (Some (GasSettings.Make "10001" ""))
             (Some (SendWindow.Make (time.Date 2016 11 3 9 5 0 120000000 3600) None None
                      (Some (time.Date 2016 11 4 0 0 0 0 0))))
             (<["dcs" := "F5"]> (<["Udh" := "0B0504158200000003010201"]> ∅)))).

Definition full_message_json : json :=
  JObj [("recipient", JStr "+4799999999"); ("content", JStr "a < b"); ("price", JNum "100");
        ("clientReference", JStr "ref-1");
        ("settings",
         JObj [("priority", JNum "3"); ("validity", JNum "3600");
               ("differentiator", JStr "campaign"); ("age", JNum "18");
               ("newSession", JBool true); ("invoiceNode", JStr "node");
               ("safeRemoveNonGsmCharacters", JBool true);
               ("originatorSettings",
                JObj [("originatorType", JStr "ALPHANUMERIC");
                      ("originator", JStr "Intelecom")]);
               ("gasSettings", JObj [("serviceCode", JStr "10001")]);
               ("sendWindow",
                JObj [("startDate", JStr "2016-11-03T09:05:00.12+01:00");
                      ("stopTime", JStr "2016-11-04T00:00:00Z")]);
               ("parameter",
                JObj [("Udh", JStr "0B0504158200000003010201"); ("dcs", JStr "F5")])])].

Definition rated : Settings.t :=
  Settings.Make 0 0 "" 18 true "" "" false false None None None ∅.

Definition rated_json : json := JObj [("age", JNum "18"); ("newSession", JBool true)].

Definition gas_example_json : json := JObj [("serviceCode", JStr "10001")].

Definition start_only_json : json := JObj [("startDate", JStr "0001-01-01T00:00:00Z")].

(** ** Vocabulary of the further properties *)

(** What [json.Marshal] writes for the response types, as a gateway that
    answers with these structs would: every field under its tag, none
    omitted, a [nil] slice as [null]. *)
Definition marshal_MessageStatus (s : MessageStatus.t) : json :=
  JObj [("statusCode", marshal_int (MessageStatus.StatusCode s));
        ("statusMessage", JStr (MessageStatus.StatusMessage s));
        ("clientReference", JStr (MessageStatus.ClientReference s));
        ("recipient", JStr (MessageStatus.Recipient s));
        ("messageId", JStr (MessageStatus.MessageID s));
        ("sessionId", JStr (MessageStatus.SessionID s));
        ("sequenceIndex", marshal_int (MessageStatus.SequenceIndex s))].

Definition marshal_SmsGatewayResponse (r : SmsGatewayResponse.t) : json :=
  JObj [("batchReference", JStr (SmsGatewayResponse.BatchReference r));
        ("messageStatus",
         match SmsGatewayResponse.MessageStatus r with
         | None => JNull
         | Some l => JArr (map marshal_MessageStatus l)
         end)].

(** The values of a 64-bit [int]. *)
Definition is_int64 (z : Z) : bool := (- 2 ^ 63 <=? z) && (z <=? 2 ^ 63 - 1).

Definition MessageStatus_in_range (s : MessageStatus.t) : bool :=
  is_int64 (MessageStatus.StatusCode s) && is_int64 (MessageStatus.SequenceIndex s).

Definition SmsGatewayResponse_in_range (r : SmsGatewayResponse.t) : bool :=
  forallb MessageStatus_in_range (default [] (SmsGatewayResponse.MessageStatus r)).

(** The times RFC 3339 can express, and the messages all of whose times are
    such. *)
Definition Time_encodable (t : time.Time) : bool :=
  (0 <=? time.Year t) && (time.Year t <=? 9999)
  && ((time.Offset t =? 0) || (Z.quot (Z.abs (Z.quot (time.Offset t) 60)) 60 <? 24)).

Definition pointer_encodable (p : option time.Time) : bool :=
  match p with None => true | Some t => Time_encodable t end.

Definition SendWindow_encodable (w : SendWindow.t) : bool :=
  Time_encodable (SendWindow.StartDate w)
  && pointer_encodable (SendWindow.StartTime w)
  && pointer_encodable (SendWindow.StopDate w)
  && pointer_encodable (SendWindow.StopTime w).

Definition Message_encodable (m : Message.t) : bool :=
  match Message.Settings m with
  | Some s =>
    match Settings.SendWindow s with
    | Some w => SendWindow_encodable w
    | None => true
    end
  | None => true
  end.

Definition batch_encodable (messages : slice Message.t) : bool :=
  forallb Message_encodable (default [] messages).

Definition is_blank (body : string) : bool := forallb isSpace (list_ascii_of_string body).

(** Further inputs of the examples: a client that refuses to follow a
    redirect, a URL parser that rejects a space, the zero client. *)
Definition redirect_refused : Client :=
  fun req =>
    (Some (Response.Make 302 ""),
     Some (urlError "Post" (Request.URL req) (errors_New "stopped after 10 redirects"))).

Definition rejects_spaces (url : string) : bool :=
  negb (existsb (Ascii.eqb " ") (list_ascii_of_string url)).

Definition zero_client : SmsGatewayClient.t := SmsGatewayClient.Make None 0 "" "" "".

Definition status_example : MessageStatus.t :=
  MessageStatus.Make 1 "Message enqueued for sending" "ref-1" "+4799999999" "m-17" "" 1.

Definition response_example : SmsGatewayResponse.t :=
  SmsGatewayResponse.Make "123abc" (Some [status_example]).

Definition redirect_client : SmsGatewayClient.t :=
  MakeSmsGatewayClient redirect_refused "https://www.dummy-address.com" 0 "" "".

Definition spaced_client : SmsGatewayClient.t :=
  MakeSmsGatewayClient (NewStringResponder 200 ok_body) "https://dummy address.com" 0 "" "".

Definition blank_client : SmsGatewayClient.t := dummy_client (NewStringResponder 200 "  ").

Definition full_settings : Settings.t :=
  Settings.Make 3 3600 "campaign" 18 true "s-1" "node" true true
    (Some (OriginatorSettings.Make "ALPHANUMERIC" "Intelecom"))
    (Some (GasSettings.Make "10001" "Ringtone"))
    (Some (SendWindow.Make time.zero (Some time.zero) (Some time.zero) (Some time.zero)))
    (<["dcs" := "F5"]> ∅).

(** A body that names [messageStatus] three times. *)
Definition repeated_body : string :=
  "{" +:+ appendString "messageStatus" +:+ ":[{" +:+ appendString "statusCode" +:+ ":1},{"
  +:+ appendString "statusCode" +:+ ":2}]," +:+ appendString "messageStatus" +:+ ":[{"
  +:+ appendString "statusCode" +:+ ":3}]," +:+ appendString "messageStatus" +:+ ":[{},{}]}".

Definition is_Ok {A} (r : res A) : bool :=
  match r with Ok _ => true | Err _ => false end.

(** ** Vocabulary of the byte-level properties *)

(** What the decoder makes of the bytes of a string the encoder wrote: rune
    by rune, each one encoded again, so that every byte that is not part of
    a well-formed rune has become U+FFFD.  [skip] counts the bytes of a rune
    already taken. *)
Fixpoint to_valid_go (skip : nat) (s : string) : string :=
  match s with
  | EmptyString => ""
  | String c rest =>
    match skip with
    | S k => to_valid_go k rest
    | O =>
      let '(r, size) := utf8_DecodeRune s in
      utf8_EncodeRune r +:+ to_valid_go (size - 1) rest
    end
  end.

Definition to_valid (s : string) : string := to_valid_go O s.

(** [utf8.ValidString] *)
Fixpoint utf8_Valid_go (skip : nat) (s : string) : bool :=
  match s with
  | EmptyString => true
  | String c rest =>
    match skip with
    | S k => utf8_Valid_go k rest
    | O =>
      let '(r, size) := utf8_DecodeRune s in
      negb ((r =? RuneError) && (size =? 1)%nat) && utf8_Valid_go (size - 1) rest
    end
  end.

Definition utf8_ValidString (s : string) : bool := utf8_Valid_go O s.

Definition ascii_char (c : ascii) : bool := code c <? 128.

Definition encoded_char (c : ascii) : string :=
  if htmlSafe (code c) then String c "" else escape_ascii c.

Definition high_bytes (p : string) : bool :=
  forallb (fun b => negb (ascii_char b)) (list_ascii_of_string p).

(** The second byte of a rune of more than two bytes is held to a range
    that depends on the first. *)
Definition second_byte_ok (c c1 : ascii) : Prop :=
  (if code c =? 224 then 160 else if code c =? 240 then 144 else 128) <= code c1
  /\ code c1 <= (if code c =? 237 then 159 else if code c =? 244 then 143 else 191).


(** [reads st stack buf v rest]: from state [st] with parse stack [stack],
    the scanner ends the top-level value [v] inside [buf] and leaves [rest]
    unread. *)
Definition reads (st : state) (stack : list frame) (buf : string) (v : json) (rest : string)
  : Prop :=
  forall nonSpace, readValue st stack nonSpace buf = valueRead v rest.

(** The scanner, inside a string, passes over the bytes [out]. *)
Definition passes_over (out : string) : Prop :=
  forall raw stack tail v rest,
    reads (stateInString (rev (list_ascii_of_string out) ++ raw)) stack tail v rest ->
    reads (stateInString raw) stack (out +:+ tail) v rest.

(** [unquote] turns the bytes [out] into the bytes [val]. *)
Definition unquotes_to (out val : string) : Prop :=
  forall X, unquote_go O (out +:+ X) = (x ← unquote_go O X; Some (val +:+ x)).

(** The bytes the encoder lets through to the wire: no control character
    and none of [<], [>] and [&] ([escapeHTML] is on in [json.Marshal]). *)
Definition wire_char (c : ascii) : bool :=
  (32 <=? code c) && negb ((code c =? 38) || (code c =? 60) || (code c =? 62)).

Definition wire_safe (s : string) : bool := forallb wire_char (list_ascii_of_string s).

(** The first rune of [s] is written as [out], which is read back as [val];
    [t] is what follows the rune in [s]. *)
Definition written_as (s out val t : string) : Prop :=
  (String.length t < String.length s)%nat
  /\ wire_safe out = true
  /\ appendString_go O O s = out +:+ appendString_go O O t
  /\ to_valid s = val +:+ to_valid t
  /\ (utf8_ValidString s = true -> s = val +:+ t /\ utf8_ValidString t = true)
  /\ passes_over out
  /\ unquotes_to out val.

(** The decimal integer literals: [0], or digits that start with one that
    is not zero, with or without a minus sign. *)
Definition positive_literal (s : string) : bool :=
  match s with
  | String c d => (49 <=? code c) && (code c <=? 57) && all_digits d
  | EmptyString => false
  end.

Definition integer_literal (lit : string) : bool :=
  String.eqb lit "0" || positive_literal lit
  || match lit with String "-" d => positive_literal d | _ => false end.

(** The trees all of whose numbers are such literals. *)
Fixpoint integers_only (j : json) : bool :=
  match j with
  | JNum lit => integer_literal lit
  | JArr elems => forallb integers_only elems
  | JObj members => forallb (fun kv => match kv with (_, v) => integers_only v end) members
  | _ => true
  end.

(** The tree the decoder builds from the bytes of a tree: its strings and
    keys coerced to well-formed UTF-8. *)
Fixpoint to_valid_json (j : json) : json :=
  match j with
  | JStr s => JStr (to_valid s)
  | JArr elems => JArr (map to_valid_json elems)
  | JObj members =>
    JObj (map (fun kv => match kv with (k, v) => (to_valid k, to_valid_json v) end) members)
  | _ => j
  end.

(** The trees all of whose strings and keys are well-formed UTF-8. *)
Fixpoint valid_json (j : json) : bool :=
  match j with
  | JStr s => utf8_ValidString s
  | JArr elems => forallb valid_json elems
  | JObj members =>
    forallb (fun kv => match kv with (k, v) => utf8_ValidString k && valid_json v end) members
  | _ => true
  end.

(** How deep the containers of a tree nest. *)
Fixpoint depth (j : json) : nat :=
  match j with
  | JArr elems => S (list_max (map depth elems))
  | JObj members => S (list_max (map (fun kv => match kv with (_, v) => depth v end) members))
  | _ => O
  end.

(** The stack expects a value, and the stack once it has got it. *)
Definition expects_value (stack : list frame) : bool :=
  match stack with
  | parseArray _ :: _ | parseObject _ (Some _) :: _ => true
  | _ => false
  end.

Definition push_value (v : json) (stack : list frame) : list frame :=
  match stack with
  | parseArray elems :: below => parseArray (v :: elems) :: below
  | parseObject members (Some k) :: below => parseObject ((k, v) :: members) None :: below
  | _ => stack
  end.

(** The bytes that follow a value inside a container. *)
Definition delimiter (c : ascii) : bool :=
  (code c =? 44) || (code c =? 93) || (code c =? 125).

(** [scans j]: inside a container, the bytes of [j] followed by a delimiter
    take the scanner from the start of a value to the end of it, with the
    tree read stored in the frame on top of the stack. *)
Definition scans (j : json) : Prop :=
  forall stack c tail v rest,
    expects_value stack = true -> delimiter c = true ->
    Z.of_nat (length stack) + Z.of_nat (depth j) <= maxNestingDepth ->
    reads stateEndValue (push_value (to_valid_json j) stack) (String c tail) v rest ->
    reads stateBeginValue stack (encode j +:+ String c tail) v rest.

Definition is_container (j : json) : bool :=
  match j with JArr _ | JObj _ => true | _ => false end.

Definition encode_member (kv : member) : string :=
  match kv with (k, v) => appendString k +:+ ":" +:+ encode v end.

Definition to_valid_member (kv : member) : member :=
  match kv with (k, v) => (to_valid k, to_valid_json v) end.

Definition member_depth (kv : member) : nat := match kv with (_, v) => depth v end.

Definition member_integers_only (kv : member) : bool :=
  match kv with (_, v) => integers_only v end.

(** [fits n j]: the numbers of [j] are integer literals and [j] nests at
    most [n] deep. *)
Definition fits (n : nat) (j : json) : Prop :=
  integers_only j = true /\ (depth j <= n)%nat.

Definition members_fit (n : nat) (members : list member) : Prop :=
  Forall (fun kv => fits n (snd kv)) members.

(** The responses all of whose strings are well-formed UTF-8. *)
Definition valid_status (s : MessageStatus.t) : bool :=
  utf8_ValidString (MessageStatus.StatusMessage s)
  && utf8_ValidString (MessageStatus.ClientReference s)
  && utf8_ValidString (MessageStatus.Recipient s)
  && utf8_ValidString (MessageStatus.MessageID s)
  && utf8_ValidString (MessageStatus.SessionID s).

Definition valid_response (r : SmsGatewayResponse.t) : bool :=
  utf8_ValidString (SmsGatewayResponse.BatchReference r)
  && forallb valid_status (default [] (SmsGatewayResponse.MessageStatus r)).

(** The maps all of whose keys are well-formed UTF-8. *)
Definition keys_well_formed (m : gmap string string) : bool :=
  forallb (fun kv => utf8_ValidString (fst kv)) (map_to_list m).

(** Parameters of a binary message, and two keys that are no UTF-8. *)
Definition parameters_example : gmap string string :=
  <["dcs" := "F5"]> (<["Udh" := "0B0504158200000003010201"]> ∅).

Definition ill_formed_parameters : gmap string string :=
  <[String "255" "" := "a"]> (<[String "254" "" := "b"]> ∅).

(** Inputs of the examples: strings with bytes the encoder escapes, with
    runes of two, three and four bytes (a with ring, the euro sign, U+2028,
    a face), and with a byte that is no rune at all. *)
Definition a_ring : string := String "195" (String "165" "").
Definition euro : string := String "226" (String "130" (String "172" "")).
Definition line_separator : string := String "226" (String "128" (String "168" "")).
Definition face : string := String "240" (String "159" (String "152" (String "128" ""))).
Definition stray_byte : string := String "255" "".

Definition escaped_example : json :=
  JArr [JStr ("<a href='x'>R&D</a>" +:+ a_ring +:+ line_separator); JNum "-12"; JNull;
        JObj [("back\slash" +:+ euro, JBool true); (String "009" "tab", JArr [JStr face])]].

Definition stray_example : json := JArr [JStr ("caf" +:+ stray_byte)].

Definition escaped_status : MessageStatus.t :=
  MessageStatus.Make 2 ("Invalid <recipient> & content: bl" +:+ a_ring +:+ "b" +:+ a_ring +:+ "r")
    "ref-1" "+4799999999" "m-17" "" 1.

Definition escaped_response : SmsGatewayResponse.t :=
  SmsGatewayResponse.Make "123abc" (Some [escaped_status]).

Definition escaped_client : SmsGatewayClient.t :=
  dummy_client
    (NewStringResponder 200
       (encode (marshal_SmsGatewayResponse escaped_response) +:+ String "010" "")).

Definition accented_message : Message.t :=
  Message.Make "+4799999999" ("Bl" +:+ a_ring +:+ "b" +:+ a_ring +:+ "r & fl" +:+ stray_byte)
    5 "" (Some full_settings).

Definition accented_request : Request.t :=
  post "https://www.dummy-address.com/sendMessages"
    (match json_Marshal (envelope ok_client (Some [accented_message])) with
     | Ok buffer => buffer
     | Err _ => ""
     end).

(** The bytes a JSON value can start with. *)
Definition begins_value (c : ascii) : bool :=
  let b := code c in
  (b =? 123) || (b =? 91) || (b =? 34) || (b =? 45) || (b =? 116) || (b =? 102) || (b =? 110)
  || ((48 <=? b) && (b <=? 57)).

Definition has_nonSpace (s : string) : bool :=
  existsb (fun c => negb (isSpace c)) (list_ascii_of_string s).

(** An HTML page in the place of the answer, and an answer cut short. *)
Definition html_client : SmsGatewayClient.t :=
  dummy_client (NewStringResponder 200 " <html><body>Service unavailable</body></html>").

Definition cut_client : SmsGatewayClient.t :=
  dummy_client
    (NewStringResponder 200 (substring 0 40 (encode (marshal_SmsGatewayResponse response_example)))).

(** * Properties *)

(** ** The request that is built *)

Lemma Header_Add_twice :
  Header_Add "Accept" "application/json"
    (Header_Add "Content-Type" "application/json" ∅) = json_headers.
Proof.
  unfold Header_Add, json_headers.
  rewrite lookup_insert_ne by discriminate.
  now rewrite !lookup_empty.
Qed.

(** ** The decoder stops at the end of the first value *)

Lemma endOfValue_scanEnd v consumed stack v' consumed' :
  endOfValue v consumed stack = scanEnd v' consumed' -> v' = v /\ consumed' = consumed.
Proof.
  destruct stack as [|[elems|members [k|]] below]; cbn; try discriminate.
  - now intros [= <- <-].
  - destruct v; discriminate.
Qed.

Lemma endValue_scanEnd stack c v consumed :
  endValue stack c = scanEnd v consumed -> consumed = true.
Proof.
  destruct stack as [|[elems|members [k|]] below]; cbn; try discriminate;
    repeat match goal with |- context [if ?b then _ else _] => destruct b end;
    try discriminate; intros H; now apply endOfValue_scanEnd in H.
Qed.

Lemma endOfNumber_scanEnd lit stack c v :
  endOfNumber lit stack c = scanEnd v false -> exists l, v = JNum l.
Proof.
  unfold endOfNumber. destruct (endOfValue _ _ _) as [st stack'|v' consumed|e] eqn:E.
  - destruct (isSpace c); [discriminate|]. intros H. now apply endValue_scanEnd in H.
  - apply endOfValue_scanEnd in E as [-> ->]. intros [= <-]. eauto.
  - discriminate.
Qed.

Lemma step_scanEnd st stack c v :
  step st stack c = scanEnd v false -> exists l, v = JNum l.
Proof.
  assert (Hpush : forall f success, pushParseState c f stack success <> scanEnd v false).
  { intros f success. unfold pushParseState. now destruct (_ <=? _). }
  assert (Hvalue : beginValue stack c <> scanEnd v false).
  { unfold beginValue.
    repeat match goal with |- context [if ?b then _ else _] => destruct b end;
      try discriminate; apply Hpush. }
  assert (Hstring : beginString stack c <> scanEnd v false).
  { unfold beginString.
    repeat match goal with |- context [if ?b then _ else _] => destruct b end; discriminate. }
  assert (Hend : endValue stack c <> scanEnd v false).
  { intros H. now apply endValue_scanEnd in H. }
  destruct st; cbn [step];
    try (repeat match goal with |- context [if ?b then _ else _] => destruct b end;
         try discriminate; try contradiction; fail).
  - destruct (code c =? 34).
    + destruct (unquote raw); [|discriminate]. intros H. now apply endOfValue_scanEnd in H.
    + repeat match goal with |- context [if ?b then _ else _] => destruct b end; discriminate.
  - unfold stepNum. destruct k;
      repeat match goal with |- context [if ?b then _ else _] => destruct b end;
      try discriminate; apply endOfNumber_scanEnd.
  - destruct expect as [|e more]; [discriminate|].
    destruct (Ascii.eqb c e); [|discriminate].
    destruct more; [|discriminate]. intros H. now apply endOfValue_scanEnd in H.
Qed.

Lemma readValue_prefix buf : forall st stack nonSpace v rest,
  readValue st stack nonSpace buf = valueRead v rest ->
  (forall l, v <> JNum l) ->
  exists prefix, buf = prefix +:+ rest
                 /\ forall nonSpace' tail,
                      readValue st stack nonSpace' (prefix +:+ tail) = valueRead v tail.
Proof.
  induction buf as [|c buf IH]; intros st stack nonSpace v rest H Hnum.
  - cbn in H. destruct st; try (destruct stack; discriminate).
    destruct stack; [|discriminate]. destruct (numComplete k); [|discriminate].
    injection H as <- _. now destruct (Hnum (of_rev lit)).
  - cbn [readValue] in H. destruct (step st stack c) as [st' stack'|v' consumed|e] eqn:E.
    + destruct (IH _ _ _ _ _ H Hnum) as (prefix & -> & Hprefix).
      exists (String c prefix). split; [reflexivity|].
      intros nonSpace' tail. change (String c prefix +:+ tail) with (String c (prefix +:+ tail)).
      cbn [readValue]. rewrite E. apply Hprefix.
    + injection H as <- <-. destruct consumed.
      * exists (String c ""). split; [reflexivity|].
        intros nonSpace' tail. change (String c "" +:+ tail) with (String c tail).
        cbn [readValue]. now rewrite E.
      * apply step_scanEnd in E as [l ->]. now destruct (Hnum l).
    + discriminate.
Qed.

Lemma Decode_ignores_what_follows body v r :
  Decode body v = (r, None) ->
  exists prefix rest,
    body = prefix +:+ rest /\ forall tail, Decode (prefix +:+ tail) v = (r, None).
Proof.
  unfold Decode. destruct (readValue _ _ _ body) as [j rest|e] eqn:E; [|discriminate].
  intros H. apply readValue_prefix in E as (prefix & -> & Hprefix).
  - exists prefix, rest. split; [reflexivity|]. intros tail. now rewrite Hprefix.
  - intros l ->. cbn in H. discriminate.
Qed.

(** ** The paths of [Send] *)

Section SendProperties.

Variable url_ok : string -> bool.

Lemma createRequest_value url buf :
  url_ok url = true -> createRequest url_ok url buf = value (post url buf).
Proof.
  intros Hurl. unfold createRequest, http_NewRequest. rewrite Hurl.
  cbn [Request.Header Request.Method Request.URL Request.Body].
  now rewrite Header_Add_twice.
Qed.

Lemma createRequest_panic url buf :
  url_ok url = false -> createRequest url_ok url buf = panic nil_dereference.
Proof. intros Hurl. unfold createRequest, http_NewRequest. now rewrite Hurl. Qed.

(** [Send], path by path. *)

Lemma Send_marshal_error client messages err :
  json_Marshal (envelope client messages) = Err err ->
  Send url_ok client messages = Run [] (value (SmsGatewayResponse.zero, Some err)).
Proof. intros H. unfold Send. fold (envelope client messages). now rewrite H. Qed.

Lemma Send_after_marshal client messages buffer :
  json_Marshal (envelope client messages) = Ok buffer ->
  url_ok (sendMessages_url client) = true ->
  Send url_ok client messages =
  let request := post (sendMessages_url client) buffer in
  match Client_Do (SmsGatewayClient.httpClient client) request with
  | panic msg => Run [] (panic msg)
  | value (None, _) => Run [request] (panic nil_dereference)
  | value (Some _, Some err) => Run [request] (value (SmsGatewayResponse.zero, Some err))
  | value (Some response, None) =>
    if Response.StatusCode response =? 200 then
      match Decode (Response.Body response) SmsGatewayResponse.zero with
      | (_, Some err) => Run [request] (value (SmsGatewayResponse.zero, Some err))
      | (gatewayResponse, None) => Run [request] (value (gatewayResponse, None))
      end
    else Run [request] (value (SmsGatewayResponse.zero,
                               Some (status_error (Response.StatusCode response))))
  end.
Proof.
  intros Hm Hurl. unfold Send. fold (envelope client messages). rewrite Hm.
  fold (sendMessages_url client). rewrite (createRequest_value _ _ Hurl). cbn zeta.
  destruct (Client_Do _ _) as [[[response|] [err|]]|msg]; try reflexivity.
  destruct (Response.StatusCode response =? 200); cbn [negb]; [|reflexivity].
  destruct (Decode _ _) as [gatewayResponse [err|]]; reflexivity.
Qed.

Lemma Send_bad_url client messages buffer :
  json_Marshal (envelope client messages) = Ok buffer ->
  url_ok (sendMessages_url client) = false ->
  Send url_ok client messages = Run [] (panic nil_dereference).
Proof.
  intros Hm Hurl. unfold Send. fold (envelope client messages). rewrite Hm.
  fold (sendMessages_url client). now rewrite (createRequest_panic _ _ Hurl).
Qed.

Lemma Send_nil_response_panics client messages buffer err :
  json_Marshal (envelope client messages) = Ok buffer ->
  url_ok (sendMessages_url client) = true ->
  Client_Do (SmsGatewayClient.httpClient client) (post (sendMessages_url client) buffer)
  = value (None, err) ->
  Send url_ok client messages
  = Run [post (sendMessages_url client) buffer] (panic nil_dereference).
Proof.
  intros Hm Hurl Hdo. rewrite (Send_after_marshal _ _ _ Hm Hurl). cbn zeta. now rewrite Hdo.
Qed.


(** C7. When [json.Marshal] of the envelope fails, [Send] returns that
    error with the zero response and hands no request to the HTTP
    client. *)
Theorem Send_reports_marshal_error_before_any_request client messages err :
  json_Marshal (envelope client messages) = Err err ->
  issued (Send url_ok client messages) = []
  /\ result (Send url_ok client messages) = value (SmsGatewayResponse.zero, Some err).
Proof. intros H. now rewrite (Send_marshal_error _ _ _ H). Qed.

(** C10. Whenever [Send] returns with a non-nil error, the response it
    returns with it is the zero [SmsGatewayResponse]. *)
Theorem Send_error_has_zero_response client messages response err :
  result (Send url_ok client messages) = value (response, Some err) ->
  response = SmsGatewayResponse.zero.
Proof.
  unfold Send.
  destruct (json_Marshal _) as [buffer|e]; cbn [result]; [|congruence].
  destruct (createRequest _ _ _) as [request|msg]; cbn [result]; [|congruence].
  destruct (Client_Do _ request) as [[[resp|] [e|]]|msg'];
    cbn [result]; try congruence.
  destruct (negb _); cbn [result]; [congruence|].
  destruct (Decode _ _) as [gatewayResponse [e|]]; cbn [result]; congruence.
Qed.


(** C4, amended. On a 200 response [Send] returns what the decoder
    reports: an error of the decoder comes back with the zero response,
    never with what was decoded so far; without an error the decoded
    response is returned.  The decoder fails exactly when no first JSON
    value can be read from the body or that value does not fit the
    response structure; the bytes after the first value play no part: when
    a body is accepted, so is every body that differs from it in those
    bytes only. *)
Theorem Send_reports_decoder_error client messages buffer response :
  json_Marshal (envelope client messages) = Ok buffer ->
  url_ok (sendMessages_url client) = true ->
  Client_Do (SmsGatewayClient.httpClient client) (post (sendMessages_url client) buffer)
  = value (Some response, None) ->
  Response.StatusCode response = 200 ->
  (forall err, snd (Decode (Response.Body response) SmsGatewayResponse.zero) = Some err ->
     result (Send url_ok client messages) = value (SmsGatewayResponse.zero, Some err))
  /\ (snd (Decode (Response.Body response) SmsGatewayResponse.zero) = None ->
      result (Send url_ok client messages)
      = value (fst (Decode (Response.Body response) SmsGatewayResponse.zero), None))
  /\ (forall err, snd (Decode (Response.Body response) SmsGatewayResponse.zero) = Some err <->
        readValue stateBeginValue [] false (Response.Body response) = readFailed err
        \/ exists j rest,
             readValue stateBeginValue [] false (Response.Body response) = valueRead j rest
             /\ snd (decode_SmsGatewayResponse j SmsGatewayResponse.zero None) = Some err)
  /\ (forall r, Decode (Response.Body response) SmsGatewayResponse.zero = (r, None) ->
        exists prefix rest,
          Response.Body response = prefix +:+ rest
          /\ forall tail, Decode (prefix +:+ tail) SmsGatewayResponse.zero = (r, None)).
Proof.
  intros Hm Hurl Hdo Hcode. rewrite (Send_after_marshal _ _ _ Hm Hurl). cbn zeta.
  rewrite Hdo, Hcode. cbn [Z.eqb Pos.eqb].
  split; [|split; [|split]]; [| | |now apply Decode_ignores_what_follows].
  - intros err H. destruct (Decode _ _) as [r [e|]]; cbn in *; congruence.
  - intros H. destruct (Decode _ _) as [r [e|]]; cbn in *; congruence.
  - intros err. unfold Decode.
    destruct (readValue _ _ _ _) as [j rest|e]; cbn [snd].
    + split.
      * intros H. right. now exists j, rest.
      * intros [H|(j' & rest' & H & H')]; [discriminate|]. now injection H as -> _.
    + split.
      * intros H. left. congruence.
      * intros [H|(j' & rest' & H & _)]; [congruence|discriminate].
Qed.

End SendProperties.

(** ** What [json.Marshal] writes for each struct *)

Lemma keys_app (a b : list member) : keys (a ++ b) = keys a ++ keys b.
Proof. apply map_app. Qed.

Lemma keys_cons k v (l : list member) : keys ((k, v) :: l) = k :: keys l.
Proof. reflexivity. Qed.

Ltac keys_norm := repeat (rewrite keys_cons || rewrite keys_app).

Lemma elem_of_present k written name : k ∈ present written name <-> written = true /\ k = name.
Proof.
  destruct written; cbn.
  - rewrite list_elem_of_singleton. tauto.
  - rewrite elem_of_nil. split; [tauto | now intros [? _]].
Qed.

Lemma non_empty_unset v : v = "" -> non_empty v = false.
Proof. now intros ->. Qed.

Lemma keys_omitempty_int name v : keys (omitempty_int name v) = present (negb (v =? 0)) name.
Proof. unfold omitempty_int. now destruct (v =? 0). Qed.

Lemma keys_omitempty_bool name v : keys (omitempty_bool name v) = present v name.
Proof. now destruct v. Qed.

Lemma keys_omitempty_string name v : keys (omitempty_string name v) = present (non_empty v) name.
Proof. unfold omitempty_string, non_empty. now destruct (_ =? _)%nat. Qed.

Lemma keys_omitempty_map name m :
  keys (omitempty_map name m) = present (negb (size m =? 0)%nat) name.
Proof. unfold omitempty_map. now destruct (_ =? _)%nat. Qed.

Lemma omitempty_ptr_inv {A} name (enc : A -> res json) p l :
  omitempty_ptr name enc p = Ok l ->
  match p with
  | None => l = []
  | Some a => exists j, enc a = Ok j /\ l = [(name, j)]
  end.
Proof.
  destruct p as [a|]; cbn.
  - destruct (enc a) as [j|e]; cbn; [|discriminate]. intros [= <-]. now exists j.
  - now intros [= <-].
Qed.

Lemma keys_omitempty_ptr {A} name (enc : A -> res json) p l :
  omitempty_ptr name enc p = Ok l -> keys l = present (non_nil p) name.
Proof.
  intros H. apply omitempty_ptr_inv in H. destruct p as [a|]; [|now subst].
  now destruct H as (j & _ & ->).
Qed.

(** Inversion of a bind in [res]. *)
Lemma res_bind_Ok {A B} (r : res A) (k : A -> res B) b :
  (r ≫= k) = Ok b -> exists a, r = Ok a /\ k a = Ok b.
Proof. destruct r as [a|e]; cbn; [|discriminate]. intros H. now exists a. Qed.

Ltac res_inv H :=
  repeat (let a := fresh "l" in let Ha := fresh "H" a in
          apply res_bind_Ok in H as (a & Ha & H));
  injection H as <-.

Lemma marshal_SendWindow_keys w j :
  marshal_SendWindow w = Ok j ->
  keys (members_of j)
  = ["startDate"] ++ present (non_nil (SendWindow.StartTime w)) "startTime"
    ++ present (non_nil (SendWindow.StopDate w)) "stopDate"
    ++ present (non_nil (SendWindow.StopTime w)) "stopTime".
Proof.
  unfold marshal_SendWindow. intros H. res_inv H. cbn [members_of]. keys_norm.
  now rewrite (keys_omitempty_ptr _ _ _ _ Hl0), (keys_omitempty_ptr _ _ _ _ Hl1),
    (keys_omitempty_ptr _ _ _ _ Hl2).
Qed.

Lemma marshal_GasSettings_keys g j :
  marshal_GasSettings g = Ok j ->
  keys (members_of j)
  = ["serviceCode"] ++ present (non_empty (GasSettings.Description g)) "description".
Proof.
  unfold marshal_GasSettings. intros [= <-]. cbn [members_of field_string]. keys_norm.
  now rewrite keys_omitempty_string.
Qed.

Lemma marshal_Settings_members s j :
  marshal_Settings s = Ok j ->
  exists originatorSettings gasSettings sendWindow,
    omitempty_ptr "originatorSettings" marshal_OriginatorSettings (Settings.OriginatorSettings s)
      = Ok originatorSettings
    /\ omitempty_ptr "gasSettings" marshal_GasSettings (Settings.GasSettings s) = Ok gasSettings
    /\ omitempty_ptr "sendWindow" marshal_SendWindow (Settings.SendWindow s) = Ok sendWindow
    /\ j = JObj (omitempty_int "priority" (Settings.Priority s)
                 ++ omitempty_int "validity" (Settings.Validity s)
                 ++ omitempty_string "differentiator" (Settings.Differentiator s)
                 ++ omitempty_int "age" (Settings.Age s)
                 ++ omitempty_bool "newSession" (Settings.NewSession s)
                 ++ omitempty_string "sessionId" (Settings.SessionID s)
                 ++ omitempty_string "invoiceNode" (Settings.InvoiceNode s)
                 ++ omitempty_bool "autoDetectEncoding" (Settings.AutoDetectEncoding s)
                 ++ omitempty_bool "safeRemoveNonGsmCharacters"
                      (Settings.SafeRemoveNonGsmCharacters s)
                 ++ originatorSettings ++ gasSettings ++ sendWindow
                 ++ omitempty_map "parameter" (Settings.Parameters s)).
Proof.
  unfold marshal_Settings. intros H. res_inv H. now exists l, l0, l1.
Qed.

Lemma marshal_Settings_keys s j :
  marshal_Settings s = Ok j ->
  keys (members_of j)
  = present (negb (Settings.Priority s =? 0)) "priority"
    ++ present (negb (Settings.Validity s =? 0)) "validity"
    ++ present (non_empty (Settings.Differentiator s)) "differentiator"
    ++ present (negb (Settings.Age s =? 0)) "age"
    ++ present (Settings.NewSession s) "newSession"
    ++ present (non_empty (Settings.SessionID s)) "sessionId"
    ++ present (non_empty (Settings.InvoiceNode s)) "invoiceNode"
    ++ present (Settings.AutoDetectEncoding s) "autoDetectEncoding"
    ++ present (Settings.SafeRemoveNonGsmCharacters s) "safeRemoveNonGsmCharacters"
    ++ present (non_nil (Settings.OriginatorSettings s)) "originatorSettings"
    ++ present (non_nil (Settings.GasSettings s)) "gasSettings"
    ++ present (non_nil (Settings.SendWindow s)) "sendWindow"
    ++ present (negb (size (Settings.Parameters s) =? 0)%nat) "parameter".
Proof.
  intros H. apply marshal_Settings_members in H as (o & g & w & Ho & Hg & Hw & ->).
  cbn [members_of]. keys_norm.
  now rewrite !keys_omitempty_int, !keys_omitempty_bool, !keys_omitempty_string,
    keys_omitempty_map, (keys_omitempty_ptr _ _ _ _ Ho), (keys_omitempty_ptr _ _ _ _ Hg),
    (keys_omitempty_ptr _ _ _ _ Hw).
Qed.

Lemma marshal_Message_keys m j :
  marshal_Message m = Ok j ->
  keys (members_of j)
  = ["recipient"; "content"; "price"]
    ++ present (non_empty (Message.ClientReference m)) "clientReference"
    ++ present (non_nil (Message.Settings m)) "settings".
Proof.
  unfold marshal_Message. intros H. res_inv H. cbn [members_of field_string field_int].
  keys_norm. now rewrite keys_omitempty_string, (keys_omitempty_ptr _ _ _ _ Hl).
Qed.

Lemma marshal_smsGatewayRequest_keys r j :
  marshal_smsGatewayRequest r = Ok j ->
  keys (members_of j)
  = ["serviceId"; "username"; "password"]
    ++ present (non_empty (smsGatewayRequest.BatchReference r)) "batchReference"
    ++ ["message"].
Proof.
  unfold marshal_smsGatewayRequest. intros H. res_inv H.
  cbn [members_of field_string field_int]. keys_norm. now rewrite keys_omitempty_string.
Qed.

Lemma has_key_members k j : has_key k j <-> k ∈ keys (members_of j).
Proof. destruct j; cbn; try (rewrite elem_of_nil; tauto). tauto. Qed.

Lemma member_key k j (l : list member) : (k, j) ∈ l -> k ∈ keys l.
Proof.
  induction l as [|[k' j'] l IH]; [now rewrite elem_of_nil|].
  rewrite keys_cons, !elem_of_cons. intros [[= -> ->]|H]; [now left | right; auto].
Qed.

Lemma elem_of_omitempty_int k j name v :
  (k, j) ∈ omitempty_int name v -> k = name /\ j = marshal_int v /\ v <> 0.
Proof.
  unfold omitempty_int. destruct (Z.eqb_spec v 0) as [|Hv]; [now rewrite elem_of_nil|].
  rewrite list_elem_of_singleton. now intros [= -> ->].
Qed.

Lemma marshal_int_inj a b : marshal_int a = marshal_int b -> a = b.
Proof. unfold marshal_int, strconv_Itoa. intros [= H]. now apply (inj pretty). Qed.

(** Splits a membership in a list of keys built from [present] into its
    cases and closes those whose names differ. *)
Ltac split_keys H :=
  repeat match type of H with
         | _ ∈ _ ++ _ => apply elem_of_app in H as [H|H]
         | _ ∈ _ :: _ => apply elem_of_cons in H as [H|H]
         | _ ∈ [] => now apply elem_of_nil in H
         | _ ∈ present _ _ => apply elem_of_present in H as [H ?]
         end;
  try discriminate.

Ltac absent Hkeys :=
  let Hunset := fresh "Hunset" in
  let Hk := fresh "Hk" in
  intros Hunset Hk; apply has_key_members in Hk; rewrite Hkeys in Hk;
  split_keys Hk; rewrite Hunset in Hk; vm_compute in Hk; discriminate.

(** C2. Whatever [json.Marshal] writes for the envelope, a message, its
    settings, the goods-and-services settings and a send window, a field
    tagged [omitempty] that is unset (zero, false, empty or [nil]) has no
    member in the object written: its key is absent, with any value. *)
Theorem unset_optional_fields_are_omitted
    (r : smsGatewayRequest.t) (m : Message.t) (s : Settings.t) (g : GasSettings.t)
    (w : SendWindow.t) (jr jm js jg jw : json) :
  marshal_smsGatewayRequest r = Ok jr ->
  marshal_Message m = Ok jm ->
  marshal_Settings s = Ok js ->
  marshal_GasSettings g = Ok jg ->
  marshal_SendWindow w = Ok jw ->
  (smsGatewayRequest.BatchReference r = "" -> ~ has_key "batchReference" jr)
  /\ (Message.ClientReference m = "" -> ~ has_key "clientReference" jm)
  /\ (Message.Settings m = None -> ~ has_key "settings" jm)
  /\ (Settings.Priority s = 0 -> ~ has_key "priority" js)
  /\ (Settings.Validity s = 0 -> ~ has_key "validity" js)
  /\ (Settings.Differentiator s = "" -> ~ has_key "differentiator" js)
  /\ (Settings.Age s = 0 -> ~ has_key "age" js)
  /\ (Settings.NewSession s = false -> ~ has_key "newSession" js)
  /\ (Settings.SessionID s = "" -> ~ has_key "sessionId" js)
  /\ (Settings.InvoiceNode s = "" -> ~ has_key "invoiceNode" js)
  /\ (Settings.AutoDetectEncoding s = false -> ~ has_key "autoDetectEncoding" js)
  /\ (Settings.SafeRemoveNonGsmCharacters s = false
      -> ~ has_key "safeRemoveNonGsmCharacters" js)
  /\ (Settings.OriginatorSettings s = None -> ~ has_key "originatorSettings" js)
  /\ (Settings.GasSettings s = None -> ~ has_key "gasSettings" js)
  /\ (Settings.SendWindow s = None -> ~ has_key "sendWindow" js)
  /\ (Settings.Parameters s = ∅ -> ~ has_key "parameter" js)
  /\ (GasSettings.Description g = "" -> ~ has_key "description" jg)
  /\ (SendWindow.StartTime w = None -> ~ has_key "startTime" jw)
  /\ (SendWindow.StopDate w = None -> ~ has_key "stopDate" jw)
  /\ (SendWindow.StopTime w = None -> ~ has_key "stopTime" jw).
Proof.
  intros Hr Hm Hs Hg Hw.
  apply marshal_smsGatewayRequest_keys in Hr. apply marshal_Message_keys in Hm.
  apply marshal_Settings_keys in Hs. apply marshal_GasSettings_keys in Hg.
  apply marshal_SendWindow_keys in Hw.
  repeat split;
    first [absent Hr | absent Hm | absent Hs | absent Hg | absent Hw].
Qed.

(** C8. A send window that has only its start date set, and a start date
    that RFC 3339 can express, is written as an object whose only key is
    [startDate]: [startTime], [stopDate] and [stopTime] are absent. *)
Theorem start_only_window_has_only_startDate (w : SendWindow.t) (d : json) :
  SendWindow.StartTime w = None ->
  SendWindow.StopDate w = None ->
  SendWindow.StopTime w = None ->
  time.MarshalJSON (SendWindow.StartDate w) = Ok d ->
  exists j, marshal_SendWindow w = Ok j
            /\ has_key "startDate" j
            /\ ~ has_key "startTime" j
            /\ ~ has_key "stopDate" j
            /\ ~ has_key "stopTime" j.
Proof.
  intros H1 H2 H3 Hd. exists (JObj [("startDate", d)]).
  split.
  - unfold marshal_SendWindow, marshal_Time. now rewrite H1, H2, H3, Hd.
  - cbn [has_key keys map fst]. rewrite !list_elem_of_singleton.
    intuition discriminate.
Qed.

(** C9. In the object written for a [Settings] value the key [age] is
    present exactly when [Age] is not 0, and then holds that number: a
    member [age] with the value 0 is never written, and assigning 0 to [Age]
    gives the same output as the zero value the field has when it is left
    out.  The three flags are present exactly when they are [true]. *)
Theorem age_zero_and_false_flags_are_never_sent (s : Settings.t) (j : json) :
  marshal_Settings s = Ok j ->
  (has_key "age" j <-> Settings.Age s <> 0)
  /\ (forall v, ("age", v) ∈ members_of j -> v = marshal_int (Settings.Age s))
  /\ (("age", marshal_int 0) ∉ members_of j)
  /\ (has_key "newSession" j <-> Settings.NewSession s = true)
  /\ (has_key "autoDetectEncoding" j <-> Settings.AutoDetectEncoding s = true)
  /\ (has_key "safeRemoveNonGsmCharacters" j
      <-> Settings.SafeRemoveNonGsmCharacters s = true)
  /\ (fmap encode (marshal_Settings (with_Age 0 s))
      = fmap encode (marshal_Settings (with_Age (Settings.Age Settings.zero) s))).
Proof.
  intros Hj. pose proof (marshal_Settings_keys _ _ Hj) as Hkeys.
  assert (Hage : forall v, ("age", v) ∈ members_of j ->
                           v = marshal_int (Settings.Age s) /\ Settings.Age s <> 0).
  { apply marshal_Settings_members in Hj as (o & g & w & Ho & Hg & Hw & ->).
    cbn [members_of]. intros v Hv.
    repeat match type of Hv with
           | _ ∈ _ ++ _ => apply elem_of_app in Hv as [Hv|Hv]
           end;
      try (apply elem_of_omitempty_int in Hv as (Hn & Hv & Hz); try discriminate Hn; auto);
      apply member_key in Hv;
      rewrite ?keys_omitempty_bool, ?keys_omitempty_string, ?keys_omitempty_map,
        ?(keys_omitempty_ptr _ _ _ _ Ho), ?(keys_omitempty_ptr _ _ _ _ Hg),
        ?(keys_omitempty_ptr _ _ _ _ Hw) in Hv;
      now apply elem_of_present in Hv as [_ ?]. }
  repeat split.
  - intros Hk Hz. apply has_key_members in Hk. rewrite Hkeys in Hk.
    split_keys Hk. rewrite Hz in Hk. discriminate.
  - intros Hz. apply has_key_members. rewrite Hkeys, !elem_of_app, !elem_of_present.
    do 3 right. left. split; [|reflexivity].
    now destruct (Z.eqb_spec (Settings.Age s) 0).
  - intros v Hv. now apply Hage.
  - intros Hv. apply Hage in Hv as [Hv Hz]. apply marshal_int_inj in Hv. congruence.
  - intros Hk. apply has_key_members in Hk. rewrite Hkeys in Hk. now split_keys Hk.
  - intros Hb. apply has_key_members. rewrite Hkeys, !elem_of_app, !elem_of_present.
    do 4 right. left. now split.
  - intros Hk. apply has_key_members in Hk. rewrite Hkeys in Hk. now split_keys Hk.
  - intros Hb. apply has_key_members. rewrite Hkeys, !elem_of_app, !elem_of_present.
    do 7 right. left. now split.
  - intros Hk. apply has_key_members in Hk. rewrite Hkeys in Hk. now split_keys Hk.
  - intros Hb. apply has_key_members. rewrite Hkeys, !elem_of_app, !elem_of_present.
    do 8 right. left. now split.
Qed.

(** The encoder on a message that sets every kind of field, and the scanner
    on what the encoder wrote. *)
Example marshal_full_message : marshal_Message full_message = Ok full_message_json.
Proof. vm_compute. reflexivity. Qed.

Example read_back_full_message :
  readValue stateBeginValue [] false (encode full_message_json)
  = valueRead full_message_json "".
Proof. vm_compute. reflexivity. Qed.

(** ** [Send] and the HTTP exchange *)

Lemma res_mapM_Forall2 {A B} (f : A -> res B) l js :
  res_mapM f l = Ok js -> Forall2 (fun a j => f a = Ok j) l js.
Proof.
  revert js. induction l as [|a l IH]; cbn; intros js H.
  - injection H as <-. constructor.
  - apply res_bind_Ok in H as (b & Hb & H). apply res_bind_Ok in H as (bs & Hbs & H).
    injection H as <-. constructor; auto.
Qed.

Lemma json_Marshal_envelope client messages buffer :
  json_Marshal (envelope client messages) = Ok buffer ->
  exists message,
    buffer = encode (JObj [("serviceId", marshal_int (SmsGatewayClient.serviceID client));
                           ("username", JStr (SmsGatewayClient.username client));
                           ("password", JStr (SmsGatewayClient.password client));
                           ("message", message)])
    /\ match messages with
       | None => message = JNull
       | Some l =>
         exists js, message = JArr js /\ Forall2 (fun m j => marshal_Message m = Ok j) l js
       end.
Proof.
  unfold json_Marshal, marshal_smsGatewayRequest. intros H.
  apply res_bind_Ok in H as (j & H & Hb). injection Hb as <-.
  apply res_bind_Ok in H as (message & Hmsg & H). injection H as <-.
  exists message. split; [reflexivity|].
  cbn in Hmsg. destruct messages as [l|]; cbn in Hmsg.
  - apply res_bind_Ok in Hmsg as (js & Hjs & H). injection H as <-.
    exists js. split; [reflexivity|]. now apply res_mapM_Forall2.
  - now injection Hmsg as <-.
Qed.

Section Exchange.

Variable url_ok : string -> bool.

Lemma Send_issued client messages buffer :
  json_Marshal (envelope client messages) = Ok buffer ->
  url_ok (sendMessages_url client) = true ->
  SmsGatewayClient.httpClient client <> None ->
  issued (Send url_ok client messages) = [post (sendMessages_url client) buffer].
Proof.
  intros Hm Hurl Hc. rewrite (Send_after_marshal _ _ _ _ Hm Hurl). cbn zeta.
  destruct (SmsGatewayClient.httpClient client) as [do|]; [clear Hc | easy].
  cbn [Client_Do]. destruct (do _) as [[response|] [err|]]; try reflexivity.
  destruct (_ =? _); [|reflexivity].
  destruct (Decode _ _) as [r [e|]]; reflexivity.
Qed.

(** C6, amended. When the envelope serializes, the URL is accepted and the
    client holds an HTTP client, as every client [MakeSmsGatewayClient]
    returns does, [Send] calls [Do] on it exactly once, with one request: a
    POST to the base URL followed by [/sendMessages], with the headers
    [Content-Type] and [Accept] both [application/json], whose body is the
    envelope: the members [serviceId], [username], [password] and [message],
    in this order, [message] being the array of the caller's messages in
    their order, or [null] for a [nil] slice.  What is counted is what [Send]
    hands to the HTTP client, not what the client puts on the wire for it:
    following a redirect is the client's doing. *)
Theorem Send_issues_one_post client messages buffer :
  json_Marshal (envelope client messages) = Ok buffer ->
  url_ok (sendMessages_url client) = true ->
  SmsGatewayClient.httpClient client <> None ->
  exists request message,
    issued (Send url_ok client messages) = [request]
    /\ Request.Method request = "POST"
    /\ Request.URL request = SmsGatewayClient.baseURL client +:+ "/sendMessages"
    /\ Request.Header request !! "Content-Type" = Some ["application/json"]
    /\ Request.Header request !! "Accept" = Some ["application/json"]
    /\ Request.Body request
       = encode (JObj [("serviceId", marshal_int (SmsGatewayClient.serviceID client));
                       ("username", JStr (SmsGatewayClient.username client));
                       ("password", JStr (SmsGatewayClient.password client));
                       ("message", message)])
    /\ match messages with
       | None => message = JNull
       | Some l =>
         exists js, message = JArr js
                    /\ Forall2 (fun m j => marshal_Message m = Ok j) l js
       end.
Proof.
  intros Hm Hurl Hc. destruct (json_Marshal_envelope _ _ _ Hm) as (message & Hbuf & Hmsg).
  exists (post (sendMessages_url client) buffer), message.
  split; [now apply Send_issued|]. cbn [post Request.Method Request.URL Request.Header
                                          Request.Body].
  unfold json_headers.
  rewrite lookup_insert_ne by discriminate. rewrite !lookup_insert_eq. now rewrite Hbuf.
Qed.

(** C5. A client whose transport answers the POST with status 200 and the
    body [ok_body], that is [{batchReference:123abc,messageStatus:[]}] with
    its names and string quoted, returns from [Send] of one zero message a
    [nil] error and the response with batch reference [123abc] and an empty
    list of statuses. *)
Theorem Send_ok_response client :
  url_ok (sendMessages_url client) = true ->
  (forall body,
     Client_Do (SmsGatewayClient.httpClient client) (post (sendMessages_url client) body)
     = value (Some (Response.Make 200 ok_body), None)) ->
  result (Send url_ok client (Some [Message.zero]))
  = value (SmsGatewayResponse.Make "123abc" (Some []), None).
Proof.
  intros Hurl Hdo.
  assert (exists buffer, json_Marshal (envelope client (Some [Message.zero])) = Ok buffer)
    as [buffer Hm] by (eexists; reflexivity).
  rewrite (Send_after_marshal _ _ _ _ Hm Hurl). cbn zeta. rewrite Hdo.
  cbn [Response.StatusCode Response.Body Z.eqb Pos.eqb].
  replace (Decode ok_body SmsGatewayResponse.zero)
    with (SmsGatewayResponse.Make "123abc" (Some []), @None error)
    by (vm_compute; reflexivity).
  reflexivity.
Qed.

End Exchange.

(** ** The tests of the repository, and the sentences that do not hold *)

Lemma zero_batch_marshal client :
  SmsGatewayClient.serviceID client = 0 ->
  SmsGatewayClient.username client = "" ->
  SmsGatewayClient.password client = "" ->
  json_Marshal (envelope client (Some [Message.zero])) = Ok (encode zero_batch_json).
Proof. destruct client; cbn. now intros -> -> ->. Qed.

(** [TestErrorIsNilWhenOkResponse] *)
Example TestErrorIsNilWhenOkResponse :
  result (Send all_urls ok_client (Some [Message.zero])) = value (ok_response, None).
Proof. vm_compute. reflexivity. Qed.

(** [TestErrorIsNotNilWhenErrorResponse] *)
Example TestErrorIsNotNilWhenErrorResponse :
  result (Send all_urls error_client (Some [Message.zero]))
  = value (SmsGatewayResponse.zero, Some (errors_New "Status code: 500")).
Proof. vm_compute. reflexivity. Qed.

(** A 200 response whose body is not JSON at all is answered with the
    scanner's error. *)
Example Send_rejects_text_body :
  result (Send all_urls (dummy_client (NewStringResponder 200 "not json"))
            (Some [Message.zero]))
  = value (SmsGatewayResponse.zero, Some (SyntaxError "o" "in literal null (expecting 'u')")).
Proof. vm_compute. reflexivity. Qed.

(** C1. The transport refuses the connection: [Do] returns a [nil]
    response and an error, and [Send], which defers [response.Body.Close()]
    before it looks at the error, panics on the [nil] response after its one
    request instead of returning the error. *)
Theorem Send_panics_when_the_transport_fails :
  Send all_urls refused_client (Some [Message.zero])
  = Run [post dummy_url (encode zero_batch_json)] (panic nil_dereference).
Proof. vm_compute. reflexivity. Qed.


(** C4, as written, fails: the body of [trailing_client] is a JSON value
    followed by the bytes [garbage], which is not a JSON text, and [Send]
    returns the decoded response without an error. *)
Lemma trailing_bytes_are_not_rejected : ~ malformed_bodies_are_rejected.
Proof.
  intros H.
  destruct (H all_urls trailing_client (Some [Message.zero]) (encode zero_batch_json)
              (Response.Make 200 (ok_body +:+ "garbage"))) as [err Herr];
    try (vm_compute; reflexivity).
  vm_compute in Herr. discriminate Herr.
Qed.

(** C6, as written, fails: a message whose send window starts in the year
    10000 cannot be serialized, and [Send] issues no request. *)
Lemma no_post_when_marshal_fails : ~ every_call_issues_one_post.
Proof.
  intros H.
  destruct (H all_urls ok_client (Some [scheduled year_10000])) as [body Hbody].
  vm_compute in Hbody. discriminate Hbody.
Qed.

(** ** Instances *)

Lemma Send_reports_marshal_error_before_any_request_witness :
  json_Marshal (envelope ok_client (Some [scheduled year_10000])) = Err year_error
  /\ issued (Send all_urls ok_client (Some [scheduled year_10000])) = []
  /\ result (Send all_urls ok_client (Some [scheduled year_10000]))
     = value (SmsGatewayResponse.zero, Some year_error).
Proof.
  split; [vm_compute; reflexivity|].
  apply (Send_reports_marshal_error_before_any_request all_urls ok_client
           (Some [scheduled year_10000]) year_error).
  vm_compute; reflexivity.
Defined.

Lemma Send_error_has_zero_response_witness :
  result (Send all_urls error_client (Some [Message.zero]))
  = value (SmsGatewayResponse.zero, Some (status_error 500))
  /\ SmsGatewayResponse.zero = SmsGatewayResponse.zero.
Proof.
  split; [vm_compute; reflexivity|].
  apply (Send_error_has_zero_response all_urls error_client (Some [Message.zero])
           SmsGatewayResponse.zero (status_error 500)).
  vm_compute; reflexivity.
Defined.


Lemma Send_reports_decoder_error_witness :
  result (Send all_urls (dummy_client (NewStringResponder 200 "not json"))
            (Some [Message.zero]))
  = value (SmsGatewayResponse.zero, Some (SyntaxError "o" "in literal null (expecting 'u')")).
Proof.
  apply (Send_reports_decoder_error all_urls (dummy_client (NewStringResponder 200 "not json"))
           (Some [Message.zero]) (encode zero_batch_json) (Response.Make 200 "not json"));
    vm_compute; reflexivity.
Defined.

Lemma Send_ok_response_witness :
  result (Send all_urls (MakeSmsGatewayClient (NewStringResponder 200 ok_body)
                           "https://www.dummy-address.com" 0 "" "")
            (Some [Message.zero]))
  = value (SmsGatewayResponse.Make "123abc" (Some []), None).
Proof.
  apply (Send_ok_response all_urls
           (MakeSmsGatewayClient (NewStringResponder 200 ok_body)
              "https://www.dummy-address.com" 0 "" ""));
    [reflexivity | intros body; reflexivity].
Defined.

Lemma Send_issues_one_post_witness :
  exists request message,
    issued (Send all_urls ok_client (Some [Message.zero])) = [request]
    /\ Request.Method request = "POST"
    /\ Request.URL request = "https://www.dummy-address.com" +:+ "/sendMessages"
    /\ Request.Header request !! "Content-Type" = Some ["application/json"]
    /\ Request.Header request !! "Accept" = Some ["application/json"]
    /\ Request.Body request
       = encode (JObj [("serviceId", marshal_int 0); ("username", JStr "");
                       ("password", JStr ""); ("message", message)])
    /\ exists js, message = JArr js
                  /\ Forall2 (fun m j => marshal_Message m = Ok j) [Message.zero] js.
Proof.
  apply (Send_issues_one_post all_urls ok_client (Some [Message.zero])
           (encode zero_batch_json));
    [vm_compute; reflexivity | reflexivity | discriminate].
Defined.

Lemma start_only_window_has_only_startDate_witness :
  exists j, marshal_SendWindow (start_only time.zero) = Ok j
            /\ has_key "startDate" j
            /\ ~ has_key "startTime" j
            /\ ~ has_key "stopDate" j
            /\ ~ has_key "stopTime" j.
Proof.
  apply (start_only_window_has_only_startDate (start_only time.zero)
           (JStr "0001-01-01T00:00:00Z"));
    vm_compute; reflexivity.
Defined.

Lemma unset_optional_fields_are_omitted_witness :
  ~ has_key "batchReference" zero_batch_json
  /\ ~ has_key "clientReference" zero_message_json
  /\ ~ has_key "settings" zero_message_json
  /\ ~ has_key "priority" rated_json
  /\ ~ has_key "parameter" rated_json
  /\ ~ has_key "description" gas_example_json
  /\ ~ has_key "stopTime" start_only_json.
Proof.
  destruct (unset_optional_fields_are_omitted
              (envelope ok_client (Some [Message.zero])) Message.zero rated gas_example
              (start_only time.zero)
              zero_batch_json zero_message_json rated_json gas_example_json start_only_json)
    as (Hbatch & Hreference & Hsettings & Hpriority & _ & _ & _ & _ & _ & _ & _ & _ & _
        & _ & _ & Hparameter & Hdescription & _ & _ & HstopTime);
    try (vm_compute; reflexivity).
  repeat split;
    [apply Hbatch | apply Hreference | apply Hsettings | apply Hpriority | apply Hparameter
     | apply Hdescription | apply HstopTime];
    reflexivity.
Defined.

Lemma age_zero_and_false_flags_are_never_sent_witness :
  (has_key "age" rated_json <-> 18 <> 0)
  /\ (("age", marshal_int 0) ∉ members_of rated_json)
  /\ (has_key "newSession" rated_json <-> true = true)
  /\ (has_key "autoDetectEncoding" rated_json <-> false = true).
Proof.
  destruct (age_zero_and_false_flags_are_never_sent rated rated_json)
    as (Hage & _ & Hzero & Hsession & Hdetect & _ & _);
    [vm_compute; reflexivity|].
  exact (conj Hage (conj Hzero (conj Hsession Hdetect))).
Defined.

(** * Further properties *)

(** ** The paths of [Send], in general *)

Section Paths.

Variable url_ok : string -> bool.

(** X1. [Send] never hands more than one request to the HTTP client, on any
    path, and the one it hands over is the POST of the serialized envelope to
    the base URL followed by [/sendMessages]: there is no retry and no other
    request. *)
Theorem Send_issues_at_most_one_request client messages :
  issued (Send url_ok client messages) = []
  \/ exists buffer,
       json_Marshal (envelope client messages) = Ok buffer
       /\ issued (Send url_ok client messages) = [post (sendMessages_url client) buffer].
Proof.
  destruct (json_Marshal (envelope client messages)) as [buffer|err] eqn:Hm.
  - destruct (url_ok (sendMessages_url client)) eqn:Hurl.
    + rewrite (Send_after_marshal _ _ _ _ Hm Hurl). cbn zeta.
      destruct (Client_Do _ _) as [[[response|] [err|]]|msg]; cbn [issued]; eauto.
      destruct (_ =? _); cbn [issued]; eauto.
      destruct (Decode _ _) as [r [e|]]; cbn [issued]; eauto.
    + left. now rewrite (Send_bad_url _ _ _ _ Hm Hurl).
  - left. now rewrite (Send_marshal_error _ _ _ _ Hm).
Qed.

(** X2. [Send] returns a [nil] error exactly when every step went through:
    the envelope serialized, the URL was accepted, the HTTP client handed back
    a response without an error, its status is 200 and the decoder reported
    no error; the response returned is then the decoded one. *)
Theorem Send_succeeds_iff client messages r :
  result (Send url_ok client messages) = value (r, None)
  <-> exists buffer response,
        json_Marshal (envelope client messages) = Ok buffer
        /\ url_ok (sendMessages_url client) = true
        /\ Client_Do (SmsGatewayClient.httpClient client)
             (post (sendMessages_url client) buffer) = value (Some response, None)
        /\ Response.StatusCode response = 200
        /\ Decode (Response.Body response) SmsGatewayResponse.zero = (r, None).
Proof.
  split.
  - destruct (json_Marshal (envelope client messages)) as [buffer|err] eqn:Hm.
    + destruct (url_ok (sendMessages_url client)) eqn:Hurl.
      * rewrite (Send_after_marshal _ _ _ _ Hm Hurl). cbn zeta.
        destruct (Client_Do _ _) as [[[response|] [err|]]|msg] eqn:Hdo;
          cbn [result]; try discriminate.
        destruct (Z.eqb_spec (Response.StatusCode response) 200) as [Hcode|_];
          cbn [result]; [|discriminate].
        destruct (Decode _ _) as [r' [e|]] eqn:Hdec; cbn [result]; [discriminate|].
        intros [= <-]. now exists buffer, response.
      * now rewrite (Send_bad_url _ _ _ _ Hm Hurl).
    + now rewrite (Send_marshal_error _ _ _ _ Hm).
  - intros (buffer & response & Hm & Hurl & Hdo & Hcode & Hdec).
    rewrite (Send_after_marshal _ _ _ _ Hm Hurl). cbn zeta.
    now rewrite Hdo, Hcode, Hdec.
Qed.

(** X3. Whenever the HTTP client hands back a [nil] response, with an error
    or without, [Send] panics on [response.Body] after its single request:
    the error is never looked at. *)
Theorem Send_panics_on_nil_response client messages buffer err :
  json_Marshal (envelope client messages) = Ok buffer ->
  url_ok (sendMessages_url client) = true ->
  Client_Do (SmsGatewayClient.httpClient client) (post (sendMessages_url client) buffer)
  = value (None, err) ->
  Send url_ok client messages
  = Run [post (sendMessages_url client) buffer] (panic nil_dereference).
Proof. apply Send_nil_response_panics. Qed.

(** X4. When the HTTP client hands back both a response and an error, as it
    does for a redirect it refuses to follow, [Send] returns that error with
    the zero response, whatever the status code and the body of the response
    are: the error is tested before the status. *)
Theorem Send_returns_the_error_of_Do client messages buffer response err :
  json_Marshal (envelope client messages) = Ok buffer ->
  url_ok (sendMessages_url client) = true ->
  Client_Do (SmsGatewayClient.httpClient client) (post (sendMessages_url client) buffer)
  = value (Some response, Some err) ->
  Send url_ok client messages
  = Run [post (sendMessages_url client) buffer] (value (SmsGatewayResponse.zero, Some err)).
Proof.
  intros Hm Hurl Hdo. rewrite (Send_after_marshal _ _ _ _ Hm Hurl). cbn zeta. now rewrite Hdo.
Qed.

(** X5. When [http.NewRequest] rejects the URL, [createRequest], which drops
    its error, panics on the [nil] request, and [Send] ends in that panic
    without a request to the HTTP client. *)
Theorem Send_panics_on_rejected_url client messages buffer :
  json_Marshal (envelope client messages) = Ok buffer ->
  url_ok (sendMessages_url client) = false ->
  createRequest url_ok (sendMessages_url client) buffer = panic nil_dereference
  /\ Send url_ok client messages = Run [] (panic nil_dereference).
Proof.
  intros Hm Hurl. split; [now apply createRequest_panic | now apply (Send_bad_url _ _ _ buffer)].
Qed.

(** X6. On a client that holds no HTTP client, as the zero
    [SmsGatewayClient] does, [Send] panics in [Do] and nothing is sent. *)
Theorem Send_panics_on_nil_client client messages buffer :
  json_Marshal (envelope client messages) = Ok buffer ->
  url_ok (sendMessages_url client) = true ->
  SmsGatewayClient.httpClient client = None ->
  Send url_ok client messages = Run [] (panic nil_dereference).
Proof.
  intros Hm Hurl Hc. rewrite (Send_after_marshal _ _ _ _ Hm Hurl). cbn zeta. now rewrite Hc.
Qed.

(** X7. A client made by [MakeSmsGatewayClient] sends through the default
    HTTP client, to the base URL it was made with followed by
    [/sendMessages], an envelope that carries the service identifier, the
    user name and the password it was made with. *)
Theorem Send_on_a_made_client DefaultClient baseURL serviceID username password
    messages buffer :
  json_Marshal (envelope (MakeSmsGatewayClient DefaultClient baseURL serviceID username password)
                  messages) = Ok buffer ->
  url_ok (baseURL +:+ "/sendMessages") = true ->
  exists message,
    issued (Send url_ok (MakeSmsGatewayClient DefaultClient baseURL serviceID username password)
              messages)
    = [post (baseURL +:+ "/sendMessages") buffer]
    /\ buffer = encode (JObj [("serviceId", marshal_int serviceID);
                              ("username", JStr username);
                              ("password", JStr password);
                              ("message", message)])
    /\ marshal_Messages messages = Ok message
    /\ result (Send url_ok (MakeSmsGatewayClient DefaultClient baseURL serviceID username
                              password) messages)
       = match DefaultClient (post (baseURL +:+ "/sendMessages") buffer) with
         | (None, _) => panic nil_dereference
         | (Some _, Some err) => value (SmsGatewayResponse.zero, Some err)
         | (Some response, None) =>
           if Response.StatusCode response =? 200 then
             match Decode (Response.Body response) SmsGatewayResponse.zero with
             | (_, Some err) => value (SmsGatewayResponse.zero, Some err)
             | (gatewayResponse, None) => value (gatewayResponse, None)
             end
           else value (SmsGatewayResponse.zero,
                       Some (status_error (Response.StatusCode response)))
         end.
Proof.
  intros Hm Hurl.
  set (client := MakeSmsGatewayClient DefaultClient baseURL serviceID username password) in *.
  assert (Hmsg : exists message,
             marshal_Messages messages = Ok message
             /\ buffer = encode (JObj [("serviceId", marshal_int serviceID);
                                       ("username", JStr username);
                                       ("password", JStr password);
                                       ("message", message)])).
  { unfold json_Marshal, marshal_smsGatewayRequest in Hm.
    apply res_bind_Ok in Hm as (j & Hj & Hb). injection Hb as <-.
    apply res_bind_Ok in Hj as (message & Hmsg & Hj). injection Hj as <-.
    now exists message. }
  destruct Hmsg as (message & Hmsg & Hbuf). exists message.
  change (baseURL +:+ "/sendMessages") with (sendMessages_url client) in *.
  rewrite (Send_after_marshal _ _ _ _ Hm Hurl). cbn zeta.
  change (Client_Do (SmsGatewayClient.httpClient client) ?r) with (value (DefaultClient r)).
  cbv beta iota.
  destruct (DefaultClient _) as [[response|] [err|]]; cbn [issued result]; auto.
  - destruct (_ =? _); cbn [issued result]; auto.
    destruct (Decode _ _) as [r [e|]]; cbn [issued result]; auto.
Qed.

End Paths.

(** ** What can and cannot be serialized *)

Lemma is_Ok_bind {A B} (r : res A) (k : A -> res B) :
  is_Ok (r ≫= k) = match r with Ok a => is_Ok (k a) | Err _ => false end.
Proof. now destruct r. Qed.

Lemma is_Ok_true {A} (r : res A) : is_Ok r = true <-> exists a, r = Ok a.
Proof. destruct r as [a|e]; cbn; split; eauto; try discriminate. now intros [a H]. Qed.

Lemma is_Ok_marshal_Time t : is_Ok (marshal_Time t) = Time_encodable t.
Proof.
  unfold marshal_Time, time.MarshalJSON, time.appendStrictRFC3339, Time_encodable.
  destruct (Z.ltb_spec (time.Year t) 0), (Z.ltb_spec 9999 (time.Year t)),
    (Z.leb_spec 0 (time.Year t)), (Z.leb_spec (time.Year t) 9999); try lia; cbn; trivial.
  destruct (time.Offset t =? 0); cbn; [reflexivity|].
  now destruct (Z.leb_spec 24 (Z.quot (Z.abs (Z.quot (time.Offset t) 60)) 60)),
    (Z.ltb_spec (Z.quot (Z.abs (Z.quot (time.Offset t) 60)) 60) 24); try lia.
Qed.

Lemma is_Ok_bind_Ok {A B} (r : res A) (f : A -> B) :
  is_Ok (r ≫= fun a => Ok (f a)) = is_Ok r.
Proof. now destruct r. Qed.

Lemma is_Ok_omitempty_ptr {A} name (enc : A -> res json) p :
  is_Ok (omitempty_ptr name enc p) = match p with None => true | Some a => is_Ok (enc a) end.
Proof. destruct p as [a|]; [|reflexivity]. cbn [omitempty_ptr]. apply is_Ok_bind_Ok. Qed.

Lemma is_Ok_pointer name p :
  is_Ok (omitempty_ptr name marshal_Time p) = pointer_encodable p.
Proof. rewrite is_Ok_omitempty_ptr. destruct p; [apply is_Ok_marshal_Time | reflexivity]. Qed.

Lemma is_Ok_marshal_SendWindow w : is_Ok (marshal_SendWindow w) = SendWindow_encodable w.
Proof.
  unfold marshal_SendWindow, SendWindow_encodable.
  rewrite <- is_Ok_marshal_Time, <- (is_Ok_pointer "startTime"),
    <- (is_Ok_pointer "stopDate"), <- (is_Ok_pointer "stopTime").
  destruct (marshal_Time _); [|reflexivity].
  destruct (omitempty_ptr "startTime" _ _); [|reflexivity].
  destruct (omitempty_ptr "stopDate" _ _); [|reflexivity].
  now destruct (omitempty_ptr "stopTime" _ _).
Qed.

Lemma is_Ok_marshal_Settings s :
  is_Ok (marshal_Settings s)
  = match Settings.SendWindow s with Some w => SendWindow_encodable w | None => true end.
Proof.
  unfold marshal_Settings.
  destruct (Settings.OriginatorSettings s), (Settings.GasSettings s);
    cbn [omitempty_ptr marshal_OriginatorSettings marshal_GasSettings mbind res_bind];
    (destruct (Settings.SendWindow s) as [w|]; [|reflexivity]);
    cbn [omitempty_ptr]; rewrite <- is_Ok_marshal_SendWindow;
    now destruct (marshal_SendWindow w).
Qed.

Lemma is_Ok_marshal_Message m : is_Ok (marshal_Message m) = Message_encodable m.
Proof.
  unfold marshal_Message, Message_encodable.
  rewrite is_Ok_bind_Ok, is_Ok_omitempty_ptr.
  destruct (Message.Settings m) as [s|]; [apply is_Ok_marshal_Settings | reflexivity].
Qed.

Lemma is_Ok_res_mapM {A B} (f : A -> res B) l :
  is_Ok (res_mapM f l) = forallb (fun a => is_Ok (f a)) l.
Proof.
  induction l as [|a l IH]; [reflexivity|]. cbn [res_mapM forallb].
  rewrite is_Ok_bind. destruct (f a); [|reflexivity]. cbn [is_Ok andb].
  rewrite is_Ok_bind, <- IH. now destruct (res_mapM f l).
Qed.

Lemma forallb_pointwise {A} (f g : A -> bool) l :
  (forall a, f a = g a) -> forallb f l = forallb g l.
Proof. intros H. induction l as [|a l IH]; [reflexivity|]. cbn. now rewrite H, IH. Qed.

Lemma is_Ok_json_Marshal r :
  is_Ok (json_Marshal r) = batch_encodable (smsGatewayRequest.Messages r).
Proof.
  unfold json_Marshal, marshal_smsGatewayRequest, batch_encodable.
  rewrite !is_Ok_bind_Ok.
  destruct (smsGatewayRequest.Messages r) as [l|]; cbn [marshal_Messages default];
    [|reflexivity].
  rewrite is_Ok_bind_Ok, is_Ok_res_mapM.
  apply forallb_pointwise. intros m. apply is_Ok_marshal_Message.
Qed.

(** X8. The envelope serializes exactly when every time of every send
    window in the batch has an RFC 3339 form (a year from 0 to 9999, a zone
    offset below 24 hours): [json.Marshal] can fail on nothing else, and in
    particular never on a batch without send windows. *)
Theorem json_Marshal_succeeds_iff_times_encodable client messages :
  (exists buffer, json_Marshal (envelope client messages) = Ok buffer)
  <-> batch_encodable messages = true.
Proof. now rewrite <- is_Ok_true, is_Ok_json_Marshal. Qed.

Lemma res_mapM_first_error {A B} (f : A -> res B) l1 a l2 e :
  Forall (fun x => is_Ok (f x) = true) l1 -> f a = Err e ->
  res_mapM f (l1 ++ a :: l2) = Err e.
Proof.
  intros Hl1 Ha. induction Hl1 as [|x l1 Hx _ IH]; cbn [app res_mapM].
  - now rewrite Ha.
  - apply is_Ok_true in Hx as [b ->]. cbn. now rewrite IH.
Qed.

(** X9. When several messages of a batch cannot be serialized, the error
    [Send] returns is that of the first of them, and nothing is sent. *)
Theorem Send_reports_the_first_message_that_fails
    (url_ok : string -> bool) client before m after err :
  Forall (fun m' => Message_encodable m' = true) before ->
  marshal_Message m = Err err ->
  Send url_ok client (Some (before ++ m :: after))
  = Run [] (value (SmsGatewayResponse.zero, Some err)).
Proof.
  intros Hbefore Hm. apply Send_marshal_error.
  unfold json_Marshal, marshal_smsGatewayRequest, envelope.
  cbn [smsGatewayRequest.Messages marshal_Messages].
  rewrite (res_mapM_first_error marshal_Message before m after err); [reflexivity| |exact Hm].
  eapply Forall_impl; [exact Hbefore|]. intros m' H. now rewrite is_Ok_marshal_Message.
Qed.

(** ** The members that are written *)

Lemma in_omitempty_int name v : v <> 0 -> (name, marshal_int v) ∈ omitempty_int name v.
Proof.
  intros Hv. unfold omitempty_int. destruct (Z.eqb_spec v 0); [easy|].
  now apply list_elem_of_singleton.
Qed.

Lemma in_omitempty_bool name v : v = true -> (name, JBool true) ∈ omitempty_bool name v.
Proof. intros ->. now apply list_elem_of_singleton. Qed.

Lemma in_omitempty_string name v : v <> "" -> (name, JStr v) ∈ omitempty_string name v.
Proof.
  intros Hv. unfold omitempty_string. destruct v; [easy|]. now apply list_elem_of_singleton.
Qed.

Lemma in_omitempty_map name (m : gmap string string) :
  m <> ∅ -> (name, marshal_map m) ∈ omitempty_map name m.
Proof.
  intros Hm. unfold omitempty_map. destruct (Nat.eqb_spec (size m) 0) as [Hsize|_].
  - now apply map_size_empty_iff in Hsize.
  - now apply list_elem_of_singleton.
Qed.

Lemma in_omitempty_ptr {A} name (enc : A -> res json) a l :
  omitempty_ptr name enc (Some a) = Ok l -> exists j, enc a = Ok j /\ (name, j) ∈ l.
Proof.
  intros H. apply omitempty_ptr_inv in H as (j & Hj & ->). exists j.
  split; [assumption | now apply list_elem_of_singleton].
Qed.

(** X10. The fields without [omitempty] are written whatever they hold: the
    envelope always has [serviceId], [username], [password] and [message], a
    message always [recipient], [content] and [price] (a price of 0
    included), the originator settings both their fields, the
    goods-and-services settings their [serviceCode], a send window its
    [startDate]; each with the value of the field. *)
Theorem required_fields_are_always_written
    (r : smsGatewayRequest.t) (m : Message.t) (o : OriginatorSettings.t) (g : GasSettings.t)
    (w : SendWindow.t) (jr jm jo jg jw : json) :
  marshal_smsGatewayRequest r = Ok jr ->
  marshal_Message m = Ok jm ->
  marshal_OriginatorSettings o = Ok jo ->
  marshal_GasSettings g = Ok jg ->
  marshal_SendWindow w = Ok jw ->
  ("serviceId", marshal_int (smsGatewayRequest.ServiceID r)) ∈ members_of jr
  /\ ("username", JStr (smsGatewayRequest.Username r)) ∈ members_of jr
  /\ ("password", JStr (smsGatewayRequest.Password r)) ∈ members_of jr
  /\ (exists message, marshal_Messages (smsGatewayRequest.Messages r) = Ok message
                      /\ ("message", message) ∈ members_of jr)
  /\ ("recipient", JStr (Message.Recipient m)) ∈ members_of jm
  /\ ("content", JStr (Message.Content m)) ∈ members_of jm
  /\ ("price", marshal_int (Message.Price m)) ∈ members_of jm
  /\ ("originatorType", JStr (OriginatorSettings.OriginatorType o)) ∈ members_of jo
  /\ ("originator", JStr (OriginatorSettings.Originator o)) ∈ members_of jo
  /\ ("serviceCode", JStr (GasSettings.ServiceCode g)) ∈ members_of jg
  /\ (exists d, marshal_Time (SendWindow.StartDate w) = Ok d
                /\ ("startDate", d) ∈ members_of jw).
Proof.
  unfold marshal_smsGatewayRequest, marshal_Message, marshal_OriginatorSettings,
    marshal_GasSettings, marshal_SendWindow.
  intros Hr Hm Ho Hg Hw. res_inv Hr. res_inv Hm. res_inv Hw.
  injection Ho as <-. injection Hg as <-.
  cbn [members_of field_int field_string].
  repeat split; try (eexists; split; [eassumption|]); set_solver.
Qed.

(** X11. An [omitempty] field that is set is written, under its tag and
    with its value: a number that is not 0, a flag that is [true], a string
    that is not empty, the parameters when there are any, and for a pointer
    that is not [nil] what it points to. *)
Theorem set_optional_fields_are_written
    (r : smsGatewayRequest.t) (m : Message.t) (s : Settings.t) (g : GasSettings.t)
    (w : SendWindow.t) (jr jm js jg jw : json) :
  marshal_smsGatewayRequest r = Ok jr ->
  marshal_Message m = Ok jm ->
  marshal_Settings s = Ok js ->
  marshal_GasSettings g = Ok jg ->
  marshal_SendWindow w = Ok jw ->
  (smsGatewayRequest.BatchReference r <> ""
   -> ("batchReference", JStr (smsGatewayRequest.BatchReference r)) ∈ members_of jr)
  /\ (Message.ClientReference m <> ""
      -> ("clientReference", JStr (Message.ClientReference m)) ∈ members_of jm)
  /\ (forall s', Message.Settings m = Some s'
      -> exists j, marshal_Settings s' = Ok j /\ ("settings", j) ∈ members_of jm)
  /\ (Settings.Priority s <> 0
      -> ("priority", marshal_int (Settings.Priority s)) ∈ members_of js)
  /\ (Settings.Validity s <> 0
      -> ("validity", marshal_int (Settings.Validity s)) ∈ members_of js)
  /\ (Settings.Differentiator s <> ""
      -> ("differentiator", JStr (Settings.Differentiator s)) ∈ members_of js)
  /\ (Settings.Age s <> 0 -> ("age", marshal_int (Settings.Age s)) ∈ members_of js)
  /\ (Settings.NewSession s = true -> ("newSession", JBool true) ∈ members_of js)
  /\ (Settings.SessionID s <> ""
      -> ("sessionId", JStr (Settings.SessionID s)) ∈ members_of js)
  /\ (Settings.InvoiceNode s <> ""
      -> ("invoiceNode", JStr (Settings.InvoiceNode s)) ∈ members_of js)
  /\ (Settings.AutoDetectEncoding s = true
      -> ("autoDetectEncoding", JBool true) ∈ members_of js)
  /\ (Settings.SafeRemoveNonGsmCharacters s = true
      -> ("safeRemoveNonGsmCharacters", JBool true) ∈ members_of js)
  /\ (forall o, Settings.OriginatorSettings s = Some o
      -> exists j, marshal_OriginatorSettings o = Ok j
                   /\ ("originatorSettings", j) ∈ members_of js)
  /\ (forall g', Settings.GasSettings s = Some g'
      -> exists j, marshal_GasSettings g' = Ok j /\ ("gasSettings", j) ∈ members_of js)
  /\ (forall w', Settings.SendWindow s = Some w'
      -> exists j, marshal_SendWindow w' = Ok j /\ ("sendWindow", j) ∈ members_of js)
  /\ (Settings.Parameters s <> ∅
      -> ("parameter", marshal_map (Settings.Parameters s)) ∈ members_of js)
  /\ (GasSettings.Description g <> ""
      -> ("description", JStr (GasSettings.Description g)) ∈ members_of jg)
  /\ (forall t, SendWindow.StartTime w = Some t
      -> exists j, marshal_Time t = Ok j /\ ("startTime", j) ∈ members_of jw)
  /\ (forall t, SendWindow.StopDate w = Some t
      -> exists j, marshal_Time t = Ok j /\ ("stopDate", j) ∈ members_of jw)
  /\ (forall t, SendWindow.StopTime w = Some t
      -> exists j, marshal_Time t = Ok j /\ ("stopTime", j) ∈ members_of jw).
Proof.
  intros Hr Hm Hs Hg Hw.
  apply marshal_Settings_members in Hs as (lo & lg & lw & Ho & Hgs & Hws & ->).
  unfold marshal_smsGatewayRequest, marshal_Message, marshal_GasSettings,
    marshal_SendWindow in *.
  res_inv Hr. res_inv Hm. res_inv Hw. injection Hg as <-.
  cbn [members_of field_int field_string].
  repeat split.
  all: try match goal with
           | |- forall _, _ = Some _ -> _ =>
             let x := fresh in let Hx := fresh in
             intros x Hx;
             repeat match goal with
                    | Hp : omitempty_ptr _ _ ?p = Ok _ |- _ =>
                      rewrite Hx in Hp; apply in_omitempty_ptr in Hp as (? & ? & ?)
                    end;
             eexists; split; [eassumption|]; set_solver
           end.
  - intros H. apply (in_omitempty_string "batchReference") in H. set_solver.
  - intros H. apply (in_omitempty_string "clientReference") in H. set_solver.
  - intros H. apply (in_omitempty_int "priority") in H. set_solver.
  - intros H. apply (in_omitempty_int "validity") in H. set_solver.
  - intros H. apply (in_omitempty_string "differentiator") in H. set_solver.
  - intros H. apply (in_omitempty_int "age") in H. set_solver.
  - intros H. apply (in_omitempty_bool "newSession") in H. set_solver.
  - intros H. apply (in_omitempty_string "sessionId") in H. set_solver.
  - intros H. apply (in_omitempty_string "invoiceNode") in H. set_solver.
  - intros H. apply (in_omitempty_bool "autoDetectEncoding") in H. set_solver.
  - intros H. apply (in_omitempty_bool "safeRemoveNonGsmCharacters") in H. set_solver.
  - intros H. apply (in_omitempty_map "parameter") in H. set_solver.
  - intros H. apply (in_omitempty_string "description") in H. set_solver.
Qed.

Section EmptyBatch.

Variable url_ok : string -> bool.

(** X13. A batch without messages is passed through: for a [nil] slice
    [Send] posts the envelope with [message] set to [null], for an empty
    slice with [message] set to an empty array; no minimum length is
    imposed and serialization cannot fail. *)
Theorem Send_passes_an_empty_batch_through client :
  url_ok (sendMessages_url client) = true ->
  SmsGatewayClient.httpClient client <> None ->
  issued (Send url_ok client None)
  = [post (sendMessages_url client)
       (encode (JObj [("serviceId", marshal_int (SmsGatewayClient.serviceID client));
                      ("username", JStr (SmsGatewayClient.username client));
                      ("password", JStr (SmsGatewayClient.password client));
                      ("message", JNull)]))]
  /\ issued (Send url_ok client (Some []))
     = [post (sendMessages_url client)
          (encode (JObj [("serviceId", marshal_int (SmsGatewayClient.serviceID client));
                         ("username", JStr (SmsGatewayClient.username client));
                         ("password", JStr (SmsGatewayClient.password client));
                         ("message", JArr [])]))].
Proof.
  intros Hurl Hc. split; now apply Send_issued.
Qed.

End EmptyBatch.

(** ** Decoding the gateway's answer *)

Lemma list_ascii_app (a b : string) :
  list_ascii_of_string (a +:+ b) = list_ascii_of_string a ++ list_ascii_of_string b.
Proof.
  induction a as [|c a IH]; [reflexivity|].
  change (list_ascii_of_string (String c a +:+ b))
    with (c :: list_ascii_of_string (a +:+ b)).
  now rewrite IH.
Qed.

Lemma append_last (a : string) c s : a +:+ String c s = (a +:+ String c "") +:+ s.
Proof.
  induction a as [|c' a IH]; [reflexivity|].
  change (String c' (a +:+ String c s) = String c' ((a +:+ String c "") +:+ s)).
  now rewrite IH.
Qed.

Lemma length_append (a b : string) :
  String.length (a +:+ b) = (String.length a + String.length b)%nat.
Proof.
  induction a as [|c a IH]; [reflexivity|].
  change (S (String.length (a +:+ b)) = S (String.length a + String.length b)).
  now rewrite IH.
Qed.

Lemma append_nil (a : string) : a +:+ "" = a.
Proof.
  induction a as [|c a IH]; [reflexivity|].
  change (String c (a +:+ "") = String c a). now rewrite IH.
Qed.

Lemma pretty_N_char_digit n :
  (n < 10)%N -> isDigit (pretty_N_char n) = true /\ code (pretty_N_char n) - 48 = Z.of_N n.
Proof.
  intros Hn. destruct n as [|p]; [now vm_compute|].
  do 4 (try (destruct p as [p|p|]; try lia; try (now vm_compute))).
Qed.

(** The digits [pretty] puts in front of what it is given. *)
Lemma pretty_N_go_digits n : forall s,
  exists d, pretty_N_go n s = d +:+ s
            /\ all_digits d = true
            /\ (forall acc, fold_left (fun acc c => acc * 10 + (code c - 48))
                              (list_ascii_of_string d) acc
                            = acc * 10 ^ Z.of_nat (String.length d) + Z.of_N n)
            /\ ((0 < n)%N -> d <> "").
Proof.
  induction (N.lt_wf_0 n) as [n _ IH]. intros s.
  destruct (N.eq_dec n 0%N) as [->|Hn].
  - exists "". rewrite pretty_N_go_0. repeat split; [intros acc; cbn; lia | lia].
  - assert (0 < n)%N as Hpos by lia. rewrite (pretty_N_go_step n s Hpos).
    destruct (IH (n `div` 10)%N (N.div_lt n 10 Hpos eq_refl)
                (String (pretty_N_char (n `mod` 10)) s)) as (d & Heq & Hd & Hval & _).
    rewrite Heq. clear Heq.
    destruct (pretty_N_char_digit (n `mod` 10)%N) as [Hc Hv];
      [now apply N.mod_lt|].
    exists (d +:+ String (pretty_N_char (n `mod` 10)) "").
    split; [|split; [|split]].
    + apply append_last.
    + unfold all_digits in *. rewrite list_ascii_app, forallb_app, Hd. cbn. now rewrite Hc.
    + intros acc. rewrite list_ascii_app, fold_left_app, Hval. cbn [list_ascii_of_string fold_left].
      rewrite Hv, length_append. cbn [String.length].
      replace (Z.of_nat (String.length d + 1)) with (Z.of_nat (String.length d) + 1) by lia.
      rewrite Z.pow_add_r by lia.
      pose proof (N.div_mod n 10 ltac:(lia)) as Hdiv.
      assert (Z.of_N n = 10 * Z.of_N (n `div` 10) + Z.of_N (n `mod` 10)) as -> by lia.
      lia.
    + intros _. destruct d; discriminate.
Qed.

Lemma ParseInt_unsigned d :
  d <> "" -> all_digits d = true ->
  strconv_ParseInt d
  = if (- 2 ^ 63 <=? digits_value d) && (digits_value d <=? 2 ^ 63 - 1)
    then Some (digits_value d) else None.
Proof.
  intros Hd Hdigits. unfold strconv_ParseInt.
  destruct d as [|c d]; [easy|].
  assert (isDigit c = true) as Hc.
  { unfold all_digits in Hdigits. cbn in Hdigits. now apply andb_true_iff in Hdigits. }
  assert ((let '(neg, ds) :=
             match String c d with
             | String "-" r => (true, r)
             | String "+" r => (false, r)
             | _ => (false, String c d)
             end in (neg, ds)) = (false, String c d)) as Hmatch.
  { destruct c as [[] [] [] [] [] [] [] []]; try discriminate Hc; reflexivity. }
  destruct (match String c d with
            | String "-" r => (true, r)
            | String "+" r => (false, r)
            | _ => (false, String c d)
            end) as [neg ds]. injection Hmatch as -> ->.
  rewrite Hdigits. reflexivity.
Qed.

Lemma ParseInt_negative d :
  d <> "" -> all_digits d = true ->
  strconv_ParseInt ("-" +:+ d)
  = if (- 2 ^ 63 <=? - digits_value d) && (- digits_value d <=? 2 ^ 63 - 1)
    then Some (- digits_value d) else None.
Proof.
  intros Hd Hdigits. unfold strconv_ParseInt.
  change ("-" +:+ d) with (String "-" d). cbv beta iota.
  destruct d as [|c d]; [easy|]. now rewrite Hdigits.
Qed.

Lemma digits_value_pretty n :
  (0 < n)%N ->
  exists d, pretty_N_go n "" = d /\ d <> "" /\ all_digits d = true
            /\ digits_value d = Z.of_N n.
Proof.
  intros Hn. destruct (pretty_N_go_digits n "") as (d & Heq & Hd & Hval & Hne).
  exists d. rewrite append_nil in Heq. repeat split; auto.
  unfold digits_value. rewrite Hval. lia.
Qed.

Lemma strconv_ParseInt_Itoa z :
  is_int64 z = true -> strconv_ParseInt (strconv_Itoa z) = Some z.
Proof.
  unfold is_int64, strconv_Itoa. intros Hz.
  destruct z as [|p|p].
  - reflexivity.
  - unfold pretty, pretty_Z, pretty, pretty_positive, pretty, pretty_N.
    destruct (decide (N.pos p = 0%N)) as [|_]; [discriminate|].
    destruct (digits_value_pretty (N.pos p) eq_refl) as (d & -> & Hne & Hd & Hv).
    rewrite (ParseInt_unsigned d Hne Hd), Hv. cbn [Z.of_N]. now rewrite Hz.
  - unfold pretty, pretty_Z, pretty, pretty_positive, pretty, pretty_N.
    destruct (decide (N.pos p = 0%N)) as [|_]; [discriminate|].
    destruct (digits_value_pretty (N.pos p) eq_refl) as (d & -> & Hne & Hd & Hv).
    rewrite (ParseInt_negative d Hne Hd), Hv. cbn [Z.of_N].
    change (- Z.pos p) with (Z.neg p). now rewrite Hz.
Qed.

Lemma decode_int_marshal z v saved :
  is_int64 z = true -> decode_int (marshal_int z) v saved = (z, saved).
Proof. intros Hz. unfold decode_int, marshal_int. now rewrite (strconv_ParseInt_Itoa z Hz). Qed.

(** One member of a status, by the field its key selects. *)
Lemma member_int_fields j v saved :
  decode_MessageStatus_member ("statusCode", j) (v, saved)
  = (let '(x, e) := decode_int j (MessageStatus.StatusCode v) saved in
     (MessageStatus.Make x (MessageStatus.StatusMessage v) (MessageStatus.ClientReference v)
        (MessageStatus.Recipient v) (MessageStatus.MessageID v) (MessageStatus.SessionID v)
        (MessageStatus.SequenceIndex v), e))
  /\ decode_MessageStatus_member ("sequenceIndex", j) (v, saved)
     = (let '(x, e) := decode_int j (MessageStatus.SequenceIndex v) saved in
        (MessageStatus.Make (MessageStatus.StatusCode v) (MessageStatus.StatusMessage v)
           (MessageStatus.ClientReference v) (MessageStatus.Recipient v)
           (MessageStatus.MessageID v) (MessageStatus.SessionID v) x, e)).
Proof. destruct v. split; reflexivity. Qed.

Lemma member_string_fields s v saved :
  decode_MessageStatus_member ("statusMessage", JStr s) (v, saved)
  = (MessageStatus.Make (MessageStatus.StatusCode v) s (MessageStatus.ClientReference v)
       (MessageStatus.Recipient v) (MessageStatus.MessageID v) (MessageStatus.SessionID v)
       (MessageStatus.SequenceIndex v), saved)
  /\ decode_MessageStatus_member ("clientReference", JStr s) (v, saved)
     = (MessageStatus.Make (MessageStatus.StatusCode v) (MessageStatus.StatusMessage v) s
          (MessageStatus.Recipient v) (MessageStatus.MessageID v) (MessageStatus.SessionID v)
          (MessageStatus.SequenceIndex v), saved)
  /\ decode_MessageStatus_member ("recipient", JStr s) (v, saved)
     = (MessageStatus.Make (MessageStatus.StatusCode v) (MessageStatus.StatusMessage v)
          (MessageStatus.ClientReference v) s (MessageStatus.MessageID v)
          (MessageStatus.SessionID v) (MessageStatus.SequenceIndex v), saved)
  /\ decode_MessageStatus_member ("messageId", JStr s) (v, saved)
     = (MessageStatus.Make (MessageStatus.StatusCode v) (MessageStatus.StatusMessage v)
          (MessageStatus.ClientReference v) (MessageStatus.Recipient v) s
          (MessageStatus.SessionID v) (MessageStatus.SequenceIndex v), saved)
  /\ decode_MessageStatus_member ("sessionId", JStr s) (v, saved)
     = (MessageStatus.Make (MessageStatus.StatusCode v) (MessageStatus.StatusMessage v)
          (MessageStatus.ClientReference v) (MessageStatus.Recipient v)
          (MessageStatus.MessageID v) s (MessageStatus.SequenceIndex v), saved).
Proof. destruct v. repeat split; reflexivity. Qed.

Lemma decode_MessageStatus_marshal s v saved :
  MessageStatus_in_range s = true ->
  decode_MessageStatus (marshal_MessageStatus s) v saved = (s, saved).
Proof.
  unfold MessageStatus_in_range. intros [Hcode Hindex]%andb_true_iff.
  destruct s as [code msg cref rcpt mid sid idx].
  cbn [MessageStatus.StatusCode MessageStatus.SequenceIndex] in Hcode, Hindex.
  unfold decode_MessageStatus, marshal_MessageStatus.
  cbn [fold_left MessageStatus.StatusCode MessageStatus.StatusMessage
         MessageStatus.ClientReference MessageStatus.Recipient MessageStatus.MessageID
         MessageStatus.SessionID MessageStatus.SequenceIndex].
  rewrite (proj1 (member_int_fields _ _ _)), (decode_int_marshal _ _ _ Hcode).
  rewrite (proj1 (member_string_fields _ _ _)).
  rewrite (proj1 (proj2 (member_string_fields _ _ _))).
  rewrite (proj1 (proj2 (proj2 (member_string_fields _ _ _)))).
  rewrite (proj1 (proj2 (proj2 (proj2 (member_string_fields _ _ _))))).
  rewrite (proj2 (proj2 (proj2 (proj2 (member_string_fields _ _ _))))).
  rewrite (proj2 (member_int_fields _ _ _)).
  cbn [MessageStatus.StatusCode MessageStatus.StatusMessage
         MessageStatus.ClientReference MessageStatus.Recipient MessageStatus.MessageID
         MessageStatus.SessionID MessageStatus.SequenceIndex].
  now rewrite (decode_int_marshal _ _ _ Hindex).
Qed.

Lemma decode_elems_marshal l : forall cur spare saved,
  forallb MessageStatus_in_range l = true ->
  exists spare', decode_elems (map marshal_MessageStatus l) cur spare saved = (l, spare', saved).
Proof.
  induction l as [|s l IH]; intros cur spare saved Hl; [now eexists|].
  cbn [forallb] in Hl. apply andb_true_iff in Hl as [Hs Hl].
  cbn [map decode_elems].
  destruct cur as [|x cur]; rewrite (decode_MessageStatus_marshal _ _ _ Hs).
  - destruct (IH [] (tl spare) saved Hl) as [spare' ->]. now eexists.
  - destruct (IH cur spare saved Hl) as [spare' ->]. now eexists.
Qed.

(** The statuses a gateway writes, decoded into any slice. *)
Lemma decode_slice_marshal statuses v spare saved :
  forallb MessageStatus_in_range (default [] statuses) = true ->
  exists spare',
    decode_slice match statuses with
                 | None => JNull
                 | Some l => JArr (map marshal_MessageStatus l)
                 end v spare saved
    = (statuses, spare', saved).
Proof.
  intros Hr. destruct statuses as [[|s l]|]; [now eexists | | now eexists].
  cbn [default] in Hr.
  destruct (decode_elems_marshal (s :: l) (default [] v) spare saved Hr) as [spare' H].
  exists spare'. cbn [map] in H |- *. cbn [decode_slice]. now rewrite H.
Qed.

(** X14. What a gateway writes for a response, every field under its tag,
    is decoded into that response again, whatever the variable decoded into
    held before: the seven tags of a status and the two of the response each
    reach their own field, and every 64-bit number is read back from its
    decimal form. *)
Theorem gateway_answer_round_trip (r v : SmsGatewayResponse.t) :
  SmsGatewayResponse_in_range r = true ->
  decode_SmsGatewayResponse (marshal_SmsGatewayResponse r) v None = (r, None).
Proof.
  unfold SmsGatewayResponse_in_range. intros Hr.
  destruct r as [batch statuses], v as [batch' statuses'].
  cbn [SmsGatewayResponse.MessageStatus] in Hr.
  unfold decode_SmsGatewayResponse, marshal_SmsGatewayResponse.
  cbn [fold_left SmsGatewayResponse.BatchReference SmsGatewayResponse.MessageStatus].
  unfold decode_SmsGatewayResponse_member.
  change (match_field SmsGatewayResponse_fields "batchReference") with (Some "batchReference").
  change (match_field SmsGatewayResponse_fields "messageStatus") with (Some "messageStatus").
  cbv beta iota zeta.
  cbn [decode_string SmsGatewayResponse.BatchReference SmsGatewayResponse.MessageStatus].
  cbv beta iota zeta.
  now destruct (decode_slice_marshal statuses statuses' [] None Hr) as [spare' ->].
Qed.

Lemma match_field_In names k f : match_field names k = Some f -> In f names.
Proof.
  unfold match_field. destruct (find (String.eqb k) names) as [g|] eqn:E.
  - intros [= <-]. now apply find_some in E.
  - intros H. now apply find_some in H.
Qed.

Lemma fst_decode_int j v s1 s2 : fst (decode_int j v s1) = fst (decode_int j v s2).
Proof. destruct j; cbn; try reflexivity. now destruct (strconv_ParseInt lit). Qed.

Lemma fst_decode_string j v s1 s2 : fst (decode_string j v s1) = fst (decode_string j v s2).
Proof. now destruct j. Qed.

Lemma fst_decode_MessageStatus_member kv v s1 s2 :
  fst (decode_MessageStatus_member kv (v, s1)) = fst (decode_MessageStatus_member kv (v, s2)).
Proof.
  destruct kv as [k j], v as [code msg cref rcpt mid sid idx].
  unfold decode_MessageStatus_member.
  destruct (match_field MessageStatus_fields k) as [f|] eqn:E; [|reflexivity].
  apply match_field_In in E. cbn [In MessageStatus_fields] in E.
  destruct E as [<-|[<-|[<-|[<-|[<-|[<-|[<-|[]]]]]]]]; cbv beta iota zeta.
  - pose proof (fst_decode_int j code s1 s2) as H.
    destruct (decode_int j code s1), (decode_int j code s2). cbn in *. now subst.
  - pose proof (fst_decode_string j msg s1 s2) as H.
    destruct (decode_string j msg s1), (decode_string j msg s2). cbn in *. now subst.
  - pose proof (fst_decode_string j cref s1 s2) as H.
    destruct (decode_string j cref s1), (decode_string j cref s2). cbn in *. now subst.
  - pose proof (fst_decode_string j rcpt s1 s2) as H.
    destruct (decode_string j rcpt s1), (decode_string j rcpt s2). cbn in *. now subst.
  - pose proof (fst_decode_string j mid s1 s2) as H.
    destruct (decode_string j mid s1), (decode_string j mid s2). cbn in *. now subst.
  - pose proof (fst_decode_string j sid s1 s2) as H.
    destruct (decode_string j sid s1), (decode_string j sid s2). cbn in *. now subst.
  - pose proof (fst_decode_int j idx s1 s2) as H.
    destruct (decode_int j idx s1), (decode_int j idx s2). cbn in *. now subst.
Qed.

Lemma fst_decode_MessageStatus j v s1 s2 :
  fst (decode_MessageStatus j v s1) = fst (decode_MessageStatus j v s2).
Proof.
  destruct j; try reflexivity. cbn [decode_MessageStatus].
  revert v s1 s2. induction members as [|kv members IH]; intros v s1 s2; [reflexivity|].
  cbn [fold_left].
  pose proof (fst_decode_MessageStatus_member kv v s1 s2) as H.
  destruct (decode_MessageStatus_member kv (v, s1)) as [v1 s1'],
    (decode_MessageStatus_member kv (v, s2)) as [v2 s2']. cbn in H. subst v2. apply IH.
Qed.

(** X15. An array of statuses decoded into a [nil] slice gives as many
    entries as the array has elements, in the order of the array, and each
    entry is what its own element decodes to: a malformed element leaves its
    entry at what was read of it and does not disturb the others. *)
Theorem statuses_follow_the_array (items : list json) (saved : option error) :
  fst (decode_MessageStatus_slice (JArr items) None saved)
  = Some (map (fun j => fst (decode_MessageStatus j MessageStatus.zero None)) items).
Proof.
  assert (forall items saved,
            fst (fst (decode_elems items [] [] saved))
            = map (fun j => fst (decode_MessageStatus j MessageStatus.zero None)) items) as H.
  { clear. induction items as [|j items IH]; intros saved; [reflexivity|].
    cbn [decode_elems map hd tl].
    pose proof (fst_decode_MessageStatus j MessageStatus.zero saved None) as Hj.
    destruct (decode_MessageStatus j MessageStatus.zero saved) as [v saved1].
    specialize (IH saved1). destruct (decode_elems items [] [] saved1) as [[vs spare] saved2].
    cbn in *. now subst. }
  unfold decode_MessageStatus_slice. destruct items as [|j items]; [reflexivity|].
  cbn [decode_slice default]. specialize (H (j :: items) saved).
  destruct (decode_elems (j :: items) [] [] saved) as [[vs spare] saved'].
  cbn [fst] in *. now rewrite H.
Qed.

(** A body that repeats [messageStatus]: two statuses, then one, then two
    empty objects.  The second array is decoded into the first status and
    shortens the slice; the third extends it again over the second status of
    the first array, which the backing array still holds, and an empty
    object changes nothing of it. *)
Example repeated_messageStatus_meets_the_backing_array :
  Decode repeated_body SmsGatewayResponse.zero
  = (SmsGatewayResponse.Make ""
       (Some [MessageStatus.Make 3 "" "" "" "" "" 0; MessageStatus.Make 2 "" "" "" "" "" 0]),
     None).
Proof. vm_compute. reflexivity. Qed.

Lemma fold_left_skip {A B} (f : A -> B -> A) (before after : list B) b :
  (forall a, f a b = a) ->
  forall a, fold_left f (before ++ b :: after) a = fold_left f (before ++ after) a.
Proof. intros Hb a. rewrite !fold_left_app. cbn [fold_left]. now rewrite Hb. Qed.

(** X16. A member whose key matches no tag is skipped, whatever its value:
    a response, or a status, decodes to the same result and the same error
    with it as without it. *)
Theorem unknown_members_are_skipped (before after : list member) (k : string) (j : json) :
  (match_field SmsGatewayResponse_fields k = None ->
   forall v saved,
     decode_SmsGatewayResponse (JObj (before ++ (k, j) :: after)) v saved
     = decode_SmsGatewayResponse (JObj (before ++ after)) v saved)
  /\ (match_field MessageStatus_fields k = None ->
      forall v saved,
        decode_MessageStatus (JObj (before ++ (k, j) :: after)) v saved
        = decode_MessageStatus (JObj (before ++ after)) v saved).
Proof.
  split; intros Hk v saved; cbn [decode_SmsGatewayResponse decode_MessageStatus].
  - rewrite fold_left_skip; [reflexivity|]. intros [[v' spare'] saved'].
    unfold decode_SmsGatewayResponse_member. now rewrite Hk.
  - apply fold_left_skip. intros [v' saved'].
    unfold decode_MessageStatus_member. rewrite Hk. now destruct v'.
Qed.

Lemma readValue_blank body :
  is_blank body = true -> readValue stateBeginValue [] false body = readFailed io_EOF.
Proof.
  unfold is_blank. induction body as [|c body IH]; [reflexivity|].
  cbn [list_ascii_of_string forallb]. intros [Hc Hbody]%andb_true_iff.
  cbn [readValue step]. unfold beginValue. rewrite Hc. cbn [negb orb]. now apply IH.
Qed.

Section BlankBody.

Variable url_ok : string -> bool.

(** X17. A 200 response whose body is empty, or white space only, makes
    [Send] return the error [EOF] with the zero response. *)
Theorem Send_on_a_blank_body_returns_EOF client messages buffer response :
  json_Marshal (envelope client messages) = Ok buffer ->
  url_ok (sendMessages_url client) = true ->
  Client_Do (SmsGatewayClient.httpClient client) (post (sendMessages_url client) buffer)
  = value (Some response, None) ->
  Response.StatusCode response = 200 ->
  is_blank (Response.Body response) = true ->
  result (Send url_ok client messages) = value (SmsGatewayResponse.zero, Some io_EOF).
Proof.
  intros Hm Hurl Hdo Hcode Hblank. rewrite (Send_after_marshal _ _ _ _ Hm Hurl). cbn zeta.
  rewrite Hdo, Hcode. cbn [Z.eqb Pos.eqb]. unfold Decode.
  now rewrite (readValue_blank _ Hblank).
Qed.

End BlankBody.

Lemma match_field_response k :
  match_field SmsGatewayResponse_fields k
  = find (fun f => String.eqb (foldName f) (foldName k)) SmsGatewayResponse_fields.
Proof.
  unfold match_field, SmsGatewayResponse_fields. cbn [find].
  repeat match goal with
         | |- context [String.eqb k ?n] =>
           destruct (String.eqb_spec k n) as [->|_]; [now vm_compute|]
         end.
  reflexivity.
Qed.

Lemma match_field_status k :
  match_field MessageStatus_fields k
  = find (fun f => String.eqb (foldName f) (foldName k)) MessageStatus_fields.
Proof.
  unfold match_field, MessageStatus_fields. cbn [find].
  repeat match goal with
         | |- context [String.eqb k ?n] =>
           destruct (String.eqb_spec k n) as [->|_]; [now vm_compute|]
         end.
  reflexivity.
Qed.

(** X18. The keys of the answer are matched to the tags without regard to
    the case of their letters: two spellings of a key that fold to the same
    name select the same field, so a member is decoded the same under
    either. *)
Theorem keys_match_ignoring_case (k k' : string) (j : json) :
  foldName k = foldName k' ->
  (forall acc, decode_SmsGatewayResponse_member (k, j) acc
               = decode_SmsGatewayResponse_member (k', j) acc)
  /\ (forall acc, decode_MessageStatus_member (k, j) acc
                  = decode_MessageStatus_member (k', j) acc).
Proof.
  intros Hfold.
  assert (match_field SmsGatewayResponse_fields k = match_field SmsGatewayResponse_fields k')
    as Hr by now rewrite !match_field_response, Hfold.
  assert (match_field MessageStatus_fields k = match_field MessageStatus_fields k')
    as Hs by now rewrite !match_field_status, Hfold.
  split; [intros [[v spare] saved] | intros [v saved]];
    unfold decode_SmsGatewayResponse_member, decode_MessageStatus_member;
    now rewrite ?Hr, ?Hs.
Qed.

(** ** Instances of the further properties *)

Lemma Send_panics_on_nil_response_witness :
  Send all_urls refused_client (Some [Message.zero])
  = Run [post (sendMessages_url refused_client) (encode zero_batch_json)]
      (panic nil_dereference).
Proof.
  apply (Send_panics_on_nil_response all_urls refused_client (Some [Message.zero])
           (encode zero_batch_json)
           (Some (urlError "Post" dummy_url (errors_New "dial tcp: connection refused"))));
    vm_compute; reflexivity.
Defined.

Lemma Send_returns_the_error_of_Do_witness :
  Send all_urls redirect_client (Some [Message.zero])
  = Run [post (sendMessages_url redirect_client) (encode zero_batch_json)]
      (value (SmsGatewayResponse.zero,
              Some (urlError "Post" dummy_url (errors_New "stopped after 10 redirects")))).
Proof.
  apply (Send_returns_the_error_of_Do all_urls redirect_client (Some [Message.zero])
           (encode zero_batch_json) (Response.Make 302 ""));
    vm_compute; reflexivity.
Defined.

Lemma Send_panics_on_rejected_url_witness :
  createRequest rejects_spaces (sendMessages_url spaced_client) (encode zero_batch_json)
  = panic nil_dereference
  /\ Send rejects_spaces spaced_client (Some [Message.zero]) = Run [] (panic nil_dereference).
Proof.
  apply (Send_panics_on_rejected_url rejects_spaces spaced_client (Some [Message.zero])
           (encode zero_batch_json));
    vm_compute; reflexivity.
Defined.

Lemma Send_panics_on_nil_client_witness :
  Send all_urls zero_client (Some [Message.zero]) = Run [] (panic nil_dereference).
Proof.
  apply (Send_panics_on_nil_client all_urls zero_client (Some [Message.zero])
           (encode zero_batch_json));
    vm_compute; reflexivity.
Defined.

Lemma Send_on_a_made_client_witness :
  exists message,
    issued (Send all_urls (MakeSmsGatewayClient (NewStringResponder 200 ok_body)
                             "https://www.dummy-address.com" 7 "user" "secret")
              (Some [Message.zero]))
    = [post ("https://www.dummy-address.com" +:+ "/sendMessages")
         (encode (JObj [("serviceId", JNum "7"); ("username", JStr "user");
                        ("password", JStr "secret");
                        ("message", JArr [zero_message_json])]))]
    /\ encode (JObj [("serviceId", JNum "7"); ("username", JStr "user");
                     ("password", JStr "secret"); ("message", JArr [zero_message_json])])
       = encode (JObj [("serviceId", marshal_int 7); ("username", JStr "user");
                       ("password", JStr "secret"); ("message", message)])
    /\ marshal_Messages (Some [Message.zero]) = Ok message.
Proof.
  destruct (Send_on_a_made_client all_urls (NewStringResponder 200 ok_body)
              "https://www.dummy-address.com" 7 "user" "secret" (Some [Message.zero])
              (encode (JObj [("serviceId", JNum "7"); ("username", JStr "user");
                             ("password", JStr "secret");
                             ("message", JArr [zero_message_json])])))
    as (message & Hissued & Hbuffer & Hmessage & _); [reflexivity | reflexivity |].
  exists message. auto.
Defined.

Lemma Send_reports_the_first_message_that_fails_witness :
  Send all_urls ok_client (Some ([Message.zero] ++ scheduled year_10000 :: [Message.zero]))
  = Run [] (value (SmsGatewayResponse.zero, Some year_error)).
Proof.
  apply (Send_reports_the_first_message_that_fails all_urls ok_client [Message.zero]
           (scheduled year_10000) [Message.zero] year_error);
    [repeat constructor | vm_compute; reflexivity].
Defined.

Lemma required_fields_are_always_written_witness :
  ("serviceId", marshal_int 0) ∈ members_of zero_batch_json
  /\ ("price", marshal_int 0) ∈ members_of zero_message_json
  /\ ("recipient", JStr "") ∈ members_of zero_message_json
  /\ ("serviceCode", JStr "10001") ∈ members_of gas_example_json.
Proof.
  destruct (required_fields_are_always_written
              (envelope ok_client (Some [Message.zero])) Message.zero
              (OriginatorSettings.Make "ALPHANUMERIC" "Intelecom") gas_example
              (start_only time.zero)
              zero_batch_json zero_message_json
              (JObj [("originatorType", JStr "ALPHANUMERIC"); ("originator", JStr "Intelecom")])
              gas_example_json start_only_json)
    as (Hid & _ & _ & _ & Hrecipient & _ & Hprice & _ & _ & Hcode & _);
    try (vm_compute; reflexivity).
  exact (conj Hid (conj Hprice (conj Hrecipient Hcode))).
Defined.

Lemma set_optional_fields_are_written_witness :
  ("clientReference", JStr "ref-1") ∈ members_of full_message_json
  /\ ("age", marshal_int 18) ∈ members_of rated_json
  /\ ("newSession", JBool true) ∈ members_of rated_json.
Proof.
  destruct (set_optional_fields_are_written
              (envelope ok_client (Some [Message.zero])) full_message rated gas_example
              (start_only time.zero)
              zero_batch_json full_message_json rated_json gas_example_json start_only_json)
    as (_ & Hreference & _ & _ & _ & _ & Hage & Hsession & _);
    try (vm_compute; reflexivity).
  split; [|split]; [apply Hreference | apply Hage | apply Hsession]; easy.
Defined.

Lemma Send_passes_an_empty_batch_through_witness :
  issued (Send all_urls ok_client None)
  = [post (sendMessages_url ok_client)
       (encode (JObj [("serviceId", marshal_int 0); ("username", JStr "");
                      ("password", JStr ""); ("message", JNull)]))]
  /\ issued (Send all_urls ok_client (Some []))
     = [post (sendMessages_url ok_client)
          (encode (JObj [("serviceId", marshal_int 0); ("username", JStr "");
                         ("password", JStr ""); ("message", JArr [])]))].
Proof.
  apply (Send_passes_an_empty_batch_through all_urls ok_client); [reflexivity | discriminate].
Defined.

Lemma gateway_answer_round_trip_witness :
  decode_SmsGatewayResponse (marshal_SmsGatewayResponse response_example)
    SmsGatewayResponse.zero None
  = (response_example, None).
Proof.
  apply (gateway_answer_round_trip response_example SmsGatewayResponse.zero).
  vm_compute; reflexivity.
Defined.

Lemma unknown_members_are_skipped_witness :
  decode_SmsGatewayResponse
    (JObj ([("batchReference", JStr "123abc")] ++ ("elapsed", JNum "12")
           :: [("messageStatus", JArr [])])) SmsGatewayResponse.zero None
  = decode_SmsGatewayResponse
      (JObj ([("batchReference", JStr "123abc")] ++ [("messageStatus", JArr [])]))
      SmsGatewayResponse.zero None.
Proof.
  destruct (unknown_members_are_skipped [("batchReference", JStr "123abc")]
              [("messageStatus", JArr [])] "elapsed" (JNum "12")) as [H _].
  apply H. vm_compute; reflexivity.
Defined.

Lemma Send_on_a_blank_body_returns_EOF_witness :
  result (Send all_urls blank_client (Some [Message.zero]))
  = value (SmsGatewayResponse.zero, Some io_EOF).
Proof.
  apply (Send_on_a_blank_body_returns_EOF all_urls blank_client (Some [Message.zero])
           (encode zero_batch_json) (Response.Make 200 "  "));
    vm_compute; reflexivity.
Defined.

Lemma keys_match_ignoring_case_witness :
  decode_SmsGatewayResponse_member ("BATCHREFERENCE", JStr "123abc")
    (SmsGatewayResponse.zero, [], None)
  = decode_SmsGatewayResponse_member ("batchReference", JStr "123abc")
      (SmsGatewayResponse.zero, [], None).
Proof.
  destruct (keys_match_ignoring_case "BATCHREFERENCE" "batchReference" (JStr "123abc"))
    as [H _]; [vm_compute; reflexivity | exact (H _)].
Defined.

(** * The encoder and the decoder, byte by byte

    What [Send] posts is what [json.Marshal] wrote, and what it returns is
    what the decoder read.  This part relates the two at the level of bytes:
    the scanner run over the output of the encoder. *)

(** ** Runes *)

Lemma append_cons c (s t : string) : String c s +:+ t = String c (s +:+ t).
Proof. reflexivity. Qed.

Lemma append_empty (t : string) : "" +:+ t = t.
Proof. reflexivity. Qed.

Lemma append_assoc (a b c : string) : (a +:+ b) +:+ c = a +:+ (b +:+ c).
Proof.
  induction a as [|x a IH]; [reflexivity|]. rewrite !append_cons. now rewrite IH.
Qed.

Lemma byte_of_code c : byte_of (code c) = c.
Proof. destruct c as [[] [] [] [] [] [] [] []]; reflexivity. Qed.

Lemma code_range c : 0 <= code c < 256.
Proof. destruct c as [[] [] [] [] [] [] [] []]; now vm_compute. Qed.

(** Bits put next to each other add up. *)
Lemma lor_shiftl_low a b n :
  0 <= n -> 0 <= b < 2 ^ n -> Z.lor (Z.shiftl a n) b = a * 2 ^ n + b.
Proof.
  intros Hn Hb.
  assert (Z.land (Z.shiftl a n) b = 0) as Hland.
  { apply Z.bits_inj'. intros i Hi. rewrite Z.land_spec, Z.bits_0.
    destruct (Z.lt_ge_cases i n) as [Hlt|Hge].
    - now rewrite Z.shiftl_spec_low.
    - replace b with (b mod 2 ^ n) by (apply Z.mod_small; lia).
      rewrite Z.mod_pow2_bits_high by lia. apply andb_false_r. }
  rewrite <- Z.lxor_lor by exact Hland.
  rewrite <- Z.add_nocarry_lxor by exact Hland.
  now rewrite Z.shiftl_mul_pow2.
Qed.

Lemma land_low x n : 0 <= n -> Z.land x (2 ^ n - 1) = x mod 2 ^ n.
Proof. intros Hn. rewrite <- Z.land_ones by exact Hn. now rewrite Z.ones_equiv, Z.sub_1_r. Qed.

Lemma land_63 x : Z.land x 63 = x mod 64.
Proof. exact (land_low x 6 ltac:(lia)). Qed.

Lemma land_31 x : Z.land x 31 = x mod 32.
Proof. exact (land_low x 5 ltac:(lia)). Qed.

Lemma land_15 x : Z.land x 15 = x mod 16.
Proof. exact (land_low x 4 ltac:(lia)). Qed.

Lemma land_7 x : Z.land x 7 = x mod 8.
Proof. exact (land_low x 3 ltac:(lia)). Qed.

Lemma lor_lead k n x : 0 <= n -> 0 <= x < 2 ^ n -> Z.lor (k * 2 ^ n) x = k * 2 ^ n + x.
Proof.
  intros Hn Hx. rewrite <- (lor_shiftl_low k x n Hn Hx). now rewrite Z.shiftl_mul_pow2.
Qed.

Lemma lor_128 x : 0 <= x < 64 -> Z.lor 128 x = 128 + x.
Proof. intros Hx. exact (lor_lead 2 6 x ltac:(lia) Hx). Qed.

Lemma lor_192 x : 0 <= x < 32 -> Z.lor 192 x = 192 + x.
Proof. intros Hx. exact (lor_lead 6 5 x ltac:(lia) Hx). Qed.

Lemma lor_224 x : 0 <= x < 16 -> Z.lor 224 x = 224 + x.
Proof. intros Hx. exact (lor_lead 14 4 x ltac:(lia) Hx). Qed.

Lemma lor_240 x : 0 <= x < 8 -> Z.lor 240 x = 240 + x.
Proof. intros Hx. exact (lor_lead 30 3 x ltac:(lia) Hx). Qed.

(** The runes of two, three and four bytes, as numbers. *)
Lemma rune2 a b :
  0 <= b < 64 -> Z.lor (Z.shiftl a 6) b = a * 64 + b.
Proof. intros Hb. exact (lor_shiftl_low a b 6 ltac:(lia) Hb). Qed.

Lemma rune3 a b d :
  0 <= b < 64 -> 0 <= d < 64 ->
  Z.lor (Z.shiftl a 12) (Z.lor (Z.shiftl b 6) d) = a * 4096 + b * 64 + d.
Proof.
  intros Hb Hd. rewrite (rune2 b d Hd).
  rewrite (lor_shiftl_low a (b * 64 + d) 12) by lia. lia.
Qed.

Lemma rune4 a b d e :
  0 <= b < 64 -> 0 <= d < 64 -> 0 <= e < 64 ->
  Z.lor (Z.shiftl a 18) (Z.lor (Z.shiftl b 12) (Z.lor (Z.shiftl d 6) e))
  = a * 262144 + b * 4096 + d * 64 + e.
Proof.
  intros Hb Hd He. rewrite (rune3 b d e Hd He).
  rewrite (lor_shiftl_low a (b * 4096 + d * 64 + e) 18) by lia. lia.
Qed.

Lemma shiftr_6 r : Z.shiftr r 6 = r / 64.
Proof. now rewrite Z.shiftr_div_pow2. Qed.

Lemma shiftr_12 r : Z.shiftr r 12 = r / 4096.
Proof. now rewrite Z.shiftr_div_pow2. Qed.

Lemma shiftr_18 r : Z.shiftr r 18 = r / 262144.
Proof. now rewrite Z.shiftr_div_pow2. Qed.

(** [utf8.EncodeRune] on the runes of two, three and four bytes. *)
Lemma utf8_EncodeRune_2 a b :
  2 <= a < 32 -> 0 <= b < 64 ->
  utf8_EncodeRune (a * 64 + b)
  = String (byte_of (192 + a)) (String (byte_of (128 + b)) "").
Proof.
  intros Ha Hb. unfold utf8_EncodeRune. cbv zeta.
  destruct (Z.ltb_spec (a * 64 + b) 0); [lia|].
  destruct (Z.leb_spec (a * 64 + b) 127); [lia|].
  destruct (Z.leb_spec (a * 64 + b) 2047); [|lia].
  rewrite shiftr_6, land_63.
  replace ((a * 64 + b) / 64) with a by (Z.div_mod_to_equations; lia).
  replace ((a * 64 + b) mod 64) with b by (Z.div_mod_to_equations; lia).
  now rewrite lor_192, lor_128 by lia.
Qed.

Lemma utf8_EncodeRune_3 a b d :
  0 <= a < 16 -> 0 <= b < 64 -> 0 <= d < 64 ->
  2048 <= a * 4096 + b * 64 + d ->
  ~ (55296 <= a * 4096 + b * 64 + d <= 57343) ->
  utf8_EncodeRune (a * 4096 + b * 64 + d)
  = String (byte_of (224 + a)) (String (byte_of (128 + b)) (String (byte_of (128 + d)) "")).
Proof.
  intros Ha Hb Hd Hlow Hsur. unfold utf8_EncodeRune. cbv zeta.
  set (r := a * 4096 + b * 64 + d) in *.
  destruct (Z.ltb_spec r 0); [lia|].
  destruct (Z.leb_spec r 127); [lia|].
  destruct (Z.leb_spec r 2047); [lia|].
  destruct (Z.ltb_spec 1114111 r); [lia|].
  destruct (Z.leb_spec 55296 r), (Z.leb_spec r 57343); try lia; cbn [orb andb];
    (destruct (Z.leb_spec r 65535); [|lia]);
    rewrite shiftr_12, shiftr_6, !land_63;
    replace (r / 4096) with a by (subst r; Z.div_mod_to_equations; lia);
    replace ((r / 64) mod 64) with b by (subst r; Z.div_mod_to_equations; lia);
    replace (r mod 64) with d by (subst r; Z.div_mod_to_equations; lia);
    now rewrite lor_224, !lor_128 by lia.
Qed.

Lemma utf8_EncodeRune_4 a b d e :
  0 <= a < 8 -> 0 <= b < 64 -> 0 <= d < 64 -> 0 <= e < 64 ->
  65536 <= a * 262144 + b * 4096 + d * 64 + e <= 1114111 ->
  utf8_EncodeRune (a * 262144 + b * 4096 + d * 64 + e)
  = String (byte_of (240 + a))
      (String (byte_of (128 + b)) (String (byte_of (128 + d)) (String (byte_of (128 + e)) ""))).
Proof.
  intros Ha Hb Hd He Hr. unfold utf8_EncodeRune. cbv zeta.
  set (r := a * 262144 + b * 4096 + d * 64 + e) in *.
  destruct (Z.ltb_spec r 0); [lia|].
  destruct (Z.leb_spec r 127); [lia|].
  destruct (Z.leb_spec r 2047); [lia|].
  destruct (Z.ltb_spec 1114111 r); [lia|].
  destruct (Z.leb_spec 55296 r), (Z.leb_spec r 57343); try lia; cbn [orb andb];
    (destruct (Z.leb_spec r 65535); [lia|]);
    rewrite shiftr_18, shiftr_12, shiftr_6, !land_63;
    replace (r / 262144) with a by (subst r; Z.div_mod_to_equations; lia);
    replace ((r / 4096) mod 64) with b by (subst r; Z.div_mod_to_equations; lia);
    replace ((r / 64) mod 64) with d by (subst r; Z.div_mod_to_equations; lia);
    replace (r mod 64) with e by (subst r; Z.div_mod_to_equations; lia);
    now rewrite lor_240, !lor_128 by lia.
Qed.

Lemma utf8_EncodeRune_1 c : ascii_char c = true -> utf8_EncodeRune (code c) = String c "".
Proof.
  unfold ascii_char. intros Hc%Z.ltb_lt. pose proof (code_range c).
  unfold utf8_EncodeRune. cbv zeta.
  destruct (Z.ltb_spec (code c) 0); [lia|].
  destruct (Z.leb_spec (code c) 127); [|lia]. now rewrite byte_of_code.
Qed.

Ltac decide_cmp :=
  repeat match goal with
         | |- context [Z.eqb ?a ?b] => destruct (Z.eqb_spec a b); try lia
         | |- context [Z.ltb ?a ?b] => destruct (Z.ltb_spec a b); try lia
         | |- context [Z.leb ?a ?b] => destruct (Z.leb_spec a b); try lia
         end.

(** [utf8.DecodeRuneInString] on the well-formed sequences of two, three
    and four bytes. *)
Lemma utf8_DecodeRune_2 c c1 t :
  194 <= code c < 224 -> 128 <= code c1 <= 191 ->
  utf8_DecodeRune (String c (String c1 t))
  = ((code c - 192) * 64 + (code c1 - 128), 2%nat).
Proof.
  intros Hc Hc1. unfold utf8_DecodeRune. cbv zeta. decide_cmp; cbn [orb Nat.leb].
  all: rewrite land_31, land_63, rune2 by (Z.div_mod_to_equations; lia).
  all: f_equal; Z.div_mod_to_equations; lia.
Qed.

Lemma utf8_DecodeRune_3 c c1 c2 t :
  224 <= code c < 240 -> second_byte_ok c c1 -> 128 <= code c2 <= 191 ->
  utf8_DecodeRune (String c (String c1 (String c2 t)))
  = ((code c - 224) * 4096 + (code c1 - 128) * 64 + (code c2 - 128), 3%nat).
Proof.
  unfold second_byte_ok. intros Hc Hc1 Hc2. unfold utf8_DecodeRune, is_cont. cbv zeta.
  revert Hc1. decide_cmp; intros Hc1; try lia; cbn [orb andb negb Nat.leb].
  all: rewrite land_15, !land_63, rune3 by (Z.div_mod_to_equations; lia).
  all: f_equal; Z.div_mod_to_equations; lia.
Qed.

Lemma utf8_DecodeRune_4 c c1 c2 c3 t :
  240 <= code c <= 244 -> second_byte_ok c c1 -> 128 <= code c2 <= 191 ->
  128 <= code c3 <= 191 ->
  utf8_DecodeRune (String c (String c1 (String c2 (String c3 t))))
  = ((code c - 240) * 262144 + (code c1 - 128) * 4096 + (code c2 - 128) * 64
     + (code c3 - 128), 4%nat).
Proof.
  unfold second_byte_ok. intros Hc Hc1 Hc2 Hc3. unfold utf8_DecodeRune, is_cont. cbv zeta.
  revert Hc1. decide_cmp; intros Hc1; try lia; cbn [orb andb negb Nat.leb].
  all: rewrite land_7, !land_63, rune4 by (Z.div_mod_to_equations; lia).
  all: f_equal; Z.div_mod_to_equations; lia.
Qed.

Ltac decide_cmp_all :=
  repeat match goal with
         | H : context [Z.eqb ?a ?b] |- _ => destruct (Z.eqb_spec a b); try lia
         | |- context [Z.eqb ?a ?b] => destruct (Z.eqb_spec a b); try lia
         | H : context [Z.ltb ?a ?b] |- _ => destruct (Z.ltb_spec a b); try lia
         | |- context [Z.ltb ?a ?b] => destruct (Z.ltb_spec a b); try lia
         | H : context [Z.leb ?a ?b] |- _ => destruct (Z.leb_spec a b); try lia
         | |- context [Z.leb ?a ?b] => destruct (Z.leb_spec a b); try lia
         end.

Ltac ill_formed :=
  left; unfold utf8_DecodeRune, is_cont, second_byte_ok in *; cbv zeta;
  decide_cmp_all; cbn [orb andb negb Nat.leb]; try reflexivity; try lia.

Lemma second_byte_ok_dec c c1 : second_byte_ok c c1 \/ ~ second_byte_ok c c1.
Proof. unfold second_byte_ok. decide_cmp_all; lia. Qed.

Lemma high_bytes_cons b p :
  high_bytes (String b p) = true <-> 128 <= code b /\ high_bytes p = true.
Proof.
  unfold high_bytes, ascii_char. cbn [list_ascii_of_string forallb].
  rewrite andb_true_iff, negb_true_iff, Z.ltb_ge. tauto.
Qed.

(** The bytes from one that is not ASCII on: ill-formed, and then the
    decoder takes the one byte as U+FFFD, or a rune of two to four bytes,
    which [utf8.EncodeRune] writes as these same bytes. *)
Lemma utf8_rune_cases c rest :
  ascii_char c = false ->
  utf8_DecodeRune (String c rest) = (RuneError, 1%nat)
  \/ exists p t r,
       rest = p +:+ t /\ p <> "" /\ high_bytes p = true
       /\ (forall X, utf8_DecodeRune (String c (p +:+ X)) = (r, S (String.length p)))
       /\ utf8_EncodeRune r = String c p.
Proof.
  unfold ascii_char. intros Hc%Z.ltb_ge.
  destruct (Z.lt_ge_cases (code c) 194); [ill_formed|].
  destruct (Z.lt_ge_cases 244 (code c)); [ill_formed|].
  destruct rest as [|c1 t1]; [ill_formed|].
  destruct (second_byte_ok_dec c c1) as [Hc1|Hc1]; [|ill_formed].
  assert (128 <= code c1 <= 191) as Hr1 by (unfold second_byte_ok in Hc1; decide_cmp_all; lia).
  destruct (Z.lt_ge_cases (code c) 224).
  { right. exists (String c1 ""), t1, ((code c - 192) * 64 + (code c1 - 128)).
    split; [reflexivity|]. split; [discriminate|].
    split; [apply high_bytes_cons; split; [lia|reflexivity]|]. split.
    - intros X. now apply utf8_DecodeRune_2.
    - rewrite utf8_EncodeRune_2 by lia.
      replace (192 + (code c - 192)) with (code c) by lia.
      replace (128 + (code c1 - 128)) with (code c1) by lia.
      now rewrite !byte_of_code. }
  destruct t1 as [|c2 t2]; [ill_formed|].
  destruct (Z.lt_ge_cases (code c2) 128); [ill_formed|].
  destruct (Z.lt_ge_cases 191 (code c2)); [ill_formed|].
  destruct (Z.lt_ge_cases (code c) 240).
  { right. exists (String c1 (String c2 "")), t2,
      ((code c - 224) * 4096 + (code c1 - 128) * 64 + (code c2 - 128)).
    split; [reflexivity|]. split; [discriminate|].
    split; [apply high_bytes_cons; split; [lia|]; apply high_bytes_cons; split;
            [lia|reflexivity]|].
    split.
    - intros X. apply utf8_DecodeRune_3; auto; lia.
    - rewrite utf8_EncodeRune_3;
        try (unfold second_byte_ok in Hc1; decide_cmp_all; lia).
      replace (224 + (code c - 224)) with (code c) by lia.
      replace (128 + (code c1 - 128)) with (code c1) by lia.
      replace (128 + (code c2 - 128)) with (code c2) by lia.
      now rewrite !byte_of_code. }
  destruct t2 as [|c3 t3]; [ill_formed|].
  destruct (Z.lt_ge_cases (code c3) 128); [ill_formed|].
  destruct (Z.lt_ge_cases 191 (code c3)); [ill_formed|].
  right. exists (String c1 (String c2 (String c3 ""))), t3,
    ((code c - 240) * 262144 + (code c1 - 128) * 4096 + (code c2 - 128) * 64
     + (code c3 - 128)).
  split; [reflexivity|]. split; [discriminate|].
  split; [apply high_bytes_cons; split; [lia|]; apply high_bytes_cons; split; [lia|];
          apply high_bytes_cons; split; [lia|reflexivity]|].
  split.
  - intros X. apply utf8_DecodeRune_4; auto; lia.
  - rewrite utf8_EncodeRune_4;
      try (unfold second_byte_ok in Hc1; decide_cmp_all; lia).
    replace (240 + (code c - 240)) with (code c) by lia.
    replace (128 + (code c1 - 128)) with (code c1) by lia.
    replace (128 + (code c2 - 128)) with (code c2) by lia.
    replace (128 + (code c3 - 128)) with (code c3) by lia.
    now rewrite !byte_of_code.
Qed.

(** ** Strings: what is written for them, and what is read back *)

Lemma appendString_go_copy p t :
  appendString_go (String.length p) O (p +:+ t) = p +:+ appendString_go O O t.
Proof. induction p as [|b p IH]; [reflexivity|]. cbn [String.length]. rewrite !append_cons. cbn [appendString_go]. now rewrite IH. Qed.

Lemma appendString_go_drop p t :
  appendString_go O (String.length p) (p +:+ t) = appendString_go O O t.
Proof. induction p as [|b p IH]; [reflexivity|]. cbn [String.length]. rewrite append_cons. cbn [appendString_go]. exact IH. Qed.

Lemma unquote_go_drop p X : unquote_go (String.length p) (p +:+ X) = unquote_go O X.
Proof. induction p as [|b p IH]; [reflexivity|]. cbn [String.length]. rewrite append_cons. cbn [unquote_go]. exact IH. Qed.

Lemma to_valid_go_skip p t : to_valid_go (String.length p) (p +:+ t) = to_valid t.
Proof. induction p as [|b p IH]; [reflexivity|]. cbn [String.length]. rewrite append_cons. cbn [to_valid_go]. exact IH. Qed.

Lemma utf8_Valid_go_skip p t :
  utf8_Valid_go (String.length p) (p +:+ t) = utf8_ValidString t.
Proof. induction p as [|b p IH]; [reflexivity|]. cbn [String.length]. rewrite append_cons. cbn [utf8_Valid_go]. exact IH. Qed.


Lemma reads_step st stack c buf st' stack' v rest :
  step st stack c = scanContinue st' stack' ->
  reads st' stack' buf v rest -> reads st stack (String c buf) v rest.
Proof. intros Hstep H nonSpace. cbn [readValue]. rewrite Hstep. apply H. Qed.

Lemma reads_end st stack c rest v :
  step st stack c = scanEnd v true -> reads st stack (String c rest) v rest.
Proof. intros Hstep nonSpace. cbn [readValue]. now rewrite Hstep. Qed.

Lemma reads_same_step st stack st' stack' c buf v rest :
  step st stack c = step st' stack' c ->
  reads st' stack' (String c buf) v rest -> reads st stack (String c buf) v rest.
Proof.
  intros Hstep H nonSpace. specialize (H nonSpace). cbn [readValue] in *. now rewrite Hstep.
Qed.

(** A byte inside a string that is not the quote, the backslash or a control
    character is taken as it is. *)
Lemma step_in_string c raw stack :
  32 <= code c -> code c <> 34 -> code c <> 92 ->
  step (stateInString raw) stack c = scanContinue (stateInString (c :: raw)) stack.
Proof.
  intros Hlow Hquote Hback. cbn [step].
  destruct (Z.eqb_spec (code c) 34); [lia|]. destruct (Z.eqb_spec (code c) 92); [lia|].
  now destruct (Z.ltb_spec (code c) 32); [lia|].
Qed.

Lemma htmlSafe_bounds b :
  htmlSafe b = true -> 32 <= b /\ b <> 34 /\ b <> 92.
Proof.
  unfold htmlSafe. intros [Hlow Hnot%negb_true_iff]%andb_true_iff.
  repeat (apply orb_false_iff in Hnot as [Hnot ?]). lia.
Qed.

(** The bytes of [c] that are escaped, one case each. *)
Ltac escaped_cases c Hc Hsafe :=
  destruct c as [[] [] [] [] [] [] [] []];
  try discriminate Hc; try discriminate Hsafe; clear Hc Hsafe.

Lemma passes_over_encoded_char c : ascii_char c = true -> passes_over (encoded_char c).
Proof.
  unfold ascii_char, encoded_char, passes_over. intros Hc.
  destruct (htmlSafe (code c)) eqn:Hsafe.
  { apply htmlSafe_bounds in Hsafe as (Hlow & Hquote & Hback).
    intros raw stack tail v rest H.
    eapply reads_step; [now apply step_in_string|exact H]. }
  escaped_cases c Hc Hsafe; intros raw stack tail v rest H;
    repeat (eapply reads_step; [reflexivity|]); exact H.
Qed.

Lemma unquotes_encoded_char c : ascii_char c = true -> unquotes_to (encoded_char c) (String c "").
Proof.
  unfold ascii_char, encoded_char, unquotes_to. intros Hc.
  destruct (htmlSafe (code c)) eqn:Hsafe.
  { apply htmlSafe_bounds in Hsafe as (Hlow & Hquote & Hback). intros X.
    rewrite append_cons, append_empty. cbn [unquote_go].
    destruct (Z.eqb_spec (code c) 92); [lia|].
    destruct (Z.eqb_spec (code c) 34); [lia|].
    destruct (Z.ltb_spec (code c) 32); [lia|]. cbn [orb]. now rewrite Hc. }
  escaped_cases c Hc Hsafe; intros X; reflexivity.
Qed.

Lemma passes_over_high_bytes p : high_bytes p = true -> passes_over p.
Proof.
  unfold passes_over. induction p as [|b p IH]; intros Hp raw stack tail v rest H; [exact H|].
  apply high_bytes_cons in Hp as [Hb Hp]. rewrite append_cons.
  eapply reads_step; [apply step_in_string; lia|].
  apply (IH Hp). cbn [list_ascii_of_string rev] in H. now rewrite <- app_assoc in H.
Qed.

Lemma wire_safe_app a b : wire_safe (a +:+ b) = wire_safe a && wire_safe b.
Proof. unfold wire_safe. now rewrite list_ascii_app, forallb_app. Qed.

Lemma wire_safe_encoded_char c : ascii_char c = true -> wire_safe (encoded_char c) = true.
Proof.
  unfold ascii_char, encoded_char. intros Hc. destruct (htmlSafe (code c)) eqn:Hsafe.
  { unfold htmlSafe in Hsafe. apply andb_true_iff in Hsafe as [Hlow Hnot%negb_true_iff].
    repeat (apply orb_false_iff in Hnot as [Hnot ?]).
    unfold wire_safe, wire_char. cbn [list_ascii_of_string forallb].
    repeat match goal with H : _ = false |- _ => rewrite H; clear H end.
    now rewrite Hlow. }
  escaped_cases c Hc Hsafe; reflexivity.
Qed.

Lemma wire_safe_high_bytes p : high_bytes p = true -> wire_safe p = true.
Proof.
  induction p as [|b p IH]; [reflexivity|]. intros [Hb Hp]%high_bytes_cons.
  unfold wire_safe, wire_char in *. cbn [list_ascii_of_string forallb]. rewrite (IH Hp).
  destruct (Z.leb_spec 32 (code b)); [|lia].
  destruct (Z.eqb_spec (code b) 38); [lia|]. destruct (Z.eqb_spec (code b) 60); [lia|].
  now destruct (Z.eqb_spec (code b) 62); [lia|].
Qed.

Lemma utf8_DecodeRune_ascii c rest :
  ascii_char c = true -> utf8_DecodeRune (String c rest) = (code c, 1%nat).
Proof. unfold ascii_char, utf8_DecodeRune. now intros ->. Qed.

Lemma written_ascii c rest :
  ascii_char c = true -> written_as (String c rest) (encoded_char c) (String c "") rest.
Proof.
  intros Hc. unfold written_as. split; [cbn [String.length]; lia|].
  split; [now apply wire_safe_encoded_char|]. split; [|split; [|split]].
  - unfold encoded_char. cbn [appendString_go]. unfold ascii_char in Hc. rewrite Hc.
    now destruct (htmlSafe (code c)).
  - unfold to_valid. cbn [to_valid_go]. rewrite (utf8_DecodeRune_ascii c rest Hc).
    now rewrite (utf8_EncodeRune_1 c Hc).
  - unfold utf8_ValidString. cbn [utf8_Valid_go]. rewrite (utf8_DecodeRune_ascii c rest Hc).
    intros [_ Hrest]%andb_true_iff. now split.
  - split; [now apply passes_over_encoded_char | now apply unquotes_encoded_char].
Qed.

Lemma written_ill_formed c rest :
  ascii_char c = false -> utf8_DecodeRune (String c rest) = (RuneError, 1%nat) ->
  written_as (String c rest) (String "\" "ufffd") (utf8_EncodeRune RuneError) rest.
Proof.
  intros Hc Hdec. unfold written_as. split; [cbn [String.length]; lia|].
  split; [reflexivity|]. split; [|split; [|split]].
  - cbn [appendString_go]. unfold ascii_char in Hc. now rewrite Hc, Hdec.
  - unfold to_valid. cbn [to_valid_go]. now rewrite Hdec.
  - unfold utf8_ValidString. cbn [utf8_Valid_go]. rewrite Hdec. discriminate.
  - split.
    + intros raw stack tail v rest' H. repeat (eapply reads_step; [reflexivity|]). exact H.
    + intros X. reflexivity.
Qed.

Lemma high_byte_not_ascii c : ascii_char c = false -> 128 <= code c.
Proof. unfold ascii_char. now intros H%Z.ltb_ge. Qed.

Lemma written_rune c p t r :
  ascii_char c = false -> p <> "" -> high_bytes p = true ->
  (forall X, utf8_DecodeRune (String c (p +:+ X)) = (r, S (String.length p))) ->
  utf8_EncodeRune r = String c p ->
  exists out, written_as (String c (p +:+ t)) out (String c p) t.
Proof.
  intros Hc Hp Hhigh Hdec Henc.
  assert ((S (String.length p) =? 1)%nat = false) as Hsize by (now destruct p).
  assert (to_valid (String c (p +:+ t)) = String c p +:+ to_valid t) as Hvalid.
  { unfold to_valid at 1. cbn [to_valid_go]. rewrite Hdec, Henc.
    cbn [Nat.sub]. now rewrite Nat.sub_0_r, to_valid_go_skip. }
  assert (utf8_ValidString (String c (p +:+ t)) = true ->
          String c (p +:+ t) = String c p +:+ t /\ utf8_ValidString t = true) as Hok.
  { unfold utf8_ValidString at 1. cbn [utf8_Valid_go]. rewrite Hdec.
    cbn [Nat.sub]. rewrite Nat.sub_0_r, utf8_Valid_go_skip.
    intros [_ Ht]%andb_true_iff. now split. }
  assert ((String.length t < String.length (String c (p +:+ t)))%nat) as Hlen.
  { cbn [String.length]. rewrite length_append. lia. }
  assert (appendString_go O O (String c (p +:+ t))
          = (if (r =? 8232) || (r =? 8233)
             then String "\" "u202"
                  +:+ String (hex_digit (Z.land r 15)) (appendString_go O 2 (p +:+ t))
             else String c (appendString_go (String.length p) O (p +:+ t)))) as Hgo.
  { cbn [appendString_go]. unfold ascii_char in Hc. rewrite Hc, Hdec, Hsize, andb_false_r.
    cbn [Nat.sub]. now rewrite Nat.sub_0_r. }
  destruct (Z.eqb_spec r 8232) as [->|Hls]; [|destruct (Z.eqb_spec r 8233) as [->|Hps]].
  - vm_compute in Henc. injection Henc as <- <-.
    exists (String "\" "u2028").
    split; [exact Hlen|]. split; [reflexivity|]. split; [exact Hgo|]. split; [exact Hvalid|]. split; [exact Hok|].
    split.
    + intros raw stack tail v rest' H. repeat (eapply reads_step; [reflexivity|]). exact H.
    + intros X. reflexivity.
  - vm_compute in Henc. injection Henc as <- <-.
    exists (String "\" "u2029").
    split; [exact Hlen|]. split; [reflexivity|]. split; [exact Hgo|]. split; [exact Hvalid|]. split; [exact Hok|].
    split.
    + intros raw stack tail v rest' H. repeat (eapply reads_step; [reflexivity|]). exact H.
    + intros X. reflexivity.
  - exists (String c p). cbn [orb] in Hgo. rewrite appendString_go_copy in Hgo.
    assert (high_bytes (String c p) = true) as Hcp
      by (apply high_bytes_cons; split; [now apply high_byte_not_ascii | exact Hhigh]).
    split; [exact Hlen|]. split; [now apply wire_safe_high_bytes|]. split; [exact Hgo|]. split; [exact Hvalid|]. split; [exact Hok|].
    split.
    + apply passes_over_high_bytes. apply high_bytes_cons. split; [|exact Hhigh].
      now apply high_byte_not_ascii.
    + intros X. rewrite append_cons. cbn [unquote_go].
      pose proof (high_byte_not_ascii c Hc).
      destruct (Z.eqb_spec (code c) 92); [lia|].
      destruct (Z.eqb_spec (code c) 34); [lia|].
      destruct (Z.ltb_spec (code c) 32); [lia|]. cbn [orb].
      destruct (Z.ltb_spec (code c) 128); [lia|].
      rewrite Hdec, Henc. cbn [Nat.sub]. now rewrite Nat.sub_0_r, unquote_go_drop.
Qed.

(** Every string that is not empty starts with a rune that is written in one
    of these ways. *)
Lemma written_first_rune c rest : exists out val t, written_as (String c rest) out val t.
Proof.
  destruct (ascii_char c) eqn:Hc.
  - eexists _, _, _. now apply written_ascii.
  - destruct (utf8_rune_cases c rest Hc) as [Hdec | (p & t & r & -> & Hp & Hhigh & Hdec & Henc)].
    + eexists _, _, _. now apply written_ill_formed.
    + destruct (written_rune c p t r Hc Hp Hhigh Hdec Henc) as [out H]. eauto.
Qed.

(** The scanner passes over everything the encoder writes between the
    quotes of a string. *)
Lemma passes_over_appendString_go s : passes_over (appendString_go O O s).
Proof.
  remember (String.length s) as n eqn:Hn. revert s Hn.
  induction n as [n IH] using lt_wf_ind. intros s ->.
  destruct s as [|c rest]; [intros raw stack tail v rest H; exact H|].
  destruct (written_first_rune c rest)
    as (out & val & t & Hlen & _ & Hout & _ & _ & Hpass & _).
  rewrite Hout. intros raw stack tail v rest' H. rewrite append_assoc.
  apply Hpass. apply (IH _ Hlen t eq_refl).
  now rewrite list_ascii_app, rev_app_distr, <- app_assoc in H.
Qed.

(** [unquote] of what the encoder writes: the string, with U+FFFD in the
    place of every byte that is not part of a well-formed rune. *)
Lemma unquote_go_appendString_go s :
  unquote_go O (appendString_go O O s) = Some (to_valid s).
Proof.
  remember (String.length s) as n eqn:Hn. revert s Hn.
  induction n as [n IH] using lt_wf_ind. intros s ->.
  destruct s as [|c rest]; [reflexivity|].
  destruct (written_first_rune c rest)
    as (out & val & t & Hlen & _ & Hout & Hval & _ & _ & Hun).
  now rewrite Hout, Hun, (IH _ Hlen t eq_refl), Hval.
Qed.

(** A string of well-formed runes comes back as it is. *)
Lemma to_valid_ValidString s : utf8_ValidString s = true -> to_valid s = s.
Proof.
  remember (String.length s) as n eqn:Hn. revert s Hn.
  induction n as [n IH] using lt_wf_ind. intros s -> Hs.
  destruct s as [|c rest]; [reflexivity|].
  destruct (written_first_rune c rest) as (out & val & t & Hlen & _ & _ & Hval & Hok & _).
  destruct (Hok Hs) as [Heq Ht].
  now rewrite Hval, (IH _ Hlen t eq_refl Ht).
Qed.

(** Nothing the encoder writes between the quotes of a string is a control
    character or one of [<], [>] and [&]. *)
Lemma wire_safe_appendString_go s : wire_safe (appendString_go O O s) = true.
Proof.
  remember (String.length s) as n eqn:Hn. revert s Hn.
  induction n as [n IH] using lt_wf_ind. intros s ->.
  destruct s as [|c rest]; [reflexivity|].
  destruct (written_first_rune c rest) as (out & val & t & Hlen & Hwire & Hout & _).
  now rewrite Hout, wire_safe_app, Hwire, (IH _ Hlen t eq_refl).
Qed.

(** ** The scanner reads back what the encoder writes *)

Lemma json_induction (P : json -> Prop) :
  P JNull -> (forall b, P (JBool b)) -> (forall lit, P (JNum lit)) -> (forall s, P (JStr s)) ->
  (forall elems, Forall P elems -> P (JArr elems)) ->
  (forall members, Forall (fun kv => P (snd kv)) members -> P (JObj members)) ->
  forall j, P j.
Proof.
  intros Hnull Hbool Hnum Hstr Harr Hobj. fix IH 1. intros [| b | lit | s | elems | members].
  - exact Hnull.
  - apply Hbool.
  - apply Hnum.
  - apply Hstr.
  - apply Harr. induction elems as [|j elems IHelems]; constructor; [apply IH | exact IHelems].
  - apply Hobj. induction members as [|[k j] members IHmembers]; constructor;
      [apply IH | exact IHmembers].
Qed.

Lemma endOfValue_push v consumed stack :
  expects_value stack = true ->
  endOfValue v consumed stack = scanContinue stateEndValue (push_value v stack).
Proof. now destruct stack as [|[elems|members [k|]] below]. Qed.

Lemma of_rev_rev s raw :
  of_rev (rev (list_ascii_of_string s) ++ raw) = of_rev raw +:+ s.
Proof.
  unfold of_rev. rewrite rev_app_distr, rev_involutive.
  generalize (rev raw) as l. intros l. induction l as [|c l IH].
  - cbn. apply string_of_list_ascii_of_string.
  - cbn [app string_of_list_ascii]. rewrite IH. reflexivity.
Qed.

(** *** Strings *)

Lemma appendString_app s tail :
  appendString s +:+ tail
  = String quote_char (appendString_go O O s +:+ String quote_char tail).
Proof. unfold appendString. rewrite !append_cons, append_assoc. reflexivity. Qed.

Lemma unquote_appendString_go s :
  unquote (rev (list_ascii_of_string (appendString_go O O s)) ++ []) = Some (to_valid s).
Proof.
  unfold unquote. rewrite of_rev_rev. change (of_rev [] +:+ ?x) with x.
  apply unquote_go_appendString_go.
Qed.

(** A quoted string, read as a value. *)
Lemma reads_string_value s stack tail v rest :
  expects_value stack = true ->
  reads stateEndValue (push_value (JStr (to_valid s)) stack) tail v rest ->
  reads stateBeginValue stack (appendString s +:+ tail) v rest.
Proof.
  intros Hstack H. rewrite appendString_app.
  apply reads_step with (st' := stateInString []) (stack' := stack); [reflexivity|].
  apply passes_over_appendString_go.
  apply reads_step with (st' := stateEndValue)
                        (stack' := push_value (JStr (to_valid s)) stack); [|exact H].
  cbn [step]. change (code quote_char =? 34) with true. cbv iota.
  rewrite unquote_appendString_go. now apply endOfValue_push.
Qed.

(** A quoted string, read as the key of a member, and the colon after it. *)
Lemma reads_key k st members below tail v rest :
  st = stateBeginString \/ st = stateBeginStringOrEmpty ->
  reads stateBeginValue (parseObject members (Some (to_valid k)) :: below) tail v rest ->
  reads st (parseObject members None :: below) (appendString k +:+ String ":" tail) v rest.
Proof.
  intros Hst H. rewrite appendString_app.
  apply reads_step with (st' := stateInString []) (stack' := parseObject members None :: below);
    [now destruct Hst as [-> | ->]|].
  apply passes_over_appendString_go.
  apply reads_step with (st' := stateEndValue)
                        (stack' := parseObject members (Some (to_valid k)) :: below).
  - cbn [step]. change (code quote_char =? 34) with true. cbv iota.
    now rewrite unquote_appendString_go.
  - apply reads_step with (st' := stateBeginValue)
                          (stack' := parseObject members (Some (to_valid k)) :: below);
      [reflexivity|].
    exact H.
Qed.

(** *** Literals and numbers *)

Lemma reads_null stack tail v rest :
  expects_value stack = true ->
  reads stateEndValue (push_value JNull stack) tail v rest ->
  reads stateBeginValue stack ("null" +:+ tail) v rest.
Proof.
  intros Hstack H. rewrite !append_cons, append_empty.
  do 3 (eapply reads_step; [reflexivity|]).
  eapply reads_step; [|exact H]. cbn. now apply endOfValue_push.
Qed.

Lemma reads_bool b stack tail v rest :
  expects_value stack = true ->
  reads stateEndValue (push_value (JBool b) stack) tail v rest ->
  reads stateBeginValue stack ((if b then "true" else "false") +:+ tail) v rest.
Proof.
  intros Hstack H. destruct b; rewrite !append_cons, append_empty.
  - do 3 (eapply reads_step; [reflexivity|]).
    eapply reads_step; [|exact H]. cbn. now apply endOfValue_push.
  - do 4 (eapply reads_step; [reflexivity|]).
    eapply reads_step; [|exact H]. cbn. now apply endOfValue_push.
Qed.

Lemma delimiter_cases c : delimiter c = true -> c = ","%char \/ c = "]"%char \/ c = "}"%char.
Proof.
  destruct c as [[] [] [] [] [] [] [] []]; intros H; try discriminate H; auto.
Qed.

Lemma nonzero_digit_cases c :
  (49 <=? code c) && (code c <=? 57) = true ->
  (forall stack, step stateBeginValue stack c = scanContinue (stateNum state1 [c]) stack)
  /\ isDigit c = true /\ isSpace c = false /\ (code c =? 93) = false /\ (code c =? 48) = false.
Proof.
  destruct c as [[] [] [] [] [] [] [] []]; intros H; try discriminate H;
    (split; [intros stack; reflexivity | now vm_compute]).
Qed.

(** The byte after a complete number ends it, and is then read as the byte
    after a value. *)
Lemma reads_number_end k lit stack c tail v rest :
  k = state0 \/ k = state1 -> delimiter c = true -> expects_value stack = true ->
  reads stateEndValue (push_value (JNum (of_rev lit)) stack) (String c tail) v rest ->
  reads (stateNum k lit) stack (String c tail) v rest.
Proof.
  intros Hk Hc Hstack. apply reads_same_step.
  cbn [step]. unfold stepNum, endOfNumber. rewrite (endOfValue_push _ false stack Hstack).
  destruct (delimiter_cases c Hc) as [-> | [-> | ->]]; now destruct Hk as [-> | ->].
Qed.

Lemma all_digits_cons c d :
  all_digits (String c d) = true <-> isDigit c = true /\ all_digits d = true.
Proof. unfold all_digits. cbn [list_ascii_of_string forallb]. apply andb_true_iff. Qed.

Lemma reads_digits d : all_digits d = true ->
  forall lit stack tail v rest,
    reads (stateNum state1 (rev (list_ascii_of_string d) ++ lit)) stack tail v rest ->
    reads (stateNum state1 lit) stack (d +:+ tail) v rest.
Proof.
  induction d as [|c d IH]; intros Hd lit stack tail v rest H; [exact H|].
  apply all_digits_cons in Hd as [Hc Hd]. rewrite append_cons.
  apply reads_step with (st' := stateNum state1 (c :: lit)) (stack' := stack).
  - cbn [step]. unfold stepNum. now rewrite Hc.
  - apply (IH Hd). cbn [list_ascii_of_string rev] in H. now rewrite <- app_assoc in H.
Qed.

(** The forms of an integer literal. *)
Lemma integer_literal_cases lit :
  integer_literal lit = true ->
  lit = "0"
  \/ exists (neg : bool) c d,
       lit = (if neg then String "-" (String c d) else String c d)
       /\ (49 <=? code c) && (code c <=? 57) = true /\ all_digits d = true.
Proof.
  unfold integer_literal. intros [[H | H]%orb_true_iff | H]%orb_true_iff.
  - left. now apply String.eqb_eq.
  - right. destruct lit as [|c d]; [discriminate|]. cbn [positive_literal] in H.
    apply andb_true_iff in H as [Hc Hd]. now exists false, c, d.
  - right. destruct lit as [|m [|c d]]; try discriminate H.
    + now destruct m as [[] [] [] [] [] [] [] []].
    + assert (m = "-"%char /\ positive_literal (String c d) = true) as [-> Hp]
        by (destruct m as [[] [] [] [] [] [] [] []]; try discriminate H; now split).
      cbn [positive_literal] in Hp. apply andb_true_iff in Hp as [Hc Hd].
      now exists true, c, d.
Qed.

Lemma reads_number lit stack c tail v rest :
  integer_literal lit = true -> expects_value stack = true -> delimiter c = true ->
  reads stateEndValue (push_value (JNum lit) stack) (String c tail) v rest ->
  reads stateBeginValue stack (lit +:+ String c tail) v rest.
Proof.
  intros Hlit Hstack Hc.
  destruct (integer_literal_cases lit Hlit) as [-> | (neg & c0 & d & -> & Hc0 & Hd)].
  - intros H. rewrite append_cons, append_empty.
    eapply reads_step; [reflexivity|]. apply reads_number_end; auto.
  - destruct (nonzero_digit_cases c0 Hc0) as (Hstep & _ & _ & _ & Hzero).
    destruct neg; intros H; rewrite !append_cons.
    + eapply reads_step; [reflexivity|].
      apply reads_step with (st' := stateNum state1 [c0; "-"%char]) (stack' := stack).
      { cbn [step]. unfold stepNum. now rewrite Hc0, Hzero. }
      apply (reads_digits d Hd). apply reads_number_end; auto.
      now rewrite of_rev_rev.
    + apply reads_step with (st' := stateNum state1 [c0]) (stack' := stack);
        [now apply Hstep|].
      apply (reads_digits d Hd). apply reads_number_end; auto.
      now rewrite of_rev_rev.
Qed.

(** *** Containers *)

(** A value starts with a byte that is neither a space nor the closing
    bracket. *)
Lemma encode_first j : integers_only j = true ->
  exists c s, encode j = String c s /\ isSpace c = false /\ (code c =? 93) = false.
Proof.
  destruct j as [| [] | lit | s | elems | members]; intros Hj;
    try (now eexists _, _; split; [reflexivity|now vm_compute]).
  cbn [integers_only] in Hj. cbn [encode].
  destruct (integer_literal_cases lit Hj) as [-> | (neg & c & d & -> & Hc & _)].
  - now eexists _, _; split; [reflexivity|now vm_compute].
  - destruct neg; [now eexists _, _; split; [reflexivity|now vm_compute]|].
    eexists _, _; split; [reflexivity|].
    now destruct (nonzero_digit_cases c Hc) as (_ & _ & -> & -> & _).
Qed.

Lemma join_comma_cons p q ps : join_comma (p :: q :: ps) = p +:+ "," +:+ join_comma (q :: ps).
Proof. reflexivity. Qed.

Lemma join_comma_first c s ps tail :
  exists s', join_comma (String c s :: ps) +:+ tail = String c s'.
Proof. destruct ps as [|q ps]; eexists; reflexivity. Qed.

Lemma list_max_cons x l : list_max (x :: l) = Nat.max x (list_max l).
Proof. reflexivity. Qed.

Lemma reads_elements elems :
  elems <> [] -> Forall (fun j => integers_only j = true -> scans j) elems ->
  forallb integers_only elems = true ->
  forall done below tail v rest,
    Z.of_nat (S (length below)) + Z.of_nat (list_max (map depth elems)) <= maxNestingDepth ->
    reads stateEndValue (parseArray (rev (map to_valid_json elems) ++ done) :: below)
          (String "]" tail) v rest ->
    reads stateBeginValue (parseArray done :: below)
          (join_comma (map encode elems) +:+ String "]" tail) v rest.
Proof.
  induction elems as [|x l IH]; [easy|]. intros _ Hall Hplain done below tail v rest Hdepth H.
  apply Forall_cons_1 in Hall as [Hx Hall].
  cbn [forallb] in Hplain. apply andb_true_iff in Hplain as [Hpx Hpl].
  cbn [map] in Hdepth. rewrite list_max_cons in Hdepth.
  destruct l as [|y l].
  - cbn [map join_comma]. apply (Hx Hpx); [reflexivity | reflexivity | cbn [length]; lia |].
    exact H.
  - cbn [map]. rewrite join_comma_cons, !append_assoc, append_cons, append_empty.
    apply (Hx Hpx); [reflexivity | reflexivity | cbn [length]; lia |].
    eapply reads_step; [reflexivity|].
    apply (IH ltac:(easy) Hall Hpl); [lia|].
    assert (rev (map to_valid_json (x :: y :: l)) ++ done
            = rev (map to_valid_json (y :: l)) ++ to_valid_json x :: done) as <-; [|exact H].
    change (rev (map to_valid_json (x :: y :: l)))
      with (rev (map to_valid_json (y :: l)) ++ [to_valid_json x]).
    now rewrite <- app_assoc.
Qed.

Lemma reads_members members :
  members <> [] ->
  Forall (fun kv => integers_only (snd kv) = true -> scans (snd kv)) members ->
  forallb member_integers_only members = true ->
  forall st done below tail v rest,
    st = stateBeginString \/ st = stateBeginStringOrEmpty ->
    Z.of_nat (S (length below)) + Z.of_nat (list_max (map member_depth members))
    <= maxNestingDepth ->
    reads stateEndValue
          (parseObject (rev (map to_valid_member members) ++ done) None :: below)
          (String "}" tail) v rest ->
    reads st (parseObject done None :: below)
          (join_comma (map encode_member members) +:+ String "}" tail) v rest.
Proof.
  induction members as [|[k x] l IH]; [easy|].
  intros _ Hall Hplain st done below tail v rest Hst Hdepth H.
  apply Forall_cons_1 in Hall as [Hx Hall]. cbn [snd] in Hx.
  cbn [forallb member_integers_only] in Hplain.
  apply andb_true_iff in Hplain as [Hpx Hpl].
  cbn [map member_depth] in Hdepth. rewrite list_max_cons in Hdepth.
  destruct l as [|y l].
  - cbn [map join_comma encode_member]. rewrite !append_assoc, append_cons, append_empty.
    apply reads_key; [exact Hst|].
    apply (Hx Hpx); [reflexivity | reflexivity | cbn [length]; lia |].
    exact H.
  - cbn [map]. rewrite join_comma_cons. cbn [encode_member].
    rewrite !append_assoc, append_cons, append_empty.
    rewrite (append_cons "," "" _), append_empty.
    apply reads_key; [exact Hst|].
    apply (Hx Hpx); [reflexivity | reflexivity | cbn [length]; lia |].
    eapply reads_step; [reflexivity|].
    apply (IH ltac:(easy) Hall Hpl); [now left | lia |].
    assert (rev (map to_valid_member ((k, x) :: y :: l)) ++ done
            = rev (map to_valid_member (y :: l)) ++ (to_valid k, to_valid_json x) :: done)
      as <-; [|exact H].
    change (rev (map to_valid_member ((k, x) :: y :: l)))
      with (rev (map to_valid_member (y :: l)) ++ [to_valid_member (k, x)]).
    now rewrite <- app_assoc.
Qed.

Lemma pushParseState_ok c f stack st :
  Z.of_nat (S (length stack)) <= maxNestingDepth ->
  pushParseState c f stack st = scanContinue st (f :: stack).
Proof.
  intros H. unfold pushParseState. cbn [length].
  now destruct (Z.leb_spec (Z.of_nat (S (length stack))) maxNestingDepth); [|lia].
Qed.

(** An array, up to the byte that closes it. *)
Lemma reads_array elems below tail v rest :
  Forall (fun j => integers_only j = true -> scans j) elems ->
  forallb integers_only elems = true ->
  Z.of_nat (length below) + Z.of_nat (depth (JArr elems)) <= maxNestingDepth ->
  reads stateEndValue (parseArray (rev (map to_valid_json elems)) :: below)
        (String "]" tail) v rest ->
  reads stateBeginValue below (encode (JArr elems) +:+ tail) v rest.
Proof.
  intros Hall Hplain Hdepth H. cbn [depth] in Hdepth. cbn [encode].
  rewrite !append_assoc, !append_cons, !append_empty.
  apply reads_step with (st' := stateBeginValueOrEmpty) (stack' := parseArray [] :: below).
  { change (step stateBeginValue below "[")
      with (pushParseState "[" (parseArray []) below stateBeginValueOrEmpty).
    apply pushParseState_ok. lia. }
  destruct elems as [|x l].
  - apply reads_same_step with (st' := stateEndValue) (stack' := parseArray [] :: below);
      [reflexivity | exact H].
  - assert (reads stateBeginValue (parseArray [] :: below)
              (join_comma (map encode (x :: l)) +:+ String "]" tail) v rest) as R.
    { apply reads_elements; [easy | exact Hall | exact Hplain | lia |].
      now rewrite app_nil_r. }
    cbn [forallb] in Hplain. apply andb_true_iff in Hplain as [Hpx _].
    destruct (encode_first x Hpx) as (c & s & Hx & Hspace & Hclose).
    cbn [map] in R |- *. rewrite Hx in R |- *.
    destruct (join_comma_first c s (map encode l) (String "]" tail)) as [s' Hs'].
    rewrite Hs' in R |- *.
    apply reads_same_step with (st' := stateBeginValue) (stack' := parseArray [] :: below);
      [|exact R].
    cbn [step]. now rewrite Hspace, Hclose.
Qed.

(** An object, up to the byte that closes it. *)
Lemma reads_object members below tail v rest :
  Forall (fun kv => integers_only (snd kv) = true -> scans (snd kv)) members ->
  forallb member_integers_only members = true ->
  Z.of_nat (length below) + Z.of_nat (depth (JObj members)) <= maxNestingDepth ->
  reads stateEndValue (parseObject (rev (map to_valid_member members)) None :: below)
        (String "}" tail) v rest ->
  reads stateBeginValue below (encode (JObj members) +:+ tail) v rest.
Proof.
  intros Hall Hplain Hdepth H.
  change (Z.of_nat (length below) + Z.of_nat (S (list_max (map member_depth members)))
          <= maxNestingDepth) in Hdepth.
  change (encode (JObj members)) with ("{" +:+ join_comma (map encode_member members) +:+ "}").
  rewrite !append_assoc, !append_cons, !append_empty.
  apply reads_step with (st' := stateBeginStringOrEmpty)
                        (stack' := parseObject [] None :: below).
  { change (step stateBeginValue below "{")
      with (pushParseState "{" (parseObject [] None) below stateBeginStringOrEmpty).
    apply pushParseState_ok. lia. }
  destruct members as [|kv l].
  - apply reads_same_step with (st' := stateEndValue) (stack' := parseObject [] None :: below);
      [reflexivity | exact H].
  - apply reads_members; [easy | exact Hall | exact Hplain | now right | lia |].
    now rewrite app_nil_r.
Qed.

(** Every value whose numbers are integer literals is scanned back, at any
    place inside a container the nesting limit allows. *)
Lemma integers_only_scans j : integers_only j = true -> scans j.
Proof.
  induction j as [| b | lit | s | elems IH | members IH] using json_induction;
    intros Hplain stack c tail v rest Hstack Hc Hdepth H.
  - now apply reads_null.
  - now apply reads_bool.
  - now apply reads_number.
  - now apply reads_string_value.
  - apply reads_array; [exact IH | exact Hplain | exact Hdepth |].
    eapply reads_step; [|exact H].
    change (step stateEndValue (parseArray (rev (map to_valid_json elems)) :: stack) "]")
      with (endOfValue (JArr (rev (rev (map to_valid_json elems)))) true stack).
    rewrite rev_involutive. now apply endOfValue_push.
  - apply reads_object; [exact IH | exact Hplain | exact Hdepth |].
    eapply reads_step; [|exact H].
    change (step stateEndValue (parseObject (rev (map to_valid_member members)) None :: stack)
                 "}")
      with (endOfValue (JObj (rev (rev (map to_valid_member members)))) true stack).
    rewrite rev_involutive. now apply endOfValue_push.
Qed.

(** The bytes of an object, read from the start of the input. *)
Lemma reads_top_object members rest :
  integers_only (JObj members) = true ->
  Z.of_nat (depth (JObj members)) <= maxNestingDepth ->
  reads stateBeginValue [] (encode (JObj members) +:+ rest)
        (to_valid_json (JObj members)) rest.
Proof.
  intros Hplain Hdepth.
  apply reads_object; [|exact Hplain|cbn [length]; lia|].
  - apply Forall_forall. intros x _. apply integers_only_scans.
  - apply reads_end.
    change (step stateEndValue [parseObject (rev (map to_valid_member members)) None] "}")
      with (endOfValue (JObj (rev (rev (map to_valid_member members)))) true []).
    now rewrite rev_involutive.
Qed.


(** *** The trees of the request and of the response *)

(** The decimal form of a positive number starts with a digit that is not
    zero. *)
Lemma pretty_N_go_first n : (0 < n)%N -> forall s,
  exists c d, pretty_N_go n s = String c d /\ (49 <=? code c) && (code c <=? 57) = true.
Proof.
  induction (N.lt_wf_0 n) as [n _ IH]. intros Hpos s.
  rewrite (pretty_N_go_step n s Hpos).
  destruct (N.eq_dec (n `div` 10)%N 0%N) as [Hdiv|Hdiv].
  - rewrite Hdiv, pretty_N_go_0. eexists _, _. split; [reflexivity|].
    assert (n < 10)%N as Hlt by (apply N.div_small_iff in Hdiv; lia).
    rewrite (N.mod_small n 10 Hlt).
    destruct (pretty_N_char_digit n Hlt) as [Hdigit Hcode].
    unfold isDigit in Hdigit. apply andb_true_iff in Hdigit as [_ Hle].
    rewrite Hle, andb_true_r. apply Z.leb_le. lia.
  - apply IH; [apply N.div_lt; [lia | reflexivity] | now apply N.neq_0_lt_0].
Qed.

Lemma pretty_positive_literal p : positive_literal (pretty_N_go (N.pos p) "") = true.
Proof.
  destruct (pretty_N_go_first (N.pos p) eq_refl "") as (c & d & Heq & Hc).
  destruct (digits_value_pretty (N.pos p) eq_refl) as (d' & Heq' & _ & Hd & _).
  rewrite Heq in Heq'. subst d'. rewrite Heq. cbn [positive_literal]. rewrite Hc.
  unfold all_digits in *. cbn [list_ascii_of_string forallb] in Hd.
  now apply andb_true_iff in Hd as [_ ->].
Qed.

(** [strconv.Itoa] writes integer literals. *)
Lemma integer_literal_Itoa z : integer_literal (strconv_Itoa z) = true.
Proof.
  unfold strconv_Itoa, integer_literal. destruct z as [|p|p].
  - reflexivity.
  - unfold pretty, pretty_Z, pretty, pretty_positive, pretty, pretty_N.
    destruct (decide (N.pos p = 0%N)) as [|_]; [discriminate|].
    rewrite pretty_positive_literal. now rewrite orb_true_r.
  - unfold pretty, pretty_Z, pretty, pretty_positive, pretty, pretty_N.
    destruct (decide (N.pos p = 0%N)) as [|_]; [discriminate|].
    rewrite append_cons, append_empty. rewrite pretty_positive_literal. apply orb_true_r.
Qed.

Lemma fits_mono n m j : fits n j -> (n <= m)%nat -> fits m j.
Proof. intros [Hi Hd] Hle. split; [exact Hi | lia]. Qed.

Lemma members_fit_mono n m members :
  members_fit n members -> (n <= m)%nat -> members_fit m members.
Proof. intros H Hle. induction H; constructor; eauto using fits_mono. Qed.

Lemma members_fit_app n a b :
  members_fit n a -> members_fit n b -> members_fit n (a ++ b).
Proof. intros Ha Hb. induction Ha; [exact Hb | now constructor]. Qed.

Lemma fits_JObj n members : members_fit n members -> fits (S n) (JObj members).
Proof.
  intros H. unfold fits.
  change (integers_only (JObj members)) with (forallb member_integers_only members).
  change (depth (JObj members)) with (S (list_max (map member_depth members))).
  induction H as [|[k v] l [Hi Hd] _ [IHi IHd]]; [split; [reflexivity | cbn; lia]|].
  cbn [forallb member_integers_only map member_depth snd] in *.
  rewrite list_max_cons. rewrite Hi, IHi. split; [reflexivity | lia].
Qed.

Lemma fits_JArr n elems : Forall (fits n) elems -> fits (S n) (JArr elems).
Proof.
  intros H. unfold fits. cbn [integers_only depth].
  induction H as [|j l [Hi Hd] _ [IHi IHd]]; [split; [reflexivity | cbn; lia]|].
  cbn [forallb map]. rewrite list_max_cons. rewrite Hi, IHi. split; [reflexivity | lia].
Qed.

Lemma fits_JStr n s : fits n (JStr s).
Proof. split; [reflexivity | cbn; lia]. Qed.

Lemma fits_marshal_int n z : fits n (marshal_int z).
Proof. split; [apply integer_literal_Itoa | cbn; lia]. Qed.

Lemma members_fit_field_string n name v : members_fit n (field_string name v).
Proof. repeat constructor. cbn; lia. Qed.

Lemma members_fit_field_int n name v : members_fit n (field_int name v).
Proof. constructor; [apply fits_marshal_int | constructor]. Qed.

Lemma members_fit_omitempty_int n name v : members_fit n (omitempty_int name v).
Proof.
  unfold omitempty_int. destruct (v =? 0); [constructor|].
  constructor; [apply fits_marshal_int | constructor].
Qed.

Lemma members_fit_omitempty_bool n name v : members_fit n (omitempty_bool name v).
Proof. destruct v; repeat constructor. cbn; lia. Qed.

Lemma members_fit_omitempty_string n name v : members_fit n (omitempty_string name v).
Proof.
  unfold omitempty_string. destruct (_ =? _)%nat; repeat constructor. cbn; lia.
Qed.

Lemma fits_marshal_map m : fits 1 (marshal_map m).
Proof.
  unfold marshal_map. apply fits_JObj.
  induction (merge_sort key_le (map_to_list m)) as [|kv l IH]; constructor;
    [apply fits_JStr | exact IH].
Qed.

Lemma members_fit_omitempty_map name m : members_fit 1 (omitempty_map name m).
Proof.
  unfold omitempty_map. destruct (_ =? _)%nat; [constructor|].
  constructor; [apply fits_marshal_map | constructor].
Qed.

Lemma members_fit_omitempty_ptr {A} n name (enc : A -> res json) p l :
  (forall a j, enc a = Ok j -> fits n j) ->
  omitempty_ptr name enc p = Ok l -> members_fit n l.
Proof.
  intros Henc H. apply omitempty_ptr_inv in H. destruct p as [a|].
  - destruct H as (j & Hj & ->). constructor; [exact (Henc a j Hj) | constructor].
  - subst l. constructor.
Qed.

Ltac fit_members :=
  repeat first
    [ apply List.Forall_nil | apply List.Forall_cons | apply members_fit_app
    | progress cbn [snd]
    | apply fits_JStr | apply fits_marshal_int
    | apply members_fit_field_string | apply members_fit_field_int
    | apply members_fit_omitempty_int | apply members_fit_omitempty_bool
    | apply members_fit_omitempty_string | apply members_fit_omitempty_map ].

Lemma fits_marshal_Time t j : marshal_Time t = Ok j -> fits 0 j.
Proof.
  unfold marshal_Time, time.MarshalJSON. destruct (time.appendStrictRFC3339 t); [|discriminate].
  intros [= <-]. apply fits_JStr.
Qed.

Lemma fits_marshal_OriginatorSettings o j : marshal_OriginatorSettings o = Ok j -> fits 1 j.
Proof. intros [= <-]. apply fits_JObj. fit_members. Qed.

Lemma fits_marshal_GasSettings g j : marshal_GasSettings g = Ok j -> fits 1 j.
Proof. intros [= <-]. apply fits_JObj. fit_members. Qed.

Lemma fits_marshal_SendWindow w j : marshal_SendWindow w = Ok j -> fits 1 j.
Proof.
  unfold marshal_SendWindow. intros H. res_inv H. apply fits_JObj. fit_members;
    eauto using members_fit_omitempty_ptr, fits_marshal_Time.
Qed.

Lemma fits_marshal_Settings s j : marshal_Settings s = Ok j -> fits 2 j.
Proof.
  intros H. apply marshal_Settings_members in H as (o & g & w & Ho & Hg & Hw & ->).
  apply fits_JObj. fit_members.
  - exact (members_fit_omitempty_ptr 1 _ _ _ _ fits_marshal_OriginatorSettings Ho).
  - exact (members_fit_omitempty_ptr 1 _ _ _ _ fits_marshal_GasSettings Hg).
  - exact (members_fit_omitempty_ptr 1 _ _ _ _ fits_marshal_SendWindow Hw).
Qed.

Lemma fits_marshal_Message m j : marshal_Message m = Ok j -> fits 3 j.
Proof.
  unfold marshal_Message. intros H. res_inv H. apply fits_JObj. fit_members.
  exact (members_fit_omitempty_ptr 2 _ _ _ _ fits_marshal_Settings Hl).
Qed.

Lemma fits_marshal_smsGatewayRequest r j :
  marshal_smsGatewayRequest r = Ok j ->
  exists members, j = JObj members /\ fits 5 j.
Proof.
  unfold marshal_smsGatewayRequest. intros H. res_inv H. eexists. split; [reflexivity|].
  apply fits_JObj. fit_members.
  unfold marshal_Messages in Hl. destruct (smsGatewayRequest.Messages r) as [ms|].
  - apply res_bind_Ok in Hl as (js & Hjs & [= <-]). apply fits_JArr.
    apply res_mapM_Forall2 in Hjs.
    induction Hjs as [|m j' ms' js' Hm _ IH]; constructor; eauto using fits_marshal_Message.
  - injection Hl as <-. split; [reflexivity | cbn; lia].
Qed.

(** The bytes of an array, read from the start of the input. *)
Lemma reads_top_array elems rest :
  integers_only (JArr elems) = true ->
  Z.of_nat (depth (JArr elems)) <= maxNestingDepth ->
  reads stateBeginValue [] (encode (JArr elems) +:+ rest) (to_valid_json (JArr elems)) rest.
Proof.
  intros Hplain Hdepth.
  apply reads_array; [|exact Hplain|cbn [length]; lia|].
  - apply Forall_forall. intros x _. apply integers_only_scans.
  - apply reads_end.
    change (step stateEndValue [parseArray (rev (map to_valid_json elems))] "]")
      with (endOfValue (JArr (rev (rev (map to_valid_json elems)))) true []).
    now rewrite rev_involutive.
Qed.

(** On a tree all of whose strings and keys are well-formed UTF-8 the
    coercion changes nothing. *)
Lemma to_valid_json_id j : valid_json j = true -> to_valid_json j = j.
Proof.
  induction j as [| b | lit | s | elems IH | members IH] using json_induction;
    intros Hvalid; try reflexivity.
  - cbn [to_valid_json valid_json] in *. now rewrite to_valid_ValidString.
  - cbn [to_valid_json valid_json] in *. f_equal.
    induction elems as [|x l IHl]; [reflexivity|].
    apply Forall_cons_1 in IH as [Hx Hl]. cbn [forallb] in Hvalid.
    apply andb_true_iff in Hvalid as [Hvx Hvl].
    cbn [map]. now rewrite (Hx Hvx), (IHl Hl Hvl).
  - cbn [to_valid_json valid_json] in *. f_equal.
    induction members as [|[k x] l IHl]; [reflexivity|].
    apply Forall_cons_1 in IH as [Hx Hl]. cbn [forallb] in Hvalid.
    apply andb_true_iff in Hvalid as [[Hk Hvx]%andb_true_iff Hvl].
    cbn [map snd] in *. now rewrite (to_valid_ValidString k Hk), (Hx Hvx), (IHl Hl Hvl).
Qed.

(** X19. The scanner reads what the encoder writes.  From the bytes
    [json.Marshal] writes for an array or object whose numbers are integer
    literals and which nests no deeper than the decoder allows, the decoder
    reads that tree, every escape undone, with U+FFFD in the place of every
    byte of a string that was not part of a well-formed rune, and leaves
    unread whatever follows the closing bracket. *)
Theorem readValue_encode (j : json) (rest : string) (nonSpace : bool) :
  is_container j = true -> integers_only j = true ->
  Z.of_nat (depth j) <= maxNestingDepth ->
  readValue stateBeginValue [] nonSpace (encode j +:+ rest) = valueRead (to_valid_json j) rest.
Proof.
  intros Hcontainer Hplain Hdepth. revert nonSpace.
  destruct j as [| b | lit | s | elems | members]; try discriminate Hcontainer.
  - now apply reads_top_array.
  - now apply reads_top_object.
Qed.

(** X20. Well-formed strings come back byte for byte.  When, moreover, every
    string and key of the tree is well-formed UTF-8, the decoder reads from
    the bytes of the tree exactly the tree: every escape the encoder wrote is
    undone, and [utf8.EncodeRune] writes the bytes [utf8.DecodeRune] took
    each rune from. *)
Theorem valid_strings_come_back (j : json) (rest : string) (nonSpace : bool) :
  is_container j = true -> integers_only j = true -> valid_json j = true ->
  Z.of_nat (depth j) <= maxNestingDepth ->
  readValue stateBeginValue [] nonSpace (encode j +:+ rest) = valueRead j rest.
Proof.
  intros Hcontainer Hplain Hvalid Hdepth.
  replace (valueRead j rest) with (valueRead (to_valid_json j) rest)
    by now rewrite (to_valid_json_id j Hvalid).
  revert nonSpace.
  destruct j as [| b | lit | s | elems | members]; try discriminate Hcontainer.
  - now apply reads_top_array.
  - now apply reads_top_object.
Qed.

(** *** [Send], from bytes to bytes *)

Lemma fits_marshal_MessageStatus s : fits 1 (marshal_MessageStatus s).
Proof. apply fits_JObj. unfold marshal_MessageStatus. fit_members. Qed.

Lemma fits_marshal_SmsGatewayResponse r : fits 3 (marshal_SmsGatewayResponse r).
Proof.
  unfold marshal_SmsGatewayResponse. apply fits_JObj. fit_members.
  destruct (SmsGatewayResponse.MessageStatus r) as [l|].
  - apply fits_JArr. induction l; constructor; auto using fits_marshal_MessageStatus.
  - split; [reflexivity | cbn; lia].
Qed.

Lemma valid_marshal_MessageStatus s :
  valid_status s = true -> valid_json (marshal_MessageStatus s) = true.
Proof.
  unfold valid_status. intros H. repeat (apply andb_true_iff in H as [H ?]).
  unfold marshal_MessageStatus, marshal_int. cbn [valid_json forallb].
  repeat (apply andb_true_iff; split); try assumption; reflexivity.
Qed.

Lemma valid_marshal_SmsGatewayResponse r :
  valid_response r = true -> valid_json (marshal_SmsGatewayResponse r) = true.
Proof.
  unfold valid_response, marshal_SmsGatewayResponse. intros [Hbatch Hs]%andb_true_iff.
  cbn [valid_json forallb]. rewrite Hbatch.
  destruct (SmsGatewayResponse.MessageStatus r) as [l|]; [|reflexivity].
  cbn [default] in Hs. cbn [valid_json].
  assert (forallb valid_json (map marshal_MessageStatus l) = true) as ->; [|reflexivity].
  induction l as [|s l IH]; [reflexivity|]. cbn [forallb map] in *.
  apply andb_true_iff in Hs as [Hs Hl].
  now rewrite (valid_marshal_MessageStatus s Hs), (IH Hl).
Qed.

(** The decoder on a body that starts with the bytes of a response. *)
Lemma Decode_encode_SmsGatewayResponse r v rest :
  Decode (encode (marshal_SmsGatewayResponse r) +:+ rest) v
  = decode_SmsGatewayResponse (to_valid_json (marshal_SmsGatewayResponse r)) v None.
Proof.
  destruct (fits_marshal_SmsGatewayResponse r) as [Hi Hd]. unfold Decode.
  unfold marshal_SmsGatewayResponse in *.
  rewrite reads_top_object; [reflexivity | exact Hi | unfold maxNestingDepth; lia].
Qed.

(** *** What travels on the wire *)

Lemma wire_safe_cons c s : wire_safe (String c s) = wire_char c && wire_safe s.
Proof. reflexivity. Qed.

Lemma wire_safe_appendString s : wire_safe (appendString s) = true.
Proof.
  unfold appendString. rewrite append_cons, wire_safe_cons, wire_safe_app.
  now rewrite wire_safe_appendString_go.
Qed.

Lemma wire_char_digit c : isDigit c = true -> wire_char c = true.
Proof.
  unfold isDigit, wire_char. intros [Hlow Hhigh]%andb_true_iff.
  apply Z.leb_le in Hlow, Hhigh.
  destruct (Z.leb_spec 32 (code c)); [|lia].
  destruct (Z.eqb_spec (code c) 38); [lia|]. destruct (Z.eqb_spec (code c) 60); [lia|].
  now destruct (Z.eqb_spec (code c) 62); [lia|].
Qed.

Lemma wire_safe_digits d : all_digits d = true -> wire_safe d = true.
Proof.
  induction d as [|c d IH]; [reflexivity|]. intros [Hc Hd]%all_digits_cons.
  now rewrite wire_safe_cons, (wire_char_digit c Hc), (IH Hd).
Qed.

Lemma wire_safe_integer_literal lit : integer_literal lit = true -> wire_safe lit = true.
Proof.
  intros H. destruct (integer_literal_cases lit H) as [-> | (neg & c & d & -> & Hc & Hd)];
    [reflexivity|].
  destruct (nonzero_digit_cases c Hc) as (_ & Hdigit & _).
  destruct neg; rewrite !wire_safe_cons, (wire_char_digit c Hdigit), (wire_safe_digits d Hd);
    reflexivity.
Qed.

Lemma wire_safe_join_comma parts :
  Forall (fun p => wire_safe p = true) parts -> wire_safe (join_comma parts) = true.
Proof.
  induction 1 as [|p ps Hp Hps IH]; [reflexivity|].
  destruct ps as [|q ps]; [exact Hp|].
  now rewrite join_comma_cons, !wire_safe_app, Hp, IH.
Qed.

(** No byte [json.Marshal] writes for a tree is a control character or one
    of [<], [>] and [&]. *)
Lemma wire_safe_encode j : integers_only j = true -> wire_safe (encode j) = true.
Proof.
  induction j as [| b | lit | s | elems IH | members IH] using json_induction; intros Hj.
  - reflexivity.
  - now destruct b.
  - now apply wire_safe_integer_literal.
  - apply wire_safe_appendString.
  - cbn [encode]. rewrite !wire_safe_app.
    rewrite wire_safe_join_comma; [reflexivity|].
    cbn [integers_only] in Hj. induction elems as [|x l IHl]; [constructor|].
    apply Forall_cons_1 in IH as [Hx Hl]. cbn [forallb] in Hj.
    apply andb_true_iff in Hj as [Hjx Hjl]. constructor; auto.
  - change (encode (JObj members))
      with ("{" +:+ join_comma (map encode_member members) +:+ "}").
    rewrite !wire_safe_app. rewrite wire_safe_join_comma; [reflexivity|].
    change (forallb member_integers_only members = true) in Hj.
    induction members as [|[k x] l IHl]; [constructor|].
    apply Forall_cons_1 in IH as [Hx Hl]. cbn [forallb member_integers_only snd] in *.
    apply andb_true_iff in Hj as [Hjx Hjl]. constructor; auto.
    cbn [encode_member]. now rewrite !wire_safe_app, wire_safe_appendString, (Hx Hjx).
Qed.

(** *** The parameters, as they are written *)

#[local] Instance key_le_total : Total key_le.
Proof. intros a b. unfold key_le. apply String.leb_total. Qed.

Lemma keys_parameters (l : list (string * string)) :
  keys (map (fun kv => (fst kv, JStr (to_valid (snd kv)))) l) = l.*1.
Proof. induction l as [|[k v] l IH]; [reflexivity|]. cbn. now rewrite <- IH. Qed.

(** What the decoder reads from the members written for the entries [l],
    when their keys are well-formed. *)
Lemma to_valid_parameters (l : list (string * string)) :
  forallb (fun kv => utf8_ValidString (fst kv)) l = true ->
  map to_valid_member (map (fun kv => (fst kv, JStr (snd kv))) l)
  = map (fun kv => (fst kv, JStr (to_valid (snd kv)))) l.
Proof.
  induction l as [|[k v] l IH]; [reflexivity|]. cbn [forallb map fst snd].
  intros [Hk Hl]%andb_true_iff.
  cbn [to_valid_member to_valid_json]. now rewrite (to_valid_ValidString k Hk), (IH Hl).
Qed.

Lemma forallb_Permutation {A} (f : A -> bool) (l l' : list A) :
  l ≡ₚ l' -> forallb f l = forallb f l'.
Proof.
  induction 1 as [|x l l' _ IH|x y l|l l' l'' _ IH _ IH']; cbn [forallb].
  - reflexivity.
  - now rewrite IH.
  - now rewrite !andb_assoc, (andb_comm (f y)).
  - now rewrite IH.
Qed.

(** X12. The parameters on the wire.  For a map whose keys are well-formed
    UTF-8, the bytes [json.Marshal] writes for it are one object from which
    a decoder reads, for every entry of the map, one member with its key and
    its value as a string, and no other member; no key comes twice, and the
    keys come in increasing byte order.  (Keys that are not well-formed are
    all written as U+FFFD, and so alike.) *)
Theorem parameters_are_written_once_in_key_order (m : gmap string string) (rest : string) :
  keys_well_formed m = true ->
  exists members,
    (forall nonSpace,
       readValue stateBeginValue [] nonSpace (encode (marshal_map m) +:+ rest)
       = valueRead (JObj members) rest)
    /\ (forall k j, (k, j) ∈ members <-> exists v, m !! k = Some v /\ j = JStr (to_valid v))
    /\ NoDup (keys members)
    /\ Sorted (fun a b => String.leb a b = true) (keys members).
Proof.
  unfold keys_well_formed. intros Hkeys.
  rewrite (forallb_Permutation _ _ _ (symmetry (merge_sort_Permutation key_le (map_to_list m))))
    in Hkeys.
  destruct (fits_marshal_map m) as [Hi Hd].
  exists (map (fun kv => (fst kv, JStr (to_valid (snd kv))))
              (merge_sort key_le (map_to_list m))).
  split; [|split; [|split]].
  - unfold marshal_map in *. rewrite <- (to_valid_parameters _ Hkeys).
    apply reads_top_object; [exact Hi | unfold maxNestingDepth; lia].
  - intros k j. change (map ?f ?l) with (f <$> l). rewrite list_elem_of_fmap. split.
    + intros ([k' v] & [= -> ->] & H). exists v. split; [|reflexivity].
      rewrite merge_sort_Permutation in H. now apply elem_of_map_to_list in H.
    + intros (v & Hv & ->). exists (k, v). split; [reflexivity|].
      rewrite merge_sort_Permutation. now apply elem_of_map_to_list.
  - rewrite keys_parameters, merge_sort_Permutation. apply NoDup_fst_map_to_list.
  - rewrite keys_parameters. apply Sorted_fmap with (R1 := key_le); [now intros a b|].
    apply Sorted_merge_sort. apply _.
Qed.

(** Two keys that are not well-formed: both are written as U+FFFD, and the
    object on the wire names the same key twice. *)
Example ill_formed_keys_are_written_alike :
  readValue stateBeginValue [] false (encode (marshal_map ill_formed_parameters))
  = valueRead (JObj [(utf8_EncodeRune RuneError, JStr "b");
                     (utf8_EncodeRune RuneError, JStr "a")]) "".
Proof. vm_compute. reflexivity. Qed.

Section Bytes.

Variable url_ok : string -> bool.

(** The body of a request [Send] issues is what [json.Marshal] wrote for the
    envelope. *)
Lemma issued_body client messages request :
  In request (issued (Send url_ok client messages)) ->
  exists members,
    marshal_smsGatewayRequest (envelope client messages) = Ok (JObj members)
    /\ fits 5 (JObj members)
    /\ Request.Body request = encode (JObj members).
Proof.
  intros Hin.
  destruct (json_Marshal (envelope client messages)) as [buffer|err] eqn:Hm;
    [|rewrite (Send_marshal_error _ _ _ _ Hm) in Hin; destruct Hin].
  assert (request = post (sendMessages_url client) buffer) as ->.
  { destruct (url_ok (sendMessages_url client)) eqn:Hurl;
      [|rewrite (Send_bad_url _ _ _ _ Hm Hurl) in Hin; destruct Hin].
    rewrite (Send_after_marshal _ _ _ _ Hm Hurl) in Hin. cbn zeta in Hin.
    destruct (Client_Do _ _) as [[[response|] [err|]]|msg]; cbn [issued In] in Hin;
      try (now destruct Hin as [<-|[]]); try (now destruct Hin).
    destruct (_ =? _); [|now destruct Hin as [<-|[]]].
    destruct (Decode _ _) as [r [e|]]; now destruct Hin as [<-|[]]. }
  cbn [post Request.Body]. unfold json_Marshal in Hm.
  apply res_bind_Ok in Hm as (j & Hj & [= <-]).
  destruct (fits_marshal_smsGatewayRequest _ _ Hj) as (members & -> & Hfits). eauto.
Qed.

(** X21. [Send] hands back what the gateway wrote.  When the transport
    answers the POST with status 200 and a body that starts with the bytes
    [json.Marshal] writes for a response [r] whose strings are well-formed
    UTF-8 and whose numbers are 64-bit, [Send] issues the one POST and
    returns [r] itself with a [nil] error, whatever follows those bytes in
    the body: every field comes back under the name it went out, and every
    character the encoder escaped comes back as it was. *)
Theorem Send_returns_what_the_gateway_wrote client messages buffer
        (r : SmsGatewayResponse.t) (rest : string) :
  json_Marshal (envelope client messages) = Ok buffer ->
  url_ok (sendMessages_url client) = true ->
  valid_response r = true -> SmsGatewayResponse_in_range r = true ->
  Client_Do (SmsGatewayClient.httpClient client) (post (sendMessages_url client) buffer)
  = value (Some (Response.Make 200 (encode (marshal_SmsGatewayResponse r) +:+ rest)), None) ->
  Send url_ok client messages = Run [post (sendMessages_url client) buffer] (value (r, None)).
Proof.
  intros Hm Hurl Hvalid Hrange Hdo.
  rewrite (Send_after_marshal _ _ _ _ Hm Hurl). cbn zeta. rewrite Hdo.
  cbn [Response.StatusCode Response.Body Z.eqb Pos.eqb].
  rewrite (Decode_encode_SmsGatewayResponse r _ rest).
  rewrite (to_valid_json_id _ (valid_marshal_SmsGatewayResponse r Hvalid)).
  replace (decode_SmsGatewayResponse (marshal_SmsGatewayResponse r) SmsGatewayResponse.zero None)
    with (r, @None error); [reflexivity|].
  unfold SmsGatewayResponse_in_range in Hrange. destruct r as [batch statuses].
  cbn [SmsGatewayResponse.MessageStatus] in Hrange.
  unfold decode_SmsGatewayResponse, marshal_SmsGatewayResponse.
  cbn [fold_left SmsGatewayResponse.BatchReference SmsGatewayResponse.MessageStatus].
  unfold decode_SmsGatewayResponse_member.
  change (match_field SmsGatewayResponse_fields "batchReference") with (Some "batchReference").
  change (match_field SmsGatewayResponse_fields "messageStatus") with (Some "messageStatus").
  cbv beta iota zeta.
  cbn [decode_string SmsGatewayResponse.BatchReference SmsGatewayResponse.MessageStatus].
  cbv beta iota zeta.
  match goal with
  | |- context [decode_slice _ ?v [] None] =>
    now destruct (decode_slice_marshal statuses v [] None Hrange) as [spare' ->]
  end.
Qed.

(** X22. Whatever the batch, the body of a request [Send] issues is one
    JSON text and nothing else: the decoder reads from it the tree
    [json.Marshal] built for the envelope, with U+FFFD in the place of every
    byte of a string that was not part of a well-formed rune, and reaches the
    end of the body with it.  No string of a message, ill-formed or full of
    quotes, and no number can make [Send] post a body that is not JSON. *)
Theorem Send_posts_one_JSON_text client messages request :
  In request (issued (Send url_ok client messages)) ->
  is_JSON_text (Request.Body request) = true
  /\ exists j,
       marshal_smsGatewayRequest (envelope client messages) = Ok j
       /\ forall nonSpace,
            readValue stateBeginValue [] nonSpace (Request.Body request)
            = valueRead (to_valid_json j) "".
Proof.
  intros Hin. destruct (issued_body _ _ _ Hin) as (members & Hj & [Hi Hd] & ->).
  assert (reads stateBeginValue [] (encode (JObj members)) (to_valid_json (JObj members)) "")
    as R.
  { rewrite <- (append_nil (encode (JObj members))).
    apply reads_top_object; [exact Hi | unfold maxNestingDepth; lia]. }
  split.
  - unfold is_JSON_text. now rewrite (R false).
  - exists (JObj members). split; [exact Hj | exact R].
Qed.

(** X25. Whatever the batch, no byte of the body of a request [Send]
    issues is a control character or one of [<], [>] and [&]:
    [json.Marshal] escapes them inside strings (the [<] of a message content
    travels as [\u003c], a line feed as [\n]) and writes none outside. *)
Theorem Send_posts_no_raw_markup client messages request :
  In request (issued (Send url_ok client messages)) ->
  wire_safe (Request.Body request) = true.
Proof.
  intros Hin. destruct (issued_body _ _ _ Hin) as (members & _ & [Hi _] & ->).
  now apply wire_safe_encode.
Qed.

End Bytes.

(** ** Instances *)

Lemma readValue_encode_witness :
  readValue stateBeginValue [] false (encode stray_example +:+ " tail")
  = valueRead (JArr [JStr ("caf" +:+ utf8_EncodeRune RuneError)]) " tail".
Proof.
  apply (readValue_encode stray_example " tail" false);
    [reflexivity | reflexivity | now vm_compute].
Defined.

Lemma valid_strings_come_back_witness :
  readValue stateBeginValue [] false (encode escaped_example +:+ " tail")
  = valueRead escaped_example " tail".
Proof.
  apply (valid_strings_come_back escaped_example " tail" false);
    [reflexivity | reflexivity | now vm_compute | now vm_compute].
Defined.

Lemma Send_returns_what_the_gateway_wrote_witness :
  Send all_urls escaped_client (Some [Message.zero])
  = Run [post "https://www.dummy-address.com/sendMessages" (encode zero_batch_json)]
        (value (escaped_response, None)).
Proof.
  apply (Send_returns_what_the_gateway_wrote all_urls escaped_client (Some [Message.zero])
           (encode zero_batch_json) escaped_response (String "010" ""));
    vm_compute; reflexivity.
Defined.

Lemma parameters_are_written_once_in_key_order_witness :
  exists members,
    (forall nonSpace,
       readValue stateBeginValue [] nonSpace (encode (marshal_map parameters_example) +:+ "")
       = valueRead (JObj members) "")
    /\ (forall k j, (k, j) ∈ members
                    <-> exists v, parameters_example !! k = Some v /\ j = JStr (to_valid v))
    /\ NoDup (keys members)
    /\ Sorted (fun a b => String.leb a b = true) (keys members).
Proof.
  apply (parameters_are_written_once_in_key_order parameters_example "").
  vm_compute. reflexivity.
Defined.

Lemma Send_posts_no_raw_markup_witness : wire_safe (Request.Body accented_request) = true.
Proof.
  apply (Send_posts_no_raw_markup all_urls ok_client (Some [accented_message])
           accented_request).
  vm_compute. left. reflexivity.
Defined.

Lemma Send_posts_one_JSON_text_witness :
  is_JSON_text (Request.Body accented_request) = true
  /\ exists j,
       marshal_smsGatewayRequest (envelope ok_client (Some [accented_message])) = Ok j
       /\ forall nonSpace,
            readValue stateBeginValue [] nonSpace (Request.Body accented_request)
            = valueRead (to_valid_json j) "".
Proof.
  apply (Send_posts_one_JSON_text all_urls ok_client (Some [accented_message])
           accented_request).
  vm_compute. left. reflexivity.
Defined.

(** ** Bodies that are not a JSON text *)

Lemma stepNum_top k lit c st' stack' :
  stepNum k lit [] c = scanContinue st' stack' ->
  stack' = [] /\ exists k' lit', st' = stateNum k' lit'.
Proof.
  unfold stepNum, endOfNumber. cbn [endOfValue].
  destruct k;
    repeat match goal with |- context [if ?b then _ else _] => destruct b end;
    intros [= <- <-]; eauto.
Qed.

(** A number at top level is read as a number. *)
Lemma readValue_top_number buf : forall k lit nonSpace v rest,
  readValue (stateNum k lit) [] nonSpace buf = valueRead v rest -> exists l, v = JNum l.
Proof.
  induction buf as [|c buf IH]; intros k lit nonSpace v rest H.
  - cbn in H. destruct (numComplete k); [|discriminate]. injection H as <- _. eauto.
  - cbn [readValue step] in H.
    destruct (stepNum k lit [] c) as [st' stack'|v' consumed|e] eqn:E; [| |discriminate].
    + apply stepNum_top in E as (-> & k' & lit' & ->). eauto.
    + injection H as <- _. unfold stepNum, endOfNumber in E. cbn [endOfValue] in E.
      destruct k;
        repeat match type of E with context [if ?b then _ else _] => destruct b end;
        injection E as <- _ || discriminate E; eauto.
Qed.

(** The input cut before the byte that ends the value: the decoder runs out
    of input. *)
Lemma readValue_truncated p : forall st stack nonSpace q v,
  q <> "" -> (forall l, v <> JNum l) ->
  readValue st stack nonSpace (p +:+ q) = valueRead v "" ->
  readValue st stack nonSpace p
  = readFailed (if nonSpace || has_nonSpace p then io_ErrUnexpectedEOF else io_EOF).
Proof.
  induction p as [|c p IH]; intros st stack nonSpace q v Hq Hnum H.
  - rewrite append_empty in H. cbn [readValue has_nonSpace list_ascii_of_string existsb].
    rewrite orb_false_r.
    destruct st; try reflexivity. destruct stack; [|reflexivity].
    apply readValue_top_number in H as [l ->]. now destruct (Hnum l).
  - rewrite append_cons in H. cbn [readValue] in H |- *.
    destruct (step st stack c) as [st' stack'|v' consumed|e]; [| |discriminate].
    + rewrite (IH _ _ _ q v Hq Hnum H).
      unfold has_nonSpace. cbn [list_ascii_of_string existsb]. now rewrite orb_assoc.
    + injection H as _ H. destruct consumed.
      * destruct p; [now destruct q|discriminate].
      * discriminate.
Qed.

Lemma readValue_not_a_value blanks c rest :
  is_blank blanks = true -> isSpace c = false -> begins_value c = false ->
  forall nonSpace,
    readValue stateBeginValue [] nonSpace (blanks +:+ String c rest)
    = readFailed (SyntaxError c "looking for beginning of value").
Proof.
  unfold is_blank, begins_value. intros Hblank Hc Hbegin.
  repeat (apply orb_false_iff in Hbegin as [Hbegin ?]).
  assert (~ 48 <= code c <= 57) as Hdigit.
  { intros [Hlow Hhigh]. apply Z.leb_le in Hlow, Hhigh.
    rewrite Hlow, Hhigh in *. discriminate. }
  induction blanks as [|b blanks IH]; intros nonSpace.
  - rewrite append_empty. cbn [readValue step]. unfold beginValue. rewrite Hc.
    repeat match goal with
           | H : ?b = false |- context [?b] => rewrite H
           end.
    destruct (Z.eqb_spec (code c) 48); [lia|].
    now destruct (Z.leb_spec 49 (code c)), (Z.leb_spec (code c) 57); try lia.
  - cbn [list_ascii_of_string forallb] in Hblank.
    apply andb_true_iff in Hblank as [Hb Hblank].
    rewrite append_cons. cbn [readValue step]. unfold beginValue. rewrite Hb.
    now apply IH.
Qed.

Section NotJSON.

Variable url_ok : string -> bool.

(** X23. A 200 response whose body does not start a JSON value, an HTML
    page or a plain sentence for instance, makes [Send] return the zero
    response and the syntax error of the decoder, which names the first byte
    after the leading white space. *)
Theorem Send_on_a_body_that_starts_no_value client messages buffer blanks c rest :
  json_Marshal (envelope client messages) = Ok buffer ->
  url_ok (sendMessages_url client) = true ->
  Client_Do (SmsGatewayClient.httpClient client) (post (sendMessages_url client) buffer)
  = value (Some (Response.Make 200 (blanks +:+ String c rest)), None) ->
  is_blank blanks = true -> isSpace c = false -> begins_value c = false ->
  result (Send url_ok client messages)
  = value (SmsGatewayResponse.zero,
           Some (SyntaxError c "looking for beginning of value")).
Proof.
  intros Hm Hurl Hdo Hblank Hc Hbegin.
  rewrite (Send_after_marshal _ _ _ _ Hm Hurl). cbn zeta. rewrite Hdo.
  cbn [Response.StatusCode Response.Body Z.eqb Pos.eqb]. unfold Decode.
  now rewrite (readValue_not_a_value blanks c rest Hblank Hc Hbegin).
Qed.

(** X24. An answer cut short is never taken for an answer.  When the body
    of a 200 response is a proper prefix, not empty, of the bytes
    [json.Marshal] writes for a response, whatever that response holds,
    [Send] returns the zero response and [io.ErrUnexpectedEOF]. *)
Theorem Send_on_a_truncated_answer client messages buffer
        (r : SmsGatewayResponse.t) (p q : string) :
  json_Marshal (envelope client messages) = Ok buffer ->
  url_ok (sendMessages_url client) = true ->
  encode (marshal_SmsGatewayResponse r) = p +:+ q -> p <> "" -> q <> "" ->
  Client_Do (SmsGatewayClient.httpClient client) (post (sendMessages_url client) buffer)
  = value (Some (Response.Make 200 p), None) ->
  result (Send url_ok client messages)
  = value (SmsGatewayResponse.zero, Some io_ErrUnexpectedEOF).
Proof.
  intros Hm Hurl Hsplit Hp Hq Hdo.
  rewrite (Send_after_marshal _ _ _ _ Hm Hurl). cbn zeta. rewrite Hdo.
  cbn [Response.StatusCode Response.Body Z.eqb Pos.eqb]. unfold Decode.
  destruct (fits_marshal_SmsGatewayResponse r) as [Hi Hd].
  unfold marshal_SmsGatewayResponse in *.
  match type of Hsplit with encode (JObj ?members) = _ =>
    pose proof (reads_top_object members "" Hi ltac:(unfold maxNestingDepth; lia) false) as R
  end.
  rewrite append_nil, Hsplit in R.
  apply readValue_truncated in R; [|exact Hq|intros l; discriminate]. rewrite R.
  destruct p as [|c p]; [now destruct Hp|].
  change (encode (JObj ?m)) with ("{" +:+ join_comma (map encode_member m) +:+ "}") in Hsplit.
  rewrite !append_cons in Hsplit. injection Hsplit as <- _. reflexivity.
Qed.

End NotJSON.

(** ** Instances *)

Lemma Send_on_a_body_that_starts_no_value_witness :
  result (Send all_urls html_client (Some [Message.zero]))
  = value (SmsGatewayResponse.zero,
           Some (SyntaxError "<" "looking for beginning of value")).
Proof.
  apply (Send_on_a_body_that_starts_no_value all_urls html_client (Some [Message.zero])
           (encode zero_batch_json) " " "<" "html><body>Service unavailable</body></html>");
    vm_compute; reflexivity.
Defined.

Lemma Send_on_a_truncated_answer_witness :
  result (Send all_urls cut_client (Some [Message.zero]))
  = value (SmsGatewayResponse.zero, Some io_ErrUnexpectedEOF).
Proof.
  apply (Send_on_a_truncated_answer all_urls cut_client (Some [Message.zero])
           (encode zero_batch_json) response_example
           (substring 0 40 (encode (marshal_SmsGatewayResponse response_example)))
           (substring 40 200 (encode (marshal_SmsGatewayResponse response_example))));
    try (vm_compute; reflexivity); vm_compute; discriminate.
Defined.
